(** * Time-slot analysis engine of the email send-time optimizer

    Shallow embedding of [src/utils/analysisEngine.ts] (with the helpers of
    [validation.ts] and the declarations of [types/index.ts] it relies on)
    and the properties of its three analysis modes; then the helpers beside
    them (heatmap and distributions), the filtering of [dataProcessor.ts]
    that feeds them and the statistics of [insightsGenerator.ts] that read
    the same records.

    Conventions of the embedding.
    - JavaScript numbers holding rates and scores are exact rationals ([Q]);
      rounding, [NaN] and the infinities of IEEE doubles are outside the
      model.  What is stated of an average is therefore stated of the sum
      the code forms, value after value in the order of the records,
      divided by their number, and what is stated of the order a sort
      leaves is stated for rates that are percentages, from 0 to 100,
      whose averages and scores are numbers a difference compares.
    - [Math.min(...dates)] passes one argument per record, and an engine
      refuses a call with more arguments than its stack holds (a
      [RangeError]).  That limit is outside the model, where the call
      always answers: what the properties say of a result is said of a
      result that is returned.
    - [hourOfDay] is an integer ([Z]): the normaliser fills it with
      [Date.getHours()].  The hour of a computed time slot comes out of
      [parseInt], which may answer [NaN]; it is an [option Z] with [None]
      for [NaN].
    - A [Date] is its [getTime()] value, an integer number of milliseconds.
    - [new Date()] reads the wall clock: computations thread a clock, the
      stream of the readings still to come.
    - [throw new Error(msg)] is the outcome [Throw msg].
    - A [Map] is an association list in insertion order, which is the order
      in which [entries()] and [values()] enumerate it. *)

From Stdlib Require Import String Ascii List ZArith QArith Lia Bool.
From Stdlib Require Import Permutation Sorted DecimalString Lqa Qround.
Import ListNotations.

Local Open Scope string_scope.
Local Open Scope list_scope.
Local Open Scope Z_scope.

(** ** Data model ([types/index.ts]) *)

Record ProcessedEmailData := mkRow {
  businessUnit : string;
  organizationType : string;
  campaignType : string;
  sendDate : Z;
  sendTime : string;
  dayOfWeek : string;
  hourOfDay : Z;
  openRate : Q;
  clickRate : Q;
  unsubscribeRate : Q;
  bounceRate : Q
}.

Record FilterOptions := mkFilters {
  f_businessUnit : string;
  f_organizationType : string;
  f_campaignType : string;
  f_timezone : option string
}.

Record TimeSlotAnalysis := mkSlot {
  ts_dayOfWeek : string;
  ts_hourOfDay : option Z;
  ts_timeLabel : string;
  ts_avgOpenRate : Q;
  ts_avgClickRate : Q;
  ts_sampleSize : nat;
  ts_score : Q
}.

Record DateRange := mkRange { dr_start : Z; dr_end : Z }.

Record Metadata := mkMeta {
  totalRecords : nat;
  dateRange : DateRange;
  filters : FilterOptions;
  analysisType : string;
  timestamp : Z
}.

Record AnalysisResult := mkResult {
  primary : TimeSlotAnalysis;
  secondary : TimeSlotAnalysis;
  tertiary : TimeSlotAnalysis;
  allTimeSlots : list TimeSlotAnalysis;
  metadata : Metadata
}.

Record BestPractice := mkBP {
  bp_dayOfWeek : string;
  bp_hourOfDay : Z;
  bp_timeLabel : string;
  bp_score : Q;
  bp_reasoning : string
}.

(** ** Effects: the wall clock and thrown errors *)

Definition Clock := nat -> Z.

Inductive outcome (A : Type) : Type :=
| Ok (a : A)
| Throw (message : string).
Arguments Ok {A} a.
Arguments Throw {A} message.

Definition M (A : Type) : Type := Clock -> outcome A * Clock.

Definition ret {A} (a : A) : M A := fun clk => (Ok a, clk).

Definition throw {A} (message : string) : M A := fun clk => (Throw message, clk).

Definition bind {A B} (m : M A) (k : A -> M B) : M B :=
  fun clk =>
    match m clk with
    | (Ok a, clk') => k a clk'
    | (Throw e, clk') => (Throw e, clk')
    end.

Notation "'let*' x ':=' m 'in' k" := (bind m (fun x => k))
  (at level 10, x name, m at level 100, k at level 200).

(** [new Date()]: the next reading of the clock. *)
Definition new_Date : M Z := fun clk => (Ok (clk 0%nat), fun n => clk (S n)).

(** ** Strings and numbers as JavaScript converts them *)

(** [String(n)] for an integer [n]. *)
Definition string_of_Z (z : Z) : string := NilZero.string_of_int (Z.to_int z).

(** [String(n)] for a number that may be [NaN]. *)
Definition string_of_number (n : option Z) : string :=
  match n with
  | Some z => string_of_Z z
  | None => "NaN"
  end.

Definition dash : ascii := "-"%char.

(** [s.split("-")]: the pieces between the dashes, at least one (so the
    empty case of the inner match is never taken). *)
Fixpoint split_dash (s : string) : list string :=
  match s with
  | EmptyString => [EmptyString]
  | String c s' =>
      if Ascii.eqb c dash then EmptyString :: split_dash s'
      else match split_dash s' with
           | piece :: pieces => String c piece :: pieces
           | [] => [String c EmptyString]
           end
  end.

Definition is_white_space (c : ascii) : bool :=
  let n := nat_of_ascii c in
  (Nat.eqb n 32 || (Nat.leb 9 n && Nat.leb n 13))%bool.

Fixpoint trim_start (s : string) : string :=
  match s with
  | String c s' => if is_white_space c then trim_start s' else s
  | EmptyString => s
  end.

Definition digit_value (c : ascii) : option Z :=
  let n := Z.of_nat (nat_of_ascii c) in
  if (48 <=? n) && (n <=? 57) then Some (n - 48)
  else if (97 <=? n) && (n <=? 122) then Some (n - 87)
  else if (65 <=? n) && (n <=? 90) then Some (n - 55)
  else None.

(** The value of the longest prefix of digits of the radix, [acc] so far. *)
Fixpoint read_digits (radix : Z) (s : string) (acc : option Z) : option Z :=
  match s with
  | EmptyString => acc
  | String c s' =>
      match digit_value c with
      | Some d =>
          if d <? radix
          then read_digits radix s'
                 (Some (match acc with Some a => a * radix + d | None => d end))
          else acc
      | None => acc
      end
  end.

(** [parseInt(s)] without a radix argument; [None] is [NaN]. *)
Definition parseInt (s : string) : option Z :=
  let s1 := trim_start s in
  let '(sign, s2) :=
    match s1 with
    | String "-"%char r => (-1, r)
    | String "+"%char r => (1, r)
    | _ => (1, s1)
    end in
  let '(radix, s3) :=
    match s2 with
    | String "0"%char (String "x"%char r) => (16, r)
    | String "0"%char (String "X"%char r) => (16, r)
    | _ => (10, s2)
    end in
  option_map (Z.mul sign) (read_digits radix s3 None).

(** [formatTimeLabel] of [validation.ts]. *)
Definition formatTimeLabel (hour : option Z) : string :=
  let period :=
    match hour with
    | Some h => if 12 <=? h then "PM" else "AM"
    | None => "AM"
    end in
  let displayHour :=
    match hour with
    | Some h => if h =? 0 then Some 12 else if 12 <? h then Some (h - 12) else Some h
    | None => None
    end in
  (string_of_number displayHour ++ ":00 " ++ period)%string.

(** ** Maps in insertion order *)

Section InsertionOrderedMap.
Context {V : Type}.

Definition map_t := list (string * V).

Fixpoint map_get (k : string) (m : map_t) : option V :=
  match m with
  | [] => None
  | (k', v) :: m' => if String.eqb k k' then Some v else map_get k m'
  end.

Definition map_has (k : string) (m : map_t) : bool :=
  match map_get k m with Some _ => true | None => false end.

(** Overwrite the value at an existing key, keeping its position. *)
Fixpoint map_replace (k : string) (v : V) (m : map_t) : map_t :=
  match m with
  | [] => []
  | (k', v') :: m' =>
      if String.eqb k k' then (k', v) :: m' else (k', v') :: map_replace k v m'
  end.

Definition map_set (k : string) (v : V) (m : map_t) : map_t :=
  if map_has k m then map_replace k v m else m ++ [(k, v)].

Definition map_values (m : map_t) : list V := map snd m.
End InsertionOrderedMap.
Arguments map_t V : clear implicits.

(** ** [Array.prototype.sort] with a comparator

    [compareFn a b > 0] asks for [a] behind [b].  The sort is stable: an
    element moves behind a later one only when the comparator asks for it.
    It is modelled by insertion from the right; a comparator that orders
    consistently, as the difference of two rational scores does, leaves no
    other stable result. *)

Section Sort.
Context {A : Type} (compareFn : A -> A -> Q).

Fixpoint sort_insert (x : A) (l : list A) : list A :=
  match l with
  | [] => [x]
  | y :: l' =>
      match (compareFn x y ?= 0)%Q with
      | Gt => y :: sort_insert x l'
      | _ => x :: y :: l'
      end
  end.

Definition array_sort (l : list A) : list A := fold_right sort_insert [] l.
End Sort.

(** ** The analysis engine ([utils/analysisEngine.ts]) *)

Local Open Scope Q_scope.

Definition BEST_PRACTICES : list BestPractice :=
  [ mkBP "Tuesday" 10 "10:00 AM" 95
      "Peak engagement time - people are settled into work and checking emails";
    mkBP "Thursday" 14 "2:00 PM" 90
      "Post-lunch period with high email activity";
    mkBP "Wednesday" 9 "9:00 AM" 85
      "Mid-week morning when inboxes are being cleared";
    mkBP "Tuesday" 14 "2:00 PM" 82
      "Strong afternoon engagement on Tuesday";
    mkBP "Thursday" 10 "10:00 AM" 80
      "Late-week morning with good open rates" ].

Definition createEmptyTimeSlot : TimeSlotAnalysis :=
  mkSlot "N/A" (Some 0%Z) "N/A" 0 0 0%nat 0.

(** [a[i] || createEmptyTimeSlot()]: an element is an object, hence truthy;
    only the [undefined] of a missing index falls through. *)
Definition slot_or_empty (a : list TimeSlotAnalysis) (i : nat) : TimeSlotAnalysis :=
  match nth_error a i with
  | Some slot => slot
  | None => createEmptyTimeSlot
  end.

Definition best_practice_slot (bp : BestPractice) : TimeSlotAnalysis :=
  mkSlot (bp_dayOfWeek bp) (Some (bp_hourOfDay bp)) (bp_timeLabel bp)
         (bp_score bp) (bp_score bp * 0.3) 0%nat (bp_score bp).

Definition all_filters : FilterOptions := mkFilters "All" "All" "All" None.

(** The table has five rows, so the three indexed reads below always find
    an element; [nth]'s default is never returned. *)
Definition analyzeBestPractices : M AnalysisResult :=
  let allTimeSlots := map best_practice_slot BEST_PRACTICES in
  let* start := new_Date in
  let* end_ := new_Date in
  let* timestamp := new_Date in
  ret (mkResult (nth 0 allTimeSlots createEmptyTimeSlot)
                (nth 1 allTimeSlots createEmptyTimeSlot)
                (nth 2 allTimeSlots createEmptyTimeSlot)
                allTimeSlots
                (mkMeta 0 (mkRange start end_) all_filters "best-practices" timestamp)).

(** The key [`${row.dayOfWeek}-${row.hourOfDay}`]. *)
Definition row_key (row : ProcessedEmailData) : string :=
  (dayOfWeek row ++ "-" ++ string_of_Z (hourOfDay row))%string.

(** One turn of the grouping loop: create the array of the key when the map
    lacks it, then push the row on the array held by the map. *)
Definition group_row (timeSlotMap : map_t (list ProcessedEmailData))
    (row : ProcessedEmailData) : map_t (list ProcessedEmailData) :=
  let key := row_key row in
  let m := if map_has key timeSlotMap then timeSlotMap
           else map_set key [] timeSlotMap in
  match map_get key m with
  | Some records => map_replace key (records ++ [row]) m
  | None => m
  end.

Definition group_rows (data : list ProcessedEmailData)
  : map_t (list ProcessedEmailData) :=
  fold_left group_row data [].

Definition array_length {A} (a : list A) : Q := inject_Z (Z.of_nat (length a)).

(** The statistics of one entry [[key, records]] of the map.  Each average
    is the [reduce] of the code: the rates added to 0 one after the other,
    in the order of [records], then divided by their number. *)
Definition time_slot_of_entry (entry : string * list ProcessedEmailData)
  : TimeSlotAnalysis :=
  let '(key, records) := entry in
  let pieces := split_dash key in
  let dayOfWeek := nth 0 pieces "undefined"%string in
  let hourStr := nth 1 pieces "undefined"%string in
  let hourOfDay := parseInt hourStr in
  let avgOpenRate :=
    fold_left (fun sum r => sum + openRate r) records 0 / array_length records in
  let avgClickRate :=
    fold_left (fun sum r => sum + clickRate r) records 0 / array_length records in
  let score := avgOpenRate * 0.7 + avgClickRate * 0.3 in
  mkSlot dayOfWeek hourOfDay (formatTimeLabel hourOfDay)
         avgOpenRate avgClickRate (length records) score.

(** The comparator [(a, b) => b.score - a.score].  Its sign compares the
    two scores as long as both are numbers; a score that is [NaN] (the
    average of rates [Infinity] and [-Infinity]) has no place in [Q]. *)
Definition by_score_descending (a b : TimeSlotAnalysis) : Q :=
  ts_score b - ts_score a.

(** [Math.min(...dates)] and [Math.max(...dates)] of a non-empty array,
    for an array short enough to be spread into one call. *)
Definition Math_min (d : Z) (dates : list Z) : Z := fold_left Z.min dates d.
Definition Math_max (d : Z) (dates : list Z) : Z := fold_left Z.max dates d.

Definition analyzeHistoricalData (data : list ProcessedEmailData)
    (filters : FilterOptions) : M AnalysisResult :=
  match data with
  | [] => throw "No data available for analysis"
  | row :: rows =>
      let timeSlotMap := group_rows data in
      let timeSlots :=
        array_sort by_score_descending (map time_slot_of_entry timeSlotMap) in
      let minDate := Math_min (sendDate row) (map sendDate rows) in
      let maxDate := Math_max (sendDate row) (map sendDate rows) in
      let* timestamp := new_Date in
      ret (mkResult (slot_or_empty timeSlots 0)
                    (slot_or_empty timeSlots 1)
                    (slot_or_empty timeSlots 2)
                    timeSlots
                    (mkMeta (length data) (mkRange minDate maxDate) filters
                            "historical" timestamp))
  end.

(** The key [`${slot.dayOfWeek}-${slot.hourOfDay}`]. *)
Definition slot_key (slot : TimeSlotAnalysis) : string :=
  (ts_dayOfWeek slot ++ "-" ++ string_of_number (ts_hourOfDay slot))%string.

Definition with_score (slot : TimeSlotAnalysis) (score : Q) : TimeSlotAnalysis :=
  mkSlot (ts_dayOfWeek slot) (ts_hourOfDay slot) (ts_timeLabel slot)
         (ts_avgOpenRate slot) (ts_avgClickRate slot) (ts_sampleSize slot) score.

(** First loop of [analyzeCombined]: a copy of each historical slot, its
    score scaled. *)
Definition add_historical (combinedMap : map_t TimeSlotAnalysis)
    (slot : TimeSlotAnalysis) : map_t TimeSlotAnalysis :=
  map_set (slot_key slot) (with_score slot (ts_score slot * 0.6)) combinedMap.

(** Second loop: the three assignments to the object the map holds, or the
    insertion of a copy of the best-practice slot. *)
Definition merge_best_practice (combinedMap : map_t TimeSlotAnalysis)
    (slot : TimeSlotAnalysis) : map_t TimeSlotAnalysis :=
  let key := slot_key slot in
  match map_get key combinedMap with
  | Some existing =>
      map_replace key
        (mkSlot (ts_dayOfWeek existing) (ts_hourOfDay existing)
                (ts_timeLabel existing)
                (ts_avgOpenRate existing * 0.6 + ts_avgOpenRate slot * 0.4)
                (ts_avgClickRate existing * 0.6 + ts_avgClickRate slot * 0.4)
                (ts_sampleSize existing)
                (ts_score existing + ts_score slot * 0.4))
        combinedMap
  | None =>
      map_set key
        (mkSlot (ts_dayOfWeek slot) (ts_hourOfDay slot) (ts_timeLabel slot)
                (ts_avgOpenRate slot) (ts_avgClickRate slot) 0%nat
                (ts_score slot * 0.4))
        combinedMap
  end.

Definition analyzeCombined (data : list ProcessedEmailData)
    (filters : FilterOptions) : M AnalysisResult :=
  match data with
  | [] => analyzeBestPractices
  | _ :: _ =>
      let* historical := analyzeHistoricalData data filters in
      let* bestPractices := analyzeBestPractices in
      let combinedMap :=
        fold_left merge_best_practice (allTimeSlots bestPractices)
          (fold_left add_historical (allTimeSlots historical) []) in
      let allTimeSlots :=
        array_sort by_score_descending (map_values combinedMap) in
      let* timestamp := new_Date in
      ret (mkResult (slot_or_empty allTimeSlots 0)
                    (slot_or_empty allTimeSlots 1)
                    (slot_or_empty allTimeSlots 2)
                    allTimeSlots
                    (mkMeta (length data) (dateRange (metadata historical)) filters
                            "combined" timestamp))
  end.

Definition performAnalysis (data : list ProcessedEmailData)
    (analysisType : string) (filters : FilterOptions) : M AnalysisResult :=
  if String.eqb analysisType "best-practices" then analyzeBestPractices
  else if String.eqb analysisType "historical" then analyzeHistoricalData data filters
  else if String.eqb analysisType "combined" then analyzeCombined data filters
  else throw ("Unknown analysis type: " ++ analysisType)%string.

(** ** Vocabulary of the properties *)

(** The message of the error thrown for an empty dataset. *)
Definition EmptyDatasetError : string := "No data available for analysis".

(** The message of the error thrown for an analysis type outside the three
    known ones. *)
Definition UnknownAnalysisType (analysisType : string) : string :=
  ("Unknown analysis type: " ++ analysisType)%string.

(** The slots historical analysis ranks and those combined analysis ranks,
    for a dataset that is not empty. *)
Definition historical_slots (data : list ProcessedEmailData) : list TimeSlotAnalysis :=
  array_sort by_score_descending (map time_slot_of_entry (group_rows data)).

Definition combined_slots (data : list ProcessedEmailData) : list TimeSlotAnalysis :=
  array_sort by_score_descending
    (map_values
       (fold_left merge_best_practice (map best_practice_slot BEST_PRACTICES)
          (fold_left add_historical (historical_slots data) []))).


Definition top_three (r : AnalysisResult) : list TimeSlotAnalysis :=
  [primary r; secondary r; tertiary r].

(** Non-increasing scores along a ranked list. *)
Definition score_ge (a b : TimeSlotAnalysis) : Prop := ts_score b <= ts_score a.

(** Two invocations, one after the other on the same clock. *)
Definition analyse_twice (data : list ProcessedEmailData) (analysisType : string)
    (filters : FilterOptions) : M (AnalysisResult * AnalysisResult) :=
  let* first := performAnalysis data analysisType filters in
  let* second := performAnalysis data analysisType filters in
  ret (first, second).

(** What two outcomes share whatever the clock showed. *)
Definition agree_up_to_clock (o1 o2 : outcome AnalysisResult) : Prop :=
  match o1, o2 with
  | Ok a, Ok b =>
      primary a = primary b /\ secondary a = secondary b /\
      tertiary a = tertiary b /\ allTimeSlots a = allTimeSlots b /\
      totalRecords (metadata a) = totalRecords (metadata b) /\
      filters (metadata a) = filters (metadata b) /\
      analysisType (metadata a) = analysisType (metadata b) /\
      (analysisType (metadata a) <> "best-practices"%string ->
       dateRange (metadata a) = dateRange (metadata b))
  | Throw e1, Throw e2 => e1 = e2
  | _, _ => False
  end.

(** The readings of the clock that end up in the result, by their rank
    among the readings one invocation takes.  Best-practices analysis
    reads the clock three times, for the two ends of the date range and
    for the timestamp.  Historical analysis reads it once, for the
    timestamp.  Combined analysis of records runs both, drops what they
    read (four readings) and reads the clock a fifth time for its own
    timestamp. *)
Definition readings_kept (data : list ProcessedEmailData) (analysisType : string)
  : list nat :=
  if String.eqb analysisType "best-practices" then [0; 1; 2]%nat
  else if String.eqb analysisType "historical"
  then match data with [] => [] | _ :: _ => [0%nat] end
  else if String.eqb analysisType "combined"
  then match data with [] => [0; 1; 2]%nat | _ :: _ => [4%nat] end
  else [].

(** The fields of a result that hold readings of the clock: the timestamp,
    and before it, in a best-practices result, the two ends of the date
    range. *)
Definition clock_fields (r : AnalysisResult) : list Z :=
  if String.eqb (analysisType (metadata r)) "best-practices"
  then [dr_start (dateRange (metadata r)); dr_end (dateRange (metadata r));
        timestamp (metadata r)]
  else [timestamp (metadata r)].

(** What two outcomes share whatever filters the caller supplied: all of
    the result but the filters its metadata holds. *)
Definition agree_up_to_filters (o1 o2 : outcome AnalysisResult) : Prop :=
  match o1, o2 with
  | Ok a, Ok b =>
      primary a = primary b /\ secondary a = secondary b /\
      tertiary a = tertiary b /\ allTimeSlots a = allTimeSlots b /\
      totalRecords (metadata a) = totalRecords (metadata b) /\
      dateRange (metadata a) = dateRange (metadata b) /\
      analysisType (metadata a) = analysisType (metadata b) /\
      timestamp (metadata a) = timestamp (metadata b)
  | Throw e1, Throw e2 => e1 = e2
  | _, _ => False
  end.

(** The day names [getDayOfWeek] of [validation.ts] picks from. *)
Definition weekdays : list string :=
  ["Sunday"; "Monday"; "Tuesday"; "Wednesday"; "Thursday"; "Friday"; "Saturday"]%string.

(** The records the normaliser hands over: the day is one of the seven
    names and the hour a value of [Date.getHours()]. *)
Definition valid_record (r : ProcessedEmailData) : Prop :=
  In (dayOfWeek r) weekdays /\ (0 <= hourOfDay r <= 23)%Z.

Definition number_eqb (a b : option Z) : bool :=
  match a, b with
  | Some x, Some y => (x =? y)%Z
  | _, _ => false
  end.

(** The values [Date.getHours()] can take. *)
Definition hours_of_day : list Z := map Z.of_nat (seq 0 24).

(** No dash occurs in the string. *)
Fixpoint no_dash (s : string) : bool :=
  match s with
  | EmptyString => true
  | String c s' => negb (Ascii.eqb c dash) && no_dash s'
  end.

(** The record falls in the bucket: same day of week, same hour of day. *)
Definition in_bucket (b : TimeSlotAnalysis) (r : ProcessedEmailData) : bool :=
  String.eqb (dayOfWeek r) (ts_dayOfWeek b) &&
  number_eqb (Some (hourOfDay r)) (ts_hourOfDay b).

Definition members (data : list ProcessedEmailData) (b : TimeSlotAnalysis)
  : list ProcessedEmailData :=
  filter (in_bucket b) data.

Definition total (xs : list Q) : Q := fold_right Qplus 0 xs.

(** The arithmetic mean of a list of rates, taken in exact arithmetic. *)
Definition mean (xs : list Q) : Q := total xs / inject_Z (Z.of_nat (length xs)).

(** The sum as the code accumulates it: starting from 0, the values of the
    records added one after the other, in the order of the list. *)
Definition sum_in_order (f : ProcessedEmailData -> Q) (rows : list ProcessedEmailData)
  : Q :=
  fold_left (fun sum r => sum + f r) rows 0.

(** The average as the code computes it: that sum, divided by the number
    of the records. *)
Definition average (f : ProcessedEmailData -> Q) (rows : list ProcessedEmailData)
  : Q :=
  sum_in_order f rows / array_length rows.

(** Two slots for the same day of week and hour of day. *)
Definition same_time_slot (a b : TimeSlotAnalysis) : bool :=
  String.eqb (ts_dayOfWeek a) (ts_dayOfWeek b) &&
  number_eqb (ts_hourOfDay a) (ts_hourOfDay b).

(** The five buckets of best-practices analysis. *)
Definition best_practice_slots : list TimeSlotAnalysis :=
  map best_practice_slot BEST_PRACTICES.

(** The blend in words: a historical bucket without a best-practice entry
    keeps its rates and has its score scaled by 0.6. *)
Definition scaled_historical (h : TimeSlotAnalysis) : TimeSlotAnalysis :=
  mkSlot (ts_dayOfWeek h) (ts_hourOfDay h) (ts_timeLabel h)
         (ts_avgOpenRate h) (ts_avgClickRate h) (ts_sampleSize h)
         (ts_score h * 0.6).

(** A historical bucket [h] with a best-practice entry [s]: score and rates
    weighted 0.6 to 0.4, the historical sample size retained. *)
Definition blended (h s : TimeSlotAnalysis) : TimeSlotAnalysis :=
  mkSlot (ts_dayOfWeek h) (ts_hourOfDay h) (ts_timeLabel h)
         (ts_avgOpenRate h * 0.6 + ts_avgOpenRate s * 0.4)
         (ts_avgClickRate h * 0.6 + ts_avgClickRate s * 0.4)
         (ts_sampleSize h)
         (ts_score h * 0.6 + ts_score s * 0.4).

(** A best-practice entry without a historical bucket, as the code inserts
    it: the score scaled by 0.4, the rates as they are, no samples. *)
Definition inserted (s : TimeSlotAnalysis) : TimeSlotAnalysis :=
  mkSlot (ts_dayOfWeek s) (ts_hourOfDay s) (ts_timeLabel s)
         (ts_avgOpenRate s) (ts_avgClickRate s) 0%nat (ts_score s * 0.4).

Definition blend_with (entries : list TimeSlotAnalysis) (h : TimeSlotAnalysis)
  : TimeSlotAnalysis :=
  match find (same_time_slot h) entries with
  | Some s => blended h s
  | None => scaled_historical h
  end.

Definition unmatched (historical : list TimeSlotAnalysis) (s : TimeSlotAnalysis) : bool :=
  negb (existsb (fun h => same_time_slot h s) historical).

(** The buckets of the blend: one per historical bucket, then one per
    best-practice entry that no historical bucket matches. *)
Definition blend (historical entries : list TimeSlotAnalysis) : list TimeSlotAnalysis :=
  map (blend_with entries) historical ++
  map inserted (filter (unmatched historical) entries).

(** The map the second loop of [analyzeCombined] holds once the entries
    went through it. *)
Definition blend_map (historical entries : list TimeSlotAnalysis)
  : map_t TimeSlotAnalysis :=
  map (fun h => (slot_key h, blend_with entries h)) historical ++
  map (fun s => (slot_key s, inserted s)) (filter (unmatched historical) entries).

(** The insertion as the specification words it, every value of the entry
    scaled by 0.4: what a bucket [b] inserted for the entry [s] would be. *)
Definition inserted_all_scaled (s b : TimeSlotAnalysis) : Prop :=
  same_time_slot b s = true /\ ts_sampleSize b = 0%nat /\
  ts_score b == ts_score s * 0.4 /\
  ts_avgOpenRate b == ts_avgOpenRate s * 0.4 /\
  ts_avgClickRate b == ts_avgClickRate s * 0.4.

(** Slots whose key can be taken apart again: a day without dash and an
    hour of the day. *)
Definition clean_slot (b : TimeSlotAnalysis) : Prop :=
  no_dash (ts_dayOfWeek b) = true /\
  exists h : Z, ts_hourOfDay b = Some h /\ (0 <= h <= 23)%Z.

(** What the map holds once the records [seen] went through the grouping
    loop: one entry for each key that occurs, holding the records of that
    key. *)
Definition grouped (seen : list ProcessedEmailData)
    (m : map_t (list ProcessedEmailData)) : Prop :=
  NoDup (map fst m) /\
  forall k rs,
    In (k, rs) m <->
    rs = filter (fun r => String.eqb (row_key r) k) seen /\ rs <> [].

Definition entry_size (entry : string * list ProcessedEmailData) : nat :=
  length (snd entry).

(** Sample data for the worked examples. *)
Definition sample_row (day : string) (hour : Z) (open click : Q) : ProcessedEmailData :=
  mkRow "Unknown" "Unknown" "Unknown" 0 "12:00" day hour open click 0 0.

(** Two campaigns on Tuesday at 10 and one on Friday at 16. *)
Definition scenario_rows : list ProcessedEmailData :=
  [sample_row "Tuesday" 10 40 5; sample_row "Tuesday" 10 60 15;
   sample_row "Friday" 16 10 1].

Definition ticking : Clock := fun n => Z.of_nat n.

Definition sales_filters : FilterOptions := mkFilters "Sales" "All" "All" None.

(** ** The helpers beside the three modes ([utils/analysisEngine.ts]) *)

(** A [Map] whose keys are compared by [eqb], in insertion order (numbers
    as keys: [Z.eqb]). *)
Section KeyedMap.
Context {K V : Type} (eqb : K -> K -> bool).

Fixpoint kmap_get (k : K) (m : list (K * V)) : option V :=
  match m with
  | [] => None
  | (k', v) :: m' => if eqb k k' then Some v else kmap_get k m'
  end.

Fixpoint kmap_replace (k : K) (v : V) (m : list (K * V)) : list (K * V) :=
  match m with
  | [] => []
  | (k', v') :: m' =>
      if eqb k k' then (k', v) :: m' else (k', v') :: kmap_replace k v m'
  end.

Definition kmap_set (k : K) (v : V) (m : list (K * V)) : list (K * V) :=
  match kmap_get k m with
  | Some _ => kmap_replace k v m
  | None => m ++ [(k, v)]
  end.
End KeyedMap.

Record HeatmapCell := mkCell {
  hm_day : string;
  hm_hour : Z;
  hm_value : Q;
  hm_count : nat
}.

(** The [days] array of [getHeatmapData] and of [getDayDistribution]. *)
Definition monday_first : list string :=
  ["Monday"; "Tuesday"; "Wednesday"; "Thursday"; "Friday"; "Saturday"; "Sunday"]%string.

(** [Array.from({ length: 24 }, (_, i) => i)]. *)
Definition hours_0_23 : list Z := map Z.of_nat (seq 0 24).

(** The body of the inner loop of [getHeatmapData]: the cell of one day
    and hour is pushed when some record has them. *)
Definition heatmap_visit (data : list ProcessedEmailData) (day : string)
    (heatmapData : list HeatmapCell) (hour : Z) : list HeatmapCell :=
  let records :=
    filter (fun r => String.eqb (dayOfWeek r) day && (hourOfDay r =? hour)%Z) data in
  if (0 <? length records)%nat
  then heatmapData ++
       [mkCell day hour
          (fold_left (fun sum r => sum + openRate r) records 0 / array_length records)
          (length records)]
  else heatmapData.

Definition getHeatmapData (data : list ProcessedEmailData) : list HeatmapCell :=
  fold_left (fun heatmapData day =>
               fold_left (heatmap_visit data day) hours_0_23 heatmapData)
            monday_first [].

Record HourCount := mkHourCount {
  hc_hour : Z;
  hc_timeLabel : string;
  hc_count : nat
}.

(** One turn of the loop of [getTimeDistribution]; a count read as 0 by
    the [|| 0] is 0 anyway. *)
Definition count_hour (hourCounts : list (Z * nat)) (row : ProcessedEmailData)
  : list (Z * nat) :=
  let count :=
    match kmap_get Z.eqb (hourOfDay row) hourCounts with
    | Some c => c
    | None => 0%nat
    end in
  kmap_set Z.eqb (hourOfDay row) (count + 1)%nat hourCounts.

Definition by_hour_ascending (a b : HourCount) : Q :=
  inject_Z (hc_hour a - hc_hour b).

Definition getTimeDistribution (data : list ProcessedEmailData) : list HourCount :=
  let hourCounts := fold_left count_hour data [] in
  array_sort by_hour_ascending
    (map (fun entry : Z * nat =>
            let '(hour, count) := entry in
            mkHourCount hour (formatTimeLabel (Some hour)) count)
         hourCounts).

(** The object [{ count, avgOpenRate }] the map of [getDayDistribution]
    holds: [avgOpenRate] accumulates the sum of the open rates. *)
Record DayTotals := mkDayTotals {
  dt_count : nat;
  dt_avgOpenRate : Q
}.

Record DayCount := mkDayCount {
  dd_day : string;
  dd_count : nat;
  dd_avgOpenRate : Q
}.

(** One turn of the loop of [getDayDistribution]: the object of the day
    (a fresh one when the map lacks the day) is updated and set. *)
Definition count_day (dayCounts : map_t DayTotals) (row : ProcessedEmailData)
  : map_t DayTotals :=
  let existing :=
    match map_get (dayOfWeek row) dayCounts with
    | Some e => e
    | None => mkDayTotals 0 0
    end in
  map_set (dayOfWeek row)
    (mkDayTotals (dt_count existing + 1) (dt_avgOpenRate existing + openRate row))
    dayCounts.

Definition count_as_number (n : nat) : Q := inject_Z (Z.of_nat n).

(** The days are filtered on [dayCounts.has(day)] first, so the [get]
    below always finds the object of the day. *)
Definition getDayDistribution (data : list ProcessedEmailData) : list DayCount :=
  let dayCounts := fold_left count_day data [] in
  map (fun day =>
         let d := match map_get day dayCounts with
                  | Some d => d
                  | None => mkDayTotals 0 0
                  end in
         mkDayCount day (dt_count d) (dt_avgOpenRate d / count_as_number (dt_count d)))
      (filter (fun day => map_has day dayCounts) monday_first).

(** ** The normaliser's helpers ([utils/validation.ts], [utils/dataProcessor.ts]) *)

(** Local time as ECMAScript defines it from the time value [t] of a
    [Date]: [LocalTZA t] is the offset of the local time zone at [t], in
    milliseconds; [getDay] is the week day of the local day (day 0 of the
    epoch was a Thursday), [getHours] the hour within it. *)
Section LocalTime.
Variable LocalTZA : Z -> Z.

Definition msPerDay : Z := 86400000.
Definition msPerHour : Z := 3600000.

Definition LocalTime (t : Z) : Z := (t + LocalTZA t)%Z.

Definition Date_getDay (date : Z) : Z := ((LocalTime date / msPerDay + 4) mod 7)%Z.

Definition Date_getHours (date : Z) : Z := ((LocalTime date / msPerHour) mod 24)%Z.

(** [days[date.getDay()]]; an index outside the array would read
    [undefined]. *)
Definition getDayOfWeek (date : Z) : string :=
  nth (Z.to_nat (Date_getDay date)) weekdays "undefined"%string.

Definition getHourOfDay (date : Z) : Z := Date_getHours date.
End LocalTime.

(** The [filters] argument of [filterData]: each field may be absent. *)
Record FilterCriteria := mkCriteria {
  fc_businessUnit : option string;
  fc_organizationType : option string;
  fc_campaignType : option string
}.

(** [filter && filter !== "All"]: the filter is given, not the empty
    string, and not "All". *)
Definition filter_applies (f : option string) : bool :=
  match f with
  | Some s => negb (String.eqb s "") && negb (String.eqb s "All")
  | None => false
  end.

(** [row.field !== filters.field], for a filter that is given. *)
Definition differs_from (value : string) (f : option string) : bool :=
  match f with
  | Some s => negb (String.eqb value s)
  | None => true
  end.

(** The callback of [data.filter] in [filterData]. *)
Definition passes_filters (filters : FilterCriteria) (row : ProcessedEmailData) : bool :=
  if filter_applies (fc_businessUnit filters)
     && differs_from (businessUnit row) (fc_businessUnit filters) then false
  else if filter_applies (fc_organizationType filters)
          && differs_from (organizationType row) (fc_organizationType filters) then false
  else if filter_applies (fc_campaignType filters)
          && differs_from (campaignType row) (fc_campaignType filters) then false
  else true.

(** [filterData]; what it writes to the console is left out. *)
Definition filterData (data : list ProcessedEmailData) (filters : FilterCriteria)
  : list ProcessedEmailData :=
  filter (passes_filters filters) data.

(** A [FilterOptions] passed where [filterData] expects its filters. *)
Definition criteria_of (flt : FilterOptions) : FilterCriteria :=
  mkCriteria (Some (f_businessUnit flt)) (Some (f_organizationType flt))
             (Some (f_campaignType flt)).

(** ** The statistics behind the insights ([utils/insightsGenerator.ts]) *)

(** The object [{ count, openRate, clickRate }] of [analyzeDayPerformance]
    and [analyzeTimePerformance]: the rates accumulate sums. *)
Record PerformanceStats := mkStats {
  ps_count : nat;
  ps_openRate : Q;
  ps_clickRate : Q
}.

Definition add_to_stats (stats : PerformanceStats) (row : ProcessedEmailData)
  : PerformanceStats :=
  mkStats (ps_count stats + 1)
          (ps_openRate stats + openRate row)
          (ps_clickRate stats + clickRate row).

Record DayPerformance := mkDayPerformance {
  dp_day : string;
  dp_avgOpenRate : Q;
  dp_avgClickRate : Q;
  dp_count : nat
}.

Definition day_stats_step (dayStats : map_t PerformanceStats) (row : ProcessedEmailData)
  : map_t PerformanceStats :=
  let stats :=
    match map_get (dayOfWeek row) dayStats with
    | Some stats => stats
    | None => mkStats 0 0 0
    end in
  map_set (dayOfWeek row) (add_to_stats stats row) dayStats.

Definition analyzeDayPerformance (data : list ProcessedEmailData) : list DayPerformance :=
  let dayStats := fold_left day_stats_step data [] in
  array_sort (fun a b => dp_avgOpenRate b - dp_avgOpenRate a)
    (filter (fun d => (0 <? dp_count d)%nat)
       (map (fun day =>
               match map_get day dayStats with
               | None => mkDayPerformance day 0 0 0
               | Some stats =>
                   mkDayPerformance day
                     (ps_openRate stats / count_as_number (ps_count stats))
                     (ps_clickRate stats / count_as_number (ps_count stats))
                     (ps_count stats)
               end)
            monday_first)).

Record TimePerformance := mkTimePerformance {
  tp_hour : Z;
  tp_avgOpenRate : Q;
  tp_avgClickRate : Q;
  tp_count : nat
}.

Definition time_stats_step (timeStats : list (Z * PerformanceStats))
    (row : ProcessedEmailData) : list (Z * PerformanceStats) :=
  let stats :=
    match kmap_get Z.eqb (hourOfDay row) timeStats with
    | Some stats => stats
    | None => mkStats 0 0 0
    end in
  kmap_set Z.eqb (hourOfDay row) (add_to_stats stats row) timeStats.

Definition analyzeTimePerformance (data : list ProcessedEmailData)
  : list TimePerformance :=
  let timeStats := fold_left time_stats_step data [] in
  array_sort (fun a b => tp_avgOpenRate b - tp_avgOpenRate a)
    (map (fun entry : Z * PerformanceStats =>
            let '(hour, stats) := entry in
            mkTimePerformance hour
              (ps_openRate stats / count_as_number (ps_count stats))
              (ps_clickRate stats / count_as_number (ps_count stats))
              (ps_count stats))
         timeStats).

(** The object [{ count, openRate, bestTime }] of [analyzeCampaignTypes]:
    [bestTime] accumulates the hours. *)
Record CampaignStats := mkCampaignStats {
  cs_count : nat;
  cs_openRate : Q;
  cs_bestTime : Z
}.

Record CampaignInsight := mkCampaignInsight {
  ci_type : string;
  ci_avgOpenRate : Q;
  ci_avgBestTime : Z;
  ci_count : nat
}.

(** [Math.round]: the nearest integer, a half going up. *)
Definition Math_round (x : Q) : Z := Qfloor (x + 0.5).

Definition campaign_stats_step (campaignStats : map_t CampaignStats)
    (row : ProcessedEmailData) : map_t CampaignStats :=
  let stats :=
    match map_get (campaignType row) campaignStats with
    | Some stats => stats
    | None => mkCampaignStats 0 0 0
    end in
  map_set (campaignType row)
    (mkCampaignStats (cs_count stats + 1) (cs_openRate stats + openRate row)
                     (cs_bestTime stats + hourOfDay row))
    campaignStats.

Definition analyzeCampaignTypes (data : list ProcessedEmailData) : list CampaignInsight :=
  map (fun entry : string * CampaignStats =>
         let '(type, stats) := entry in
         mkCampaignInsight type
           (cs_openRate stats / count_as_number (cs_count stats))
           (Math_round (inject_Z (cs_bestTime stats) / count_as_number (cs_count stats)))
           (cs_count stats))
      (fold_left campaign_stats_step data []).

(** The keys of a processed record, for [row[field]]. *)
Inductive RowField : Type :=
| F_businessUnit | F_organizationType | F_campaignType | F_sendDate | F_sendTime
| F_dayOfWeek | F_hourOfDay | F_openRate | F_clickRate | F_unsubscribeRate
| F_bounceRate.

(** [row[field]] when [typeof] says it is a string; the date and the
    numbers are not. *)
Definition string_field (field : RowField) (row : ProcessedEmailData) : option string :=
  match field with
  | F_businessUnit => Some (businessUnit row)
  | F_organizationType => Some (organizationType row)
  | F_campaignType => Some (campaignType row)
  | F_sendTime => Some (sendTime row)
  | F_dayOfWeek => Some (dayOfWeek row)
  | _ => None
  end.

Fixpoint trim_end (s : string) : string :=
  match s with
  | EmptyString => EmptyString
  | String c s' =>
      match trim_end s' with
      | EmptyString => if is_white_space c then EmptyString else String c EmptyString
      | rest => String c rest
      end
  end.

(** [s.trim()], for the white space of ASCII. *)
Definition trim (s : string) : string := trim_start (trim_end s).

(** [values.add(value)] on a [Set] in insertion order. *)
Definition Set_add (value : string) (values : list string) : list string :=
  if existsb (String.eqb value) values then values else values ++ [value].

(** One turn of the loop of [getUniqueValues]. *)
Definition collect_value (field : RowField) (values : list string)
    (row : ProcessedEmailData) : list string :=
  match string_field field row with
  | Some value =>
      if negb (String.eqb (trim value) "") then Set_add value values else values
  | None => values
  end.

(** The order of [sort()] without comparator: strings, character by
    character (code units in JavaScript, bytes here; the same on ASCII). *)
Definition compare_strings (a b : string) : Q :=
  match String.compare a b with
  | Lt => -1
  | Eq => 0
  | Gt => 1
  end.

Definition getUniqueValues (data : list ProcessedEmailData) (field : RowField)
  : list string :=
  array_sort compare_strings (fold_left (collect_value field) data []).

(** ** Vocabulary of the properties of the helpers *)

(** The loops that tally records in a map all have one shape: read the
    value of the record's key (a fresh one when the key is new), update it
    with the record, set it. *)
Section Tally.
Context {K V Row : Type} (eqb : K -> K -> bool).
Context (key : Row -> K) (update : V -> Row -> V) (fresh : V).

Definition tally_step (m : list (K * V)) (row : Row) : list (K * V) :=
  kmap_set eqb (key row)
    (update (match kmap_get eqb (key row) m with Some v => v | None => fresh end) row)
    m.

(** What such a map holds once the records [seen] went through the loop:
    one entry per key that occurs, its value folded over the records of
    the key in their order. *)
Definition tallied (seen : list Row) (m : list (K * V)) : Prop :=
  NoDup (map fst m) /\
  forall k v,
    In (k, v) m <->
    v = fold_left update (filter (fun r => eqb (key r) k) seen) fresh /\
    exists r, In r seen /\ key r = k.
End Tally.

Definition rows_at_hour (data : list ProcessedEmailData) (hour : Z)
  : list ProcessedEmailData :=
  filter (fun r => (hourOfDay r =? hour)%Z) data.

Definition rows_on_day (data : list ProcessedEmailData) (day : string)
  : list ProcessedEmailData :=
  filter (fun r => String.eqb (dayOfWeek r) day) data.

Definition rows_at (data : list ProcessedEmailData) (day : string) (hour : Z)
  : list ProcessedEmailData :=
  filter (fun r => String.eqb (dayOfWeek r) day && (hourOfDay r =? hour)%Z) data.

(** The grid of the heatmap, day by day and hour by hour within a day. *)
Definition heatmap_grid : list (string * Z) := list_prod monday_first hours_0_23.

(** The record has one of the seven day names and an hour from 0 to 23. *)
Definition on_grid (r : ProcessedEmailData) : bool :=
  existsb (String.eqb (dayOfWeek r)) monday_first &&
  ((0 <=? hourOfDay r)%Z && (hourOfDay r <=? 23)%Z).

Definition position_eqb (p q : string * Z) : bool :=
  String.eqb (fst p) (fst q) && (snd p =? snd q)%Z.

Definition row_position (r : ProcessedEmailData) : string * Z :=
  (dayOfWeek r, hourOfDay r).

(** Some record of the data sits at the position. *)
Definition occupied (data : list ProcessedEmailData) (position : string * Z) : bool :=
  existsb (fun r => String.eqb (dayOfWeek r) (fst position) &&
                    (hourOfDay r =? snd position)%Z) data.

(** Day, hour, number of records and average open rate at a position. *)
Definition position_summary (data : list ProcessedEmailData) (position : string * Z)
  : string * option Z * nat * Q :=
  (fst position, Some (snd position),
   length (rows_at data (fst position) (snd position)),
   fold_left (fun sum r => sum + openRate r)
     (rows_at data (fst position) (snd position)) 0
   / array_length (rows_at data (fst position) (snd position))).

Definition cell_summary (c : HeatmapCell) : string * option Z * nat * Q :=
  (hm_day c, Some (hm_hour c), hm_count c, hm_value c).

Definition slot_summary (b : TimeSlotAnalysis) : string * option Z * nat * Q :=
  (ts_dayOfWeek b, ts_hourOfDay b, ts_sampleSize b, ts_avgOpenRate b).

Definition rows_of_campaign (data : list ProcessedEmailData) (type : string)
  : list ProcessedEmailData :=
  filter (fun r => String.eqb (campaignType r) type) data.

(** What one position of the grid contributes to the heatmap. *)
Definition heatmap_cell (data : list ProcessedEmailData) (position : string * Z)
  : list HeatmapCell :=
  heatmap_visit data (fst position) [] (snd position).

(** The map of [analyzeCombined] files every bucket under its own key,
    and no key twice. *)
Definition keyed_by_slot (m : map_t TimeSlotAnalysis) : Prop :=
  NoDup (map fst m) /\ Forall (fun e => slot_key (snd e) = fst e) m.

(** The label of the bucket is the label of its hour. *)
Definition labelled_by_hour (b : TimeSlotAnalysis) : Prop :=
  ts_timeLabel b = formatTimeLabel (ts_hourOfDay b).

(** The value the second loop of [analyzeCombined] leaves under the key of
    a best-practice slot. *)
Definition merged_value (m : map_t TimeSlotAnalysis) (slot : TimeSlotAnalysis)
  : TimeSlotAnalysis :=
  match map_get (slot_key slot) m with
  | Some existing =>
      mkSlot (ts_dayOfWeek existing) (ts_hourOfDay existing) (ts_timeLabel existing)
             (ts_avgOpenRate existing * 0.6 + ts_avgOpenRate slot * 0.4)
             (ts_avgClickRate existing * 0.6 + ts_avgClickRate slot * 0.4)
             (ts_sampleSize existing)
             (ts_score existing + ts_score slot * 0.4)
  | None =>
      mkSlot (ts_dayOfWeek slot) (ts_hourOfDay slot) (ts_timeLabel slot)
             (ts_avgOpenRate slot) (ts_avgClickRate slot) 0%nat (ts_score slot * 0.4)
  end.

(** Open and click rates that are percentages. *)
Definition rates_in_percent (r : ProcessedEmailData) : Prop :=
  (0 <= openRate r <= 100) /\ (0 <= clickRate r <= 100).

(** Averages and score within 0 and 100. *)
Definition within_percent (b : TimeSlotAnalysis) : Prop :=
  (0 <= ts_avgOpenRate b <= 100) /\ (0 <= ts_avgClickRate b <= 100) /\
  (0 <= ts_score b <= 100).

(** ** Unfolding the three modes *)

Lemma analyzeBestPractices_run (clk : Clock) :
  analyzeBestPractices clk =
  (Ok (mkResult (best_practice_slot (mkBP "Tuesday" 10 "10:00 AM" 95
                   "Peak engagement time - people are settled into work and checking emails"))
                (best_practice_slot (mkBP "Thursday" 14 "2:00 PM" 90
                   "Post-lunch period with high email activity"))
                (best_practice_slot (mkBP "Wednesday" 9 "9:00 AM" 85
                   "Mid-week morning when inboxes are being cleared"))
                (map best_practice_slot BEST_PRACTICES)
                (mkMeta 0 (mkRange (clk 0%nat) (clk 1%nat)) all_filters
                        "best-practices" (clk 2%nat))),
   fun n => clk (S (S (S n)))).
Proof. reflexivity. Qed.

Lemma analyzeHistoricalData_run row rows filters (clk : Clock) :
  analyzeHistoricalData (row :: rows) filters clk =
  (Ok (mkResult (slot_or_empty (historical_slots (row :: rows)) 0)
                (slot_or_empty (historical_slots (row :: rows)) 1)
                (slot_or_empty (historical_slots (row :: rows)) 2)
                (historical_slots (row :: rows))
                (mkMeta (length (row :: rows))
                        (mkRange (Math_min (sendDate row) (map sendDate rows))
                                 (Math_max (sendDate row) (map sendDate rows)))
                        filters "historical" (clk 0%nat))),
   fun n => clk (S n)).
Proof. reflexivity. Qed.

Lemma analyzeCombined_run row rows filters (clk : Clock) :
  analyzeCombined (row :: rows) filters clk =
  (Ok (mkResult (slot_or_empty (combined_slots (row :: rows)) 0)
                (slot_or_empty (combined_slots (row :: rows)) 1)
                (slot_or_empty (combined_slots (row :: rows)) 2)
                (combined_slots (row :: rows))
                (mkMeta (length (row :: rows))
                        (mkRange (Math_min (sendDate row) (map sendDate rows))
                                 (Math_max (sendDate row) (map sendDate rows)))
                        filters "combined" (clk 4%nat))),
   fun n => clk (S (S (S (S (S n)))))).
Proof. reflexivity. Qed.

Lemma performAnalysis_best_practices data filters :
  performAnalysis data "best-practices" filters = analyzeBestPractices.
Proof. reflexivity. Qed.

Lemma performAnalysis_historical data filters :
  performAnalysis data "historical" filters = analyzeHistoricalData data filters.
Proof. reflexivity. Qed.

Lemma performAnalysis_combined data filters :
  performAnalysis data "combined" filters = analyzeCombined data filters.
Proof. reflexivity. Qed.

Lemma performAnalysis_unknown data analysisType filters :
  analysisType <> "best-practices"%string ->
  analysisType <> "historical"%string ->
  analysisType <> "combined"%string ->
  performAnalysis data analysisType filters = throw (UnknownAnalysisType analysisType).
Proof.
  intros Hb Hh Hc. unfold performAnalysis.
  destruct (String.eqb_spec analysisType "best-practices"); [contradiction|].
  destruct (String.eqb_spec analysisType "historical"); [contradiction|].
  destruct (String.eqb_spec analysisType "combined"); [contradiction|].
  reflexivity.
Qed.

(** The dispatcher, by cases on the analysis type. *)
Lemma performAnalysis_cases data analysisType filters :
  (analysisType = "best-practices"%string /\
   performAnalysis data analysisType filters = analyzeBestPractices) \/
  (analysisType = "historical"%string /\
   performAnalysis data analysisType filters = analyzeHistoricalData data filters) \/
  (analysisType = "combined"%string /\
   performAnalysis data analysisType filters = analyzeCombined data filters) \/
  (analysisType <> "best-practices"%string /\ analysisType <> "historical"%string /\
   analysisType <> "combined"%string /\
   performAnalysis data analysisType filters = throw (UnknownAnalysisType analysisType)).
Proof.
  unfold performAnalysis.
  destruct (String.eqb_spec analysisType "best-practices"); [left; auto|].
  destruct (String.eqb_spec analysisType "historical"); [right; left; auto|].
  destruct (String.eqb_spec analysisType "combined"); [right; right; left; auto|].
  right; right; right; auto.
Qed.

(** ** Errors *)

(** C3: historical analysis of an empty record list throws the empty-dataset
    error ("No data available for analysis"), and historical analysis of a
    record list that is not empty returns a result, hence throws nothing. *)
Theorem historical_empty_dataset_error :
  forall (filters : FilterOptions) (clk : Clock),
    fst (performAnalysis [] "historical" filters clk) = Throw EmptyDatasetError /\
    fst (analyzeHistoricalData [] filters clk) = Throw EmptyDatasetError /\
    forall data : list ProcessedEmailData,
      data <> [] ->
      exists r : AnalysisResult,
        fst (performAnalysis data "historical" filters clk) = Ok r /\
        fst (analyzeHistoricalData data filters clk) = Ok r.
Proof.
  intros filters clk. split; [reflexivity|]. split; [reflexivity|].
  intros [|row rows] Hne; [contradiction|].
  rewrite performAnalysis_historical, analyzeHistoricalData_run.
  eexists. split; reflexivity.
Qed.

Lemma historical_empty_dataset_error_witness :
  exists r : AnalysisResult,
    fst (performAnalysis [sample_row "Friday" 16 10 1] "historical" all_filters ticking)
    = Ok r /\
    fst (analyzeHistoricalData [sample_row "Friday" 16 10 1] all_filters ticking) = Ok r.
Proof.
  apply (proj2 (proj2 (historical_empty_dataset_error all_filters ticking))).
  discriminate.
Defined.

(** C10: the dispatcher throws the error naming the unknown analysis type
    exactly when the type is none of "best-practices", "historical" and
    "combined"; for these three it never throws that error, whatever type
    the message would name. *)
Theorem performAnalysis_unknown_type_error :
  forall (data : list ProcessedEmailData) (analysisType : string)
         (filters : FilterOptions) (clk : Clock),
    (analysisType <> "best-practices"%string ->
     analysisType <> "historical"%string ->
     analysisType <> "combined"%string ->
     fst (performAnalysis data analysisType filters clk)
     = Throw ("Unknown analysis type: " ++ analysisType)%string) /\
    (analysisType = "best-practices"%string \/ analysisType = "historical"%string \/
     analysisType = "combined"%string ->
     forall named : string,
       fst (performAnalysis data analysisType filters clk)
       <> Throw ("Unknown analysis type: " ++ named)%string).
Proof.
  intros data t filters clk. split.
  - intros Hb Hh Hc. rewrite performAnalysis_unknown by assumption. reflexivity.
  - intros [-> | [-> | ->]] named.
    + rewrite performAnalysis_best_practices, analyzeBestPractices_run. discriminate.
    + rewrite performAnalysis_historical. destruct data as [|row rows].
      * cbn. discriminate.
      * rewrite analyzeHistoricalData_run. discriminate.
    + rewrite performAnalysis_combined. destruct data as [|row rows].
      * cbn. discriminate.
      * rewrite analyzeCombined_run. discriminate.
Qed.

Lemma performAnalysis_unknown_type_error_witness :
  fst (performAnalysis [] "weekly" all_filters ticking)
  = Throw "Unknown analysis type: weekly" /\
  fst (performAnalysis [] "historical" all_filters ticking)
  <> Throw "Unknown analysis type: historical".
Proof.
  split.
  - apply (proj1 (performAnalysis_unknown_type_error [] "weekly" all_filters ticking));
      discriminate.
  - apply (proj2 (performAnalysis_unknown_type_error [] "historical" all_filters ticking)
             (or_intror (or_introl eq_refl)) "historical"%string).
Defined.

(** ** Best practices *)

(** C5: whatever the records and the filters, best-practices analysis
    returns the five buckets of the table in the table's order, each with
    sample size 0, the entry's score as average open rate and as score, and
    the entry's score times 0.3 as average click rate. *)
Theorem best_practices_fixed_buckets :
  forall (data : list ProcessedEmailData) (filters : FilterOptions) (clk : Clock),
  exists r : AnalysisResult,
    fst (performAnalysis data "best-practices" filters clk) = Ok r /\
    fst (performAnalysis [] "best-practices" all_filters clk) = Ok r /\
    length (allTimeSlots r) = 5%nat /\
    Forall2 (fun (entry : BestPractice) (bucket : TimeSlotAnalysis) =>
               ts_dayOfWeek bucket = bp_dayOfWeek entry /\
               ts_hourOfDay bucket = Some (bp_hourOfDay entry) /\
               ts_sampleSize bucket = 0%nat /\
               ts_avgOpenRate bucket = bp_score entry /\
               ts_avgClickRate bucket = bp_score entry * 0.3 /\
               ts_score bucket = bp_score entry)
            BEST_PRACTICES (allTimeSlots r) /\
    map (fun b => (ts_dayOfWeek b, ts_hourOfDay b, ts_score b)) (allTimeSlots r)
    = [("Tuesday"%string, Some 10%Z, 95); ("Thursday"%string, Some 14%Z, 90);
       ("Wednesday"%string, Some 9%Z, 85); ("Tuesday"%string, Some 14%Z, 82);
       ("Thursday"%string, Some 10%Z, 80)].
Proof.
  intros data filters clk. eexists.
  rewrite !performAnalysis_best_practices, analyzeBestPractices_run.
  split; [reflexivity|]. split; [reflexivity|]. split; [reflexivity|].
  split; [|reflexivity].
  cbn [allTimeSlots]. unfold BEST_PRACTICES. cbn [map].
  repeat (constructor; [cbn; repeat split; reflexivity|]). constructor.
Qed.

(** C4: combined analysis of an empty record list throws nothing and its
    primary, secondary and tertiary buckets are those of best-practices
    analysis of an empty record list with the same filters. *)
Theorem combined_empty_falls_back :
  forall (filters : FilterOptions) (clk clk' : Clock),
  exists rc rb : AnalysisResult,
    fst (performAnalysis [] "combined" filters clk) = Ok rc /\
    fst (performAnalysis [] "best-practices" filters clk') = Ok rb /\
    primary rc = primary rb /\
    secondary rc = secondary rb /\
    tertiary rc = tertiary rb.
Proof.
  intros filters clk clk'. do 2 eexists.
  rewrite performAnalysis_combined, performAnalysis_best_practices.
  cbn [analyzeCombined]. rewrite !analyzeBestPractices_run.
  repeat split; reflexivity.
Qed.

(** ** The three highlighted slots *)

Lemma slot_or_empty_nth (a : list TimeSlotAnalysis) (i : nat) :
  slot_or_empty a i = nth i a createEmptyTimeSlot.
Proof.
  unfold slot_or_empty. revert i.
  induction a as [|x a IH]; intros [|i]; cbn; auto.
Qed.

(** A successful analysis ran one of the three modes. *)
Lemma performAnalysis_ok data analysisType flt clk r :
  fst (performAnalysis data analysisType flt clk) = Ok r ->
  ((analysisType = "best-practices"%string \/
    analysisType = "combined"%string /\ data = []) /\
   fst (analyzeBestPractices clk) = Ok r) \/
  (exists row rows, data = row :: rows /\
     (analysisType = "historical"%string /\
      fst (analyzeHistoricalData (row :: rows) flt clk) = Ok r \/
      analysisType = "combined"%string /\
      fst (analyzeCombined (row :: rows) flt clk) = Ok r)).
Proof.
  intros H.
  destruct (performAnalysis_cases data analysisType flt)
    as [[-> E] | [[-> E] | [[-> E] | (_ & _ & _ & E)]]]; rewrite E in H.
  - left. auto.
  - destruct data as [|row rows]; [discriminate H|].
    right. exists row, rows. auto.
  - destruct data as [|row rows].
    + left. auto.
    + right. exists row, rows. auto.
  - discriminate H.
Qed.

(** C7: in every successful analysis the primary, secondary and tertiary
    slots are the first three buckets of the ranked list when it has them,
    and each slot the list is too short to fill holds the sentinel bucket,
    whose day is "N/A" and whose rates and score are 0. *)
Theorem top_three_or_sentinel :
  forall (data : list ProcessedEmailData) (analysisType : string)
         (flt : FilterOptions) (clk : Clock) (r : AnalysisResult),
    fst (performAnalysis data analysisType flt clk) = Ok r ->
    (forall i : nat, (i < 3)%nat -> (i < length (allTimeSlots r))%nat ->
       nth_error (top_three r) i = nth_error (allTimeSlots r) i) /\
    (forall i : nat, (i < 3)%nat -> (length (allTimeSlots r) <= i)%nat ->
       nth_error (top_three r) i = Some createEmptyTimeSlot) /\
    ((3 <= length (allTimeSlots r))%nat ->
       top_three r = firstn 3 (allTimeSlots r)) /\
    ts_dayOfWeek createEmptyTimeSlot = "N/A"%string /\
    ts_avgOpenRate createEmptyTimeSlot = 0 /\
    ts_avgClickRate createEmptyTimeSlot = 0 /\
    ts_score createEmptyTimeSlot = 0 /\
    ts_sampleSize createEmptyTimeSlot = 0%nat.
Proof.
  intros data t flt clk r H.
  assert (Htop : top_three r =
                 [nth 0 (allTimeSlots r) createEmptyTimeSlot;
                  nth 1 (allTimeSlots r) createEmptyTimeSlot;
                  nth 2 (allTimeSlots r) createEmptyTimeSlot]).
  { destruct (performAnalysis_ok _ _ _ _ _ H)
      as [[_ E] | (row & rows & -> & [[_ E] | [_ E]])].
    - rewrite analyzeBestPractices_run in E. injection E as <-. reflexivity.
    - rewrite analyzeHistoricalData_run in E. injection E as <-.
      unfold top_three. cbn [primary secondary tertiary allTimeSlots].
      now rewrite !slot_or_empty_nth.
    - rewrite analyzeCombined_run in E. injection E as <-.
      unfold top_three. cbn [primary secondary tertiary allTimeSlots].
      now rewrite !slot_or_empty_nth. }
  rewrite Htop. clear Htop H.
  generalize (allTimeSlots r) as l. intros l.
  repeat split.
  - intros i Hi Hl.
    destruct l as [|a [|b [|c l]]]; cbn in Hl;
      destruct i as [|[|[|i]]]; try lia; reflexivity.
  - intros i Hi Hl.
    destruct l as [|a [|b [|c l]]]; cbn in Hl;
      destruct i as [|[|[|i]]]; try lia; reflexivity.
  - intros Hl. destruct l as [|a [|b [|c l]]]; cbn in Hl; try lia. reflexivity.
Qed.

Lemma top_three_or_sentinel_witness :
  nth_error
    (top_three
       (mkResult (slot_or_empty (historical_slots [sample_row "Friday" 16 10 1]) 0)
          (slot_or_empty (historical_slots [sample_row "Friday" 16 10 1]) 1)
          (slot_or_empty (historical_slots [sample_row "Friday" 16 10 1]) 2)
          (historical_slots [sample_row "Friday" 16 10 1])
          (mkMeta 1 (mkRange 0 0) all_filters "historical" 0))) 1
  = Some createEmptyTimeSlot.
Proof.
  apply (proj1 (proj2 (top_three_or_sentinel
                         [sample_row "Friday" 16 10 1] "historical"
                         all_filters ticking _ eq_refl)));
    vm_compute; lia.
Defined.

(** ** Metadata: the clock and the filters *)

(** C8, as stated, fails: with no records, in best-practices mode, two
    invocations in a row on a clock that advances return results that
    differ (the timestamp and the date range are read from the clock). *)
Lemma determinism_counterexample :
  exists first second : AnalysisResult,
    fst (analyse_twice [] "best-practices" all_filters ticking) = Ok (first, second) /\
    first <> second /\
    timestamp (metadata first) <> timestamp (metadata second).
Proof.
  do 2 eexists. split; [reflexivity|]. split.
  - intros H. apply (f_equal (fun r => timestamp (metadata r))) in H.
    cbn in H. discriminate H.
  - cbn. discriminate.
Qed.

(** C8, amended: for a fixed record list, mode and filter set, two
    invocations throw the same error or return results with the same
    primary, secondary and tertiary slots, the same ranked list in the same
    order, the same record count, filters and analysis type and, outside
    best-practices results, the same date range.  The timestamp is the
    last reading of the clock the invocation takes, and the two ends of
    the date range of a best-practices result are the two readings before
    it; every other reading is dropped (combined analysis of records drops
    the four that its historical and best-practices runs take).  So the
    two results are identical exactly when the clocks of the two
    invocations agree on the readings that are kept. *)
Theorem determinism_up_to_clock :
  forall (data : list ProcessedEmailData) (analysisType : string)
         (flt : FilterOptions) (clk1 clk2 : Clock),
    agree_up_to_clock (fst (performAnalysis data analysisType flt clk1))
                      (fst (performAnalysis data analysisType flt clk2)) /\
    (forall r : AnalysisResult,
       fst (performAnalysis data analysisType flt clk1) = Ok r ->
       clock_fields r = map clk1 (readings_kept data analysisType) /\
       exists last : nat,
         timestamp (metadata r) = clk1 last /\
         forall n : nat,
           snd (performAnalysis data analysisType flt clk1) n = clk1 (S last + n)%nat) /\
    (fst (performAnalysis data analysisType flt clk1)
     = fst (performAnalysis data analysisType flt clk2)
     <-> Forall (fun n => clk1 n = clk2 n) (readings_kept data analysisType)).
Proof.
  intros data t flt clk1 clk2.
  assert (Hbp : agree_up_to_clock (fst (analyzeBestPractices clk1))
                                  (fst (analyzeBestPractices clk2)) /\
                (forall r, fst (analyzeBestPractices clk1) = Ok r ->
                   clock_fields r = map clk1 [0; 1; 2]%nat /\
                   exists last : nat,
                     timestamp (metadata r) = clk1 last /\
                     forall n, snd (analyzeBestPractices clk1) n = clk1 (S last + n)%nat) /\
                (fst (analyzeBestPractices clk1) = fst (analyzeBestPractices clk2)
                 <-> Forall (fun n => clk1 n = clk2 n) [0; 1; 2]%nat)).
  { rewrite !analyzeBestPractices_run. cbn [fst snd]. split; [|split].
    - cbn. repeat split; try reflexivity. intros H. now contradiction H.
    - intros r E. injection E as <-. split; [reflexivity|].
      exists 2%nat. split; reflexivity.
    - split.
      + intros E. injection E as E0 E1 E2. repeat constructor; assumption.
      + intros H. inversion H as [|? ? H0 H']; subst.
        inversion H' as [|? ? H1 H'']; subst.
        inversion H'' as [|? ? H2 _]; subst.
        now rewrite H0, H1, H2. }
  destruct (performAnalysis_cases data t flt)
    as [[-> E] | [[-> E] | [[-> E] | (Hb & Hh & Hc & E)]]]; rewrite E; clear E.
  - exact Hbp.
  - destruct data as [|row rows].
    + split; [reflexivity|]. split; [intros r E; discriminate E|].
      split; [constructor | reflexivity].
    + rewrite !analyzeHistoricalData_run. cbn [fst snd]. split; [|split].
      * cbn. repeat split; reflexivity.
      * intros r E. injection E as <-. split; [reflexivity|].
        exists 0%nat. split; reflexivity.
      * cbn [readings_kept String.eqb Ascii.eqb Bool.eqb]. split.
        -- intros E. injection E as E0. repeat constructor; assumption.
        -- intros H. inversion H as [|? ? H0 _]; subst. now rewrite H0.
  - destruct data as [|row rows].
    + exact Hbp.
    + rewrite !analyzeCombined_run. cbn [fst snd]. split; [|split].
      * cbn. repeat split; reflexivity.
      * intros r E. injection E as <-. split; [reflexivity|].
        exists 4%nat. split; reflexivity.
      * cbn [readings_kept String.eqb Ascii.eqb Bool.eqb]. split.
        -- intros E. injection E as E0. repeat constructor; assumption.
        -- intros H. inversion H as [|? ? H0 _]; subst. now rewrite H0.
  - assert (Ek : readings_kept data t = []).
    { unfold readings_kept.
      destruct (String.eqb_spec t "best-practices"); [contradiction|].
      destruct (String.eqb_spec t "historical"); [contradiction|].
      destruct (String.eqb_spec t "combined"); [contradiction|]. reflexivity. }
    rewrite Ek. split; [reflexivity|]. split; [intros r E; discriminate E|].
    split; [constructor | reflexivity].
Qed.

(** Two clocks that agree on their fifth reading only: combined analysis of
    a record returns the same result on both. *)
Lemma determinism_up_to_clock_witness :
  fst (performAnalysis [sample_row "Friday" 16 10 1] "combined" sales_filters ticking)
  = fst (performAnalysis [sample_row "Friday" 16 10 1] "combined" sales_filters
           (fun n => if Nat.eqb n 4 then 4%Z else 0%Z)).
Proof.
  apply (proj2 (proj2 (proj2 (determinism_up_to_clock
                                [sample_row "Friday" 16 10 1] "combined"
                                sales_filters ticking
                                (fun n => if Nat.eqb n 4 then 4%Z else 0%Z))))).
  repeat constructor.
Defined.

(** C9, as stated, fails: in best-practices mode the metadata holds the
    filter set "All"/"All"/"All", not the filters the caller supplied. *)
Lemma filters_echo_counterexample :
  exists r : AnalysisResult,
    fst (performAnalysis [] "best-practices" sales_filters ticking) = Ok r /\
    filters (metadata r) <> sales_filters /\
    filters (metadata r) = all_filters.
Proof.
  eexists. split; [reflexivity|]. split; [|reflexivity].
  cbn. discriminate.
Qed.

(** C9, amended: in historical mode, and in combined mode with at least one
    record, the metadata holds exactly the filter set the caller supplied
    and counts every record handed over, whether or not it agrees with the
    filters; in best-practices mode, and in combined mode without records,
    it holds the fixed filter set "All"/"All"/"All" and counts no record.
    The filters reach nothing else: with any other filter set the same
    invocation throws the same error or returns the same slots, the same
    ranked list, the same record count, date range, analysis type and
    timestamp. *)
Theorem filters_echoed :
  forall (data : list ProcessedEmailData) (analysisType : string)
         (flt flt' : FilterOptions) (clk : Clock),
    agree_up_to_filters (fst (performAnalysis data analysisType flt clk))
                        (fst (performAnalysis data analysisType flt' clk)) /\
    forall r : AnalysisResult,
      fst (performAnalysis data analysisType flt clk) = Ok r ->
      (analysisType = "historical"%string \/
       analysisType = "combined"%string /\ data <> [] ->
       filters (metadata r) = flt /\ totalRecords (metadata r) = length data) /\
      (analysisType = "best-practices"%string \/
       analysisType = "combined"%string /\ data = [] ->
       filters (metadata r) = mkFilters "All" "All" "All" None /\
       totalRecords (metadata r) = 0%nat).
Proof.
  intros data t flt flt' clk. split.
  - destruct (performAnalysis_cases data t flt)
      as [[-> E] | [[-> E] | [[-> E] | (Hb & Hh & Hc & E)]]].
    + rewrite !performAnalysis_best_practices, analyzeBestPractices_run.
      cbn. repeat split; reflexivity.
    + rewrite !performAnalysis_historical. destruct data as [|row rows].
      * reflexivity.
      * rewrite !analyzeHistoricalData_run. cbn. repeat split; reflexivity.
    + rewrite !performAnalysis_combined. destruct data as [|row rows].
      * cbn [analyzeCombined]. rewrite analyzeBestPractices_run.
        cbn. repeat split; reflexivity.
      * rewrite !analyzeCombined_run. cbn. repeat split; reflexivity.
    + rewrite !performAnalysis_unknown by assumption. reflexivity.
  - intros r H.
    destruct (performAnalysis_ok _ _ _ _ _ H)
      as [[Hm E] | (row & rows & -> & [[-> E] | [-> E]])].
    + rewrite analyzeBestPractices_run in E. injection E as <-. split.
      * intros [-> | [-> Hne]].
        -- destruct Hm as [Hm | [Hm _]]; discriminate Hm.
        -- destruct Hm as [Hm | [_ Hm]]; [discriminate Hm | contradiction].
      * split; reflexivity.
    + rewrite analyzeHistoricalData_run in E. injection E as <-. split.
      * split; reflexivity.
      * intros [Hm | [Hm _]]; discriminate Hm.
    + rewrite analyzeCombined_run in E. injection E as <-. split.
      * split; reflexivity.
      * intros [Hm | [_ Hm]]; discriminate Hm.
Qed.

(** No record of the scenario belongs to the business unit "Sales", and
    historical analysis with that filter still counts the three of them. *)
Lemma filters_echoed_witness :
  filterData scenario_rows (criteria_of sales_filters) = [] /\
  exists r : AnalysisResult,
    fst (performAnalysis scenario_rows "historical" sales_filters ticking) = Ok r /\
    filters (metadata r) = sales_filters /\
    totalRecords (metadata r) = 3%nat.
Proof.
  split; [reflexivity|].
  eexists. split; [reflexivity|].
  apply (proj1 (proj2 (filters_echoed scenario_rows "historical" sales_filters
                         all_filters ticking) _ eq_refl)).
  left. reflexivity.
Defined.

(** ** Ranking: the sort by descending score *)

Section SortFacts.
Context {A : Type} (compareFn : A -> A -> Q).

Lemma sort_insert_perm (x : A) (l : list A) :
  Permutation (x :: l) (sort_insert compareFn x l).
Proof.
  induction l as [|y l IH]; cbn.
  - apply Permutation_refl.
  - destruct (compareFn x y ?= 0).
    + apply Permutation_refl.
    + apply Permutation_refl.
    + eapply perm_trans; [apply perm_swap|]. now apply perm_skip.
Qed.

Lemma array_sort_perm (l : list A) : Permutation l (array_sort compareFn l).
Proof.
  induction l as [|x l IH]; cbn.
  - apply perm_nil.
  - eapply perm_trans; [apply perm_skip, IH|]. apply sort_insert_perm.
Qed.

End SortFacts.

Lemma by_score_descending_gt (a b : TimeSlotAnalysis) :
  (by_score_descending a b ?= 0) = Gt <-> ts_score a < ts_score b.
Proof.
  unfold by_score_descending. rewrite <- Qgt_alt.
  split; intros H.
  - apply (Qplus_lt_l _ _ (- ts_score a)). rewrite Qplus_opp_r. exact H.
  - apply (Qplus_lt_l _ _ (- ts_score a)) in H. rewrite Qplus_opp_r in H. exact H.
Qed.

Lemma by_score_descending_not_gt (a b : TimeSlotAnalysis) :
  (by_score_descending a b ?= 0) <> Gt <-> score_ge a b.
Proof.
  rewrite by_score_descending_gt. unfold score_ge. split.
  - apply Qnot_lt_le.
  - apply Qle_not_lt.
Qed.

Lemma sort_insert_sorted (x : TimeSlotAnalysis) (l : list TimeSlotAnalysis) :
  StronglySorted score_ge l ->
  StronglySorted score_ge (sort_insert by_score_descending x l).
Proof.
  induction 1 as [|y l Hs IH Hy]; cbn.
  - constructor; constructor.
  - destruct (by_score_descending x y ?= 0) eqn:E.
    + assert (Hxy : score_ge x y) by (apply by_score_descending_not_gt; congruence).
      constructor; [now constructor|]. constructor; [exact Hxy|].
      eapply Forall_impl; [|exact Hy]. intros z Hz.
      unfold score_ge in *. eapply Qle_trans; eassumption.
    + assert (Hxy : score_ge x y) by (apply by_score_descending_not_gt; congruence).
      constructor; [now constructor|]. constructor; [exact Hxy|].
      eapply Forall_impl; [|exact Hy]. intros z Hz.
      unfold score_ge in *. eapply Qle_trans; eassumption.
    + apply by_score_descending_gt in E.
      constructor; [exact IH|].
      eapply Permutation_Forall; [apply sort_insert_perm|].
      constructor; [|exact Hy]. unfold score_ge. now apply Qlt_le_weak.
Qed.

Lemma array_sort_sorted (l : list TimeSlotAnalysis) :
  StronglySorted score_ge (array_sort by_score_descending l).
Proof.
  induction l as [|x l IH]; cbn.
  - constructor.
  - now apply sort_insert_sorted.
Qed.

Lemma StronglySorted_nth {A} (R : A -> A -> Prop) (l : list A) (d : A) :
  StronglySorted R l ->
  forall i j : nat, (i < j)%nat -> (j < length l)%nat -> R (nth i l d) (nth j l d).
Proof.
  induction 1 as [|x l Hs IH Hx]; intros i j Hij Hj; cbn in Hj; [lia|].
  destruct j as [|j]; [lia|]. destruct i as [|i]; cbn.
  - rewrite Forall_forall in Hx. apply Hx, nth_In. lia.
  - apply IH; lia.
Qed.

Lemma best_practice_slots_sorted :
  StronglySorted score_ge (map best_practice_slot BEST_PRACTICES).
Proof.
  unfold BEST_PRACTICES. cbn [map].
  repeat (constructor; [|repeat (constructor; [unfold score_ge; cbn; discriminate|]);
                          constructor]).
  constructor.
Qed.

(** X25: when the open and click rates of the records are percentages,
    from 0 to 100, the ranked list a historical or combined analysis
    returns has non-increasing scores: the score at a position is at least
    the score at every later position.  (The rates bound the averages and
    the scores, so that the difference of two scores compares them; a
    bucket holding the rates [Infinity] and [-Infinity] would score [NaN]
    and compare with nothing.) *)
Theorem ranked_list_sorted :
  forall (data : list ProcessedEmailData) (analysisType : string)
         (flt : FilterOptions) (clk : Clock) (r : AnalysisResult),
    analysisType = "historical"%string \/ analysisType = "combined"%string ->
    Forall (fun row => (0 <= openRate row <= 100) /\ (0 <= clickRate row <= 100)) data ->
    fst (performAnalysis data analysisType flt clk) = Ok r ->
    forall i j : nat,
      (i < j)%nat -> (j < length (allTimeSlots r))%nat ->
      ts_score (nth j (allTimeSlots r) createEmptyTimeSlot)
      <= ts_score (nth i (allTimeSlots r) createEmptyTimeSlot).
Proof.
  intros data t flt clk r _ _ H.
  assert (Hs : StronglySorted score_ge (allTimeSlots r)).
  { destruct (performAnalysis_ok _ _ _ _ _ H)
      as [[_ E] | (row & rows & -> & [[_ E] | [_ E]])].
    - rewrite analyzeBestPractices_run in E. injection E as <-.
      apply best_practice_slots_sorted.
    - rewrite analyzeHistoricalData_run in E. injection E as <-.
      apply array_sort_sorted.
    - rewrite analyzeCombined_run in E. injection E as <-.
      apply array_sort_sorted. }
  intros i j Hij Hj.
  exact (StronglySorted_nth score_ge _ createEmptyTimeSlot Hs i j Hij Hj).
Qed.

(** ** Keys: building them and taking them apart *)

Lemma split_dash_no_dash (s : string) : no_dash s = true -> split_dash s = [s].
Proof.
  induction s as [|c s IH]; cbn; [reflexivity|].
  intros H. apply andb_prop in H as [Hc Hs].
  apply negb_true_iff in Hc. rewrite Hc, (IH Hs). reflexivity.
Qed.

Lemma split_dash_key (d s : string) :
  no_dash d = true -> no_dash s = true ->
  split_dash (d ++ "-" ++ s)%string = [d; s].
Proof.
  intros Hd Hs. induction d as [|c d IH]; cbn.
  - now rewrite (split_dash_no_dash s Hs).
  - cbn in Hd. apply andb_prop in Hd as [Hc Hd].
    apply negb_true_iff in Hc. rewrite Hc. cbn in IH. now rewrite (IH Hd).
Qed.

Lemma hours_of_day_spec (h : Z) : (0 <= h <= 23)%Z -> In h hours_of_day.
Proof.
  intros H. unfold hours_of_day. rewrite <- (Z2Nat.id h) by lia.
  apply in_map, in_seq. lia.
Qed.

Lemma hour_strings :
  Forall (fun h => no_dash (string_of_Z h) = true /\
                   parseInt (string_of_Z h) = Some h) hours_of_day.
Proof. repeat (constructor; [split; reflexivity|]). constructor. Qed.

Lemma hour_string (h : Z) :
  (0 <= h <= 23)%Z ->
  no_dash (string_of_Z h) = true /\ parseInt (string_of_Z h) = Some h.
Proof.
  intros H. apply hours_of_day_spec in H.
  exact (proj1 (Forall_forall _ _) hour_strings h H).
Qed.

Lemma weekday_no_dash (d : string) : In d weekdays -> no_dash d = true.
Proof.
  intros H. cbn in H.
  repeat (destruct H as [<- | H]; [reflexivity|]). contradiction.
Qed.

(** Taking the key of a valid record apart gives its day and its hour back. *)
Lemma row_key_split (r : ProcessedEmailData) :
  valid_record r ->
  split_dash (row_key r) = [dayOfWeek r; string_of_Z (hourOfDay r)] /\
  parseInt (string_of_Z (hourOfDay r)) = Some (hourOfDay r).
Proof.
  intros [Hd Hh]. apply hour_string in Hh as [Hn Hp]. split; [|exact Hp].
  apply split_dash_key; [now apply weekday_no_dash | exact Hn].
Qed.

Lemma row_key_inj (r r' : ProcessedEmailData) :
  valid_record r -> valid_record r' ->
  row_key r = row_key r' ->
  dayOfWeek r = dayOfWeek r' /\ hourOfDay r = hourOfDay r'.
Proof.
  intros Hr Hr' E.
  destruct (row_key_split r Hr) as [S1 P1].
  destruct (row_key_split r' Hr') as [S2 P2].
  rewrite E, S2 in S1. injection S1 as Ed Eh. split; [now symmetry|].
  rewrite <- Eh in P1. rewrite P1 in P2. now injection P2.
Qed.

(** ** Facts on maps in insertion order *)

Section MapFacts.
Context {V : Type}.
Implicit Types (m : map_t V) (k : string) (v : V).

Lemma map_get_none k m : map_get k m = None <-> ~ In k (map fst m).
Proof.
  induction m as [|[k' v'] m IH]; cbn.
  - tauto.
  - destruct (String.eqb_spec k k') as [->|Hne].
    + split; [discriminate | intros H; contradiction H; auto].
    + rewrite IH. split; [intros H [E|E]; [congruence | auto] | tauto].
Qed.

Lemma map_get_in k v m : map_get k m = Some v -> In (k, v) m.
Proof.
  induction m as [|[k' v'] m IH]; cbn; [discriminate|].
  destruct (String.eqb_spec k k') as [->|Hne].
  - intros E. injection E as ->. now left.
  - intros E. right. now apply IH.
Qed.

Lemma map_get_nodup k v m :
  NoDup (map fst m) -> In (k, v) m -> map_get k m = Some v.
Proof.
  induction m as [|[k' v'] m IH]; cbn; [contradiction|].
  intros Hnd [E|Hin].
  - injection E as -> ->. now rewrite String.eqb_refl.
  - inversion Hnd as [|? ? Hk Hnd']; subst.
    destruct (String.eqb_spec k k') as [->|Hne].
    + contradiction Hk. apply (in_map fst) in Hin. exact Hin.
    + now apply IH.
Qed.

Lemma map_replace_keys k v m : map fst (map_replace k v m) = map fst m.
Proof.
  induction m as [|[k' v'] m IH]; cbn; [reflexivity|].
  destruct (String.eqb k k'); cbn; [reflexivity | now rewrite IH].
Qed.

Lemma map_replace_in k v m k1 v1 :
  NoDup (map fst m) -> In k (map fst m) ->
  (In (k1, v1) (map_replace k v m) <->
   (k1 = k /\ v1 = v) \/ (k1 <> k /\ In (k1, v1) m)).
Proof.
  induction m as [|[k' v'] m IH]; cbn; [contradiction|].
  intros Hnd Hin. inversion Hnd as [|? ? Hk Hnd']; subst.
  destruct (String.eqb_spec k k') as [->|Hne]; cbn.
  - split.
    + intros [E|H]; [injection E as <- <-; auto|].
      right. split; [|auto]. intros ->. apply Hk.
      apply (in_map fst) in H. exact H.
    + intros [[-> ->]|[Hne [E|H]]]; auto.
      injection E as <- _. contradiction.
  - destruct Hin as [E|Hin]; [congruence|].
    rewrite (IH Hnd' Hin). split.
    + intros [E|[H|[H1 H2]]].
      * injection E as <- <-. right. split; [congruence | now left].
      * now left.
      * right. split; [exact H1 | now right].
    + intros [H|[Hk1 [E|H]]]; auto.
Qed.

Lemma map_get_app_new k v m :
  map_get k m = None -> map_get k (m ++ [(k, v)]) = Some v.
Proof.
  induction m as [|[k' v'] m IH]; cbn.
  - now rewrite String.eqb_refl.
  - destruct (String.eqb k k'); [discriminate | exact IH].
Qed.

Lemma map_replace_app_new k v v0 m :
  map_get k m = None -> map_replace k v (m ++ [(k, v0)]) = m ++ [(k, v)].
Proof.
  induction m as [|[k' v'] m IH]; cbn.
  - now rewrite String.eqb_refl.
  - destruct (String.eqb k k'); [discriminate|].
    intros H. now rewrite (IH H).
Qed.

Lemma map_set_new k v m : map_get k m = None -> map_set k v m = m ++ [(k, v)].
Proof. intros H. unfold map_set, map_has. now rewrite H. Qed.

Lemma map_has_get k m :
  map_has k m = match map_get k m with Some _ => true | None => false end.
Proof. reflexivity. Qed.
End MapFacts.

(** ** Grouping the records by key *)

Lemma group_row_old m r rs :
  map_get (row_key r) m = Some rs ->
  group_row m r = map_replace (row_key r) (rs ++ [r]) m.
Proof. intros H. unfold group_row. rewrite map_has_get, H, H. reflexivity. Qed.

Lemma group_row_new m r :
  map_get (row_key r) m = None ->
  group_row m r = m ++ [(row_key r, [r])].
Proof.
  intros H. unfold group_row. rewrite map_has_get, H.
  rewrite (map_set_new _ _ _ H), (map_get_app_new _ _ _ H).
  now rewrite (map_replace_app_new _ _ _ _ H).
Qed.

Lemma grouped_step seen m r :
  grouped seen m -> grouped (seen ++ [r]) (group_row m r).
Proof.
  intros [Hnd Hin].
  destruct (map_get (row_key r) m) as [rs0|] eqn:G.
  - rewrite (group_row_old _ _ _ G).
    pose proof (map_get_in _ _ _ G) as Hin0.
    assert (Hk : In (row_key r) (map fst m)) by (apply (in_map fst) in Hin0; exact Hin0).
    split; [now rewrite map_replace_keys|].
    intros k rs. rewrite (map_replace_in _ _ _ _ _ Hnd Hk), filter_app. cbn.
    apply Hin in Hin0 as [E0 _].
    destruct (String.eqb_spec (row_key r) k) as [E|Hne].
    + subst k. split.
      * intros [[_ ->]|[Hc _]]; [|congruence].
        rewrite <- E0. split; [reflexivity|]. now destruct rs0.
      * intros [-> _]. left. rewrite <- E0. auto.
    + rewrite app_nil_r. split.
      * intros [[Hc _]|[_ H]]; [congruence|]. now apply Hin.
      * intros H. right. split; [congruence|]. now apply Hin.
  - rewrite (group_row_new _ _ G).
    pose proof (proj1 (map_get_none _ _) G) as Hk.
    split.
    + rewrite map_app. cbn. apply NoDup_app; [exact Hnd | repeat constructor; auto |].
      intros a Ha [<-|[]]. contradiction.
    + intros k rs. rewrite in_app_iff, filter_app. cbn.
      destruct (String.eqb_spec (row_key r) k) as [E|Hne].
      * subst k.
        assert (Hf : filter (fun r0 => String.eqb (row_key r0) (row_key r)) seen = []).
        { destruct (filter _ seen) as [|x xs] eqn:F; [reflexivity|].
          exfalso. apply Hk.
          assert (H : In (row_key r, x :: xs) m)
            by (apply Hin; split; [now rewrite F | discriminate]).
          apply (in_map fst) in H. exact H. }
        rewrite Hf. cbn. split.
        -- intros [H|[E|[]]].
           ++ exfalso. apply Hk. apply (in_map fst) in H. exact H.
           ++ injection E as <-. split; [reflexivity | discriminate].
        -- intros [-> _]. right. now left.
      * rewrite app_nil_r. split.
        -- intros [H|[E|[]]]; [now apply Hin | congruence].
        -- intros H. left. now apply Hin.
Qed.

Lemma grouped_fold data : forall seen m,
  grouped seen m -> grouped (seen ++ data) (fold_left group_row data m).
Proof.
  induction data as [|r data IH]; intros seen m H; cbn.
  - now rewrite app_nil_r.
  - replace (seen ++ r :: data) with ((seen ++ [r]) ++ data)
      by (rewrite <- app_assoc; reflexivity).
    apply IH, grouped_step, H.
Qed.

Lemma group_rows_grouped data : grouped data (group_rows data).
Proof.
  apply (grouped_fold data [] []). split; [constructor|].
  intros k rs. cbn. split; [contradiction | intros [-> H]; now contradiction H].
Qed.

Lemma map_replace_push_size k r rs (m : map_t (list ProcessedEmailData)) :
  map_get k m = Some rs ->
  list_sum (map entry_size (map_replace k (rs ++ [r]) m))
  = S (list_sum (map entry_size m)).
Proof.
  induction m as [|[k' v'] m IH]; cbn; [discriminate|].
  destruct (String.eqb k k'); cbn.
  - intros E. injection E as ->. rewrite length_app. cbn. lia.
  - intros E. specialize (IH E). unfold list_sum in IH. rewrite IH. lia.
Qed.

Lemma group_row_size m r :
  list_sum (map entry_size (group_row m r)) = S (list_sum (map entry_size m)).
Proof.
  destruct (map_get (row_key r) m) as [rs0|] eqn:G.
  - rewrite (group_row_old _ _ _ G). now apply map_replace_push_size.
  - rewrite (group_row_new _ _ G), map_app, list_sum_app. cbn. lia.
Qed.

Lemma group_rows_size data :
  list_sum (map entry_size (group_rows data)) = length data.
Proof.
  unfold group_rows.
  assert (H : forall m, list_sum (map entry_size (fold_left group_row data m))
                        = (list_sum (map entry_size m) + length data)%nat).
  { induction data as [|r data IH]; intros m; cbn [fold_left length]; [lia|].
    rewrite IH, group_row_size. lia. }
  now rewrite H.
Qed.

(** ** The buckets of historical analysis *)

Lemma row_key_same (r r' : ProcessedEmailData) :
  dayOfWeek r = dayOfWeek r' -> hourOfDay r = hourOfDay r' -> row_key r = row_key r'.
Proof. intros Hd Hh. unfold row_key. now rewrite Hd, Hh. Qed.

(** The labels of the slot computed for an entry of the map are the day and
    the hour of the records the entry holds. *)
Lemma entry_slot_labels data k rs :
  Forall valid_record data ->
  In (k, rs) (group_rows data) ->
  exists r0,
    In r0 data /\ row_key r0 = k /\
    ts_dayOfWeek (time_slot_of_entry (k, rs)) = dayOfWeek r0 /\
    ts_hourOfDay (time_slot_of_entry (k, rs)) = Some (hourOfDay r0).
Proof.
  intros Hv Hin.
  destruct (group_rows_grouped data) as [_ Hg].
  apply Hg in Hin as [Hrs Hne].
  destruct rs as [|r0 rs']; [contradiction|].
  assert (H0 : In r0 (filter (fun r => String.eqb (row_key r) k) data))
    by (rewrite <- Hrs; now left).
  apply filter_In in H0 as [H0 Hk]. apply String.eqb_eq in Hk.
  exists r0. split; [exact H0|]. split; [exact Hk|].
  rewrite Forall_forall in Hv.
  destruct (row_key_split r0 (Hv r0 H0)) as [Hs Hp].
  unfold time_slot_of_entry. rewrite <- Hk, Hs. cbn [nth ts_dayOfWeek ts_hourOfDay].
  now rewrite Hp.
Qed.

(** A valid record falls in the slot of an entry exactly when its key is
    the key of the entry. *)
Lemma in_bucket_key data k rs r :
  Forall valid_record data ->
  In (k, rs) (group_rows data) -> In r data ->
  in_bucket (time_slot_of_entry (k, rs)) r = String.eqb (row_key r) k.
Proof.
  intros Hv Hin Hr.
  destruct (entry_slot_labels data k rs Hv Hin) as (r0 & H0 & Hk & Hd & Hh).
  unfold in_bucket. rewrite Hd, Hh. cbn [number_eqb].
  rewrite Forall_forall in Hv.
  destruct (String.eqb_spec (row_key r) k) as [E|Hne].
  - rewrite <- Hk in E.
    destruct (row_key_inj r r0 (Hv r Hr) (Hv r0 H0) E) as [-> ->].
    now rewrite String.eqb_refl, Z.eqb_refl.
  - destruct (String.eqb_spec (dayOfWeek r) (dayOfWeek r0)) as [Ed|]; [|reflexivity].
    destruct (Z.eqb_spec (hourOfDay r) (hourOfDay r0)) as [Eh|]; [|reflexivity].
    contradiction Hne. rewrite <- Hk. now apply row_key_same.
Qed.

Lemma entry_members data k rs :
  Forall valid_record data ->
  In (k, rs) (group_rows data) ->
  members data (time_slot_of_entry (k, rs)) = rs /\ rs <> [].
Proof.
  intros Hv Hin.
  destruct (group_rows_grouped data) as [_ Hg].
  destruct (proj1 (Hg k rs) Hin) as [Hrs Hne]. split; [|exact Hne].
  rewrite Hrs at 2. unfold members. apply filter_ext_in.
  intros r Hr. now apply (in_bucket_key data k rs).
Qed.

Lemma fold_left_total {A} (f : A -> Q) (l : list A) : forall a : Q,
  fold_left (fun sum r => sum + f r) l a == a + total (map f l).
Proof.
  induction l as [|x l IH]; intros a; cbn.
  - now rewrite Qplus_0_r.
  - rewrite IH. now rewrite Qplus_assoc.
Qed.

(** Were every addition exact, the average would be the arithmetic mean
    whatever the order of the records. *)
Lemma reduce_is_mean {A} (f : A -> Q) (l : list A) :
  fold_left (fun sum r => sum + f r) l 0 / array_length l == mean (map f l).
Proof.
  unfold mean, array_length. rewrite fold_left_total, Qplus_0_l, length_map.
  reflexivity.
Qed.

Lemma Permutation_filter_length {A} (p : A -> bool) (l l' : list A) :
  Permutation l l' -> length (filter p l) = length (filter p l').
Proof.
  induction 1 as [|x l l' _ IH|x y l|l l' l'' _ IH1 _ IH2]; cbn.
  - reflexivity.
  - destruct (p x); cbn; now rewrite IH.
  - destruct (p x), (p y); reflexivity.
  - now rewrite IH1.
Qed.

Lemma Permutation_list_sum_map {A} (f : A -> nat) (l l' : list A) :
  Permutation l l' -> list_sum (map f l) = list_sum (map f l').
Proof.
  induction 1 as [|x l l' _ IH|x y l|l l' l'' _ IH1 _ IH2]; cbn.
  - reflexivity.
  - unfold list_sum in IH. now rewrite IH.
  - lia.
  - now rewrite IH1.
Qed.

Lemma filter_map_length {A B} (p : B -> bool) (f : A -> B) (l : list A) :
  length (filter p (map f l)) = length (filter (fun a => p (f a)) l).
Proof.
  induction l as [|x l IH]; cbn; [reflexivity|].
  destruct (p (f x)); cbn; now rewrite IH.
Qed.

Lemma key_occurs_once {V} (k : string) (m : map_t V) :
  NoDup (map fst m) -> In k (map fst m) ->
  length (filter (fun e => String.eqb k (fst e)) m) = 1%nat.
Proof.
  induction m as [|[k' v'] m IH]; cbn; [contradiction|].
  intros Hnd Hin. inversion Hnd as [|? ? Hk Hnd']; subst.
  destruct (String.eqb_spec k k') as [->|Hne]; cbn.
  - f_equal. destruct (filter _ m) as [|e es] eqn:F; [reflexivity|].
    exfalso. apply Hk.
    assert (He : In e (filter (fun e => String.eqb k' (fst e)) m))
      by (rewrite F; now left).
    apply filter_In in He as [He Ee]. apply String.eqb_eq in Ee. rewrite Ee.
    now apply in_map.
  - destruct Hin as [E|Hin]; [congruence|]. now apply IH.
Qed.

Lemma historical_slots_perm data :
  Permutation (map time_slot_of_entry (group_rows data)) (historical_slots data).
Proof. apply array_sort_perm. Qed.

(** C1: historical analysis partitions the (valid) records it is given by
    day of week and hour of day.  In the result it returns, each record
    falls in exactly one bucket; every bucket has members, its sample size
    is the number of its members, its average open rate and its average
    click rate are the means of its members' rates as the code computes
    them (the rates added to 0 one after the other in the order of the
    records, the sum divided by the number of members), and its score is
    the average open rate times 0.7 plus the average click rate times 0.3;
    the sample sizes add up to the number of records. *)
Theorem historical_buckets_partition :
  forall (data : list ProcessedEmailData) (flt : FilterOptions) (clk : Clock)
         (r : AnalysisResult),
    Forall valid_record data ->
    fst (performAnalysis data "historical" flt clk) = Ok r ->
    data <> [] /\
    (forall row : ProcessedEmailData, In row data ->
       length (filter (fun b => in_bucket b row) (allTimeSlots r)) = 1%nat) /\
    Forall (fun b : TimeSlotAnalysis =>
              members data b <> [] /\
              ts_sampleSize b = length (members data b) /\
              ts_avgOpenRate b = average openRate (members data b) /\
              ts_avgClickRate b = average clickRate (members data b) /\
              ts_score b = ts_avgOpenRate b * 0.7 + ts_avgClickRate b * 0.3)
           (allTimeSlots r) /\
    list_sum (map ts_sampleSize (allTimeSlots r)) = length data.
Proof.
  intros data flt clk r Hv Hr.
  rewrite performAnalysis_historical in Hr.
  destruct data as [|row0 rows]; [discriminate Hr|].
  rewrite analyzeHistoricalData_run in Hr. injection Hr as <-.
  set (data := row0 :: rows) in *.
  split; [discriminate|]. cbn [allTimeSlots].
  pose proof (historical_slots_perm data) as Hp.
  destruct (group_rows_grouped data) as [Hnd Hg].
  split; [|split].
  - intros row Hrow.
    rewrite <- (Permutation_filter_length _ _ _ Hp), filter_map_length.
    rewrite (filter_ext_in _ (fun e => String.eqb (row_key row) (fst e))).
    + apply key_occurs_once; [exact Hnd|].
      assert (H : In (row_key row,
                      filter (fun r => String.eqb (row_key r) (row_key row)) data)
                     (group_rows data)).
      { apply Hg. split; [reflexivity|].
        intros F.
        assert (Hin : In row (filter (fun r => String.eqb (row_key r) (row_key row)) data))
          by (apply filter_In; split; [exact Hrow | apply String.eqb_refl]).
        rewrite F in Hin. contradiction. }
      apply (in_map fst) in H. exact H.
    + intros [k rs] He. cbn [fst]. now apply (in_bucket_key data k rs).
  - eapply Permutation_Forall; [exact Hp|].
    apply Forall_forall. intros b Hb.
    apply in_map_iff in Hb as ([k rs] & <- & He).
    destruct (entry_members data k rs Hv He) as [Hm Hrs].
    rewrite Hm. split; [exact Hrs|]. repeat split; reflexivity.
  - rewrite <- (Permutation_list_sum_map _ _ _ Hp), map_map.
    rewrite <- (group_rows_size data). f_equal.
    apply map_ext. now intros [k rs].
Qed.

(** ** The blend of combined analysis *)

Section KeyedMaps.
Context {A V : Type} (K : A -> string).
Implicit Types (g : A -> V) (l : list A) (m : map_t V).

Lemma map_get_app k m1 m2 :
  map_get k (m1 ++ m2)
  = match map_get k m1 with Some v => Some v | None => map_get k m2 end.
Proof.
  induction m1 as [|[k' v'] m1 IH]; cbn; [reflexivity|].
  destruct (String.eqb k k'); [reflexivity | exact IH].
Qed.

Lemma map_replace_app k v m1 m2 :
  In k (map fst m1) -> map_replace k v (m1 ++ m2) = map_replace k v m1 ++ m2.
Proof.
  induction m1 as [|[k' v'] m1 IH]; cbn; [contradiction|].
  intros Hin. destruct (String.eqb_spec k k') as [->|Hne]; [reflexivity|].
  destruct Hin as [E|Hin]; [congruence|]. now rewrite (IH Hin).
Qed.

Lemma keyed_keys g l : map fst (map (fun a => (K a, g a)) l) = map K l.
Proof. rewrite map_map. reflexivity. Qed.

Lemma key_inj l a b :
  NoDup (map K l) -> In a l -> In b l -> K a = K b -> a = b.
Proof.
  induction l as [|x l IH]; cbn; [contradiction|].
  intros Hnd Ha Hb E. inversion Hnd as [|? ? Hx Hnd']; subst.
  destruct Ha as [->|Ha], Hb as [->|Hb].
  - reflexivity.
  - contradiction Hx. rewrite E. now apply in_map.
  - contradiction Hx. rewrite <- E. now apply in_map.
  - now apply IH.
Qed.

Lemma map_get_keyed g l a :
  NoDup (map K l) -> In a l ->
  map_get (K a) (map (fun a => (K a, g a)) l) = Some (g a).
Proof.
  intros Hnd Ha. apply map_get_nodup.
  - now rewrite keyed_keys.
  - apply in_map_iff. now exists a.
Qed.

Lemma map_replace_keyed k v g l :
  NoDup (map K l) ->
  map_replace k v (map (fun a => (K a, g a)) l)
  = map (fun a => (K a, if String.eqb (K a) k then v else g a)) l.
Proof.
  induction l as [|x l IH]; cbn; [reflexivity|].
  intros Hnd. inversion Hnd as [|? ? Hx Hnd']; subst.
  rewrite (String.eqb_sym (K x) k).
  destruct (String.eqb_spec k (K x)) as [->|Hne].
  - f_equal. apply map_ext_in. intros a Ha.
    destruct (String.eqb_spec (K a) (K x)) as [E|]; [|reflexivity].
    contradiction Hx. rewrite <- E. now apply in_map.
  - f_equal. now apply IH.
Qed.
End KeyedMaps.

Lemma find_app_last {A} (f : A -> bool) (l : list A) (x : A) :
  find f (l ++ [x])
  = match find f l with
    | Some y => Some y
    | None => if f x then Some x else None
    end.
Proof.
  induction l as [|y l IH]; cbn; [reflexivity|].
  destruct (f y); [reflexivity | exact IH].
Qed.

Lemma find_all_false {A} (f : A -> bool) (l : list A) :
  (forall x, In x l -> f x = false) -> find f l = None.
Proof.
  induction l as [|y l IH]; cbn; [reflexivity|].
  intros H. rewrite (H y (or_introl eq_refl)). apply IH. auto.
Qed.

Lemma existsb_all_false {A} (f : A -> bool) (l : list A) :
  (forall x, In x l -> f x = false) -> existsb f l = false.
Proof.
  induction l as [|y l IH]; cbn; [reflexivity|].
  intros H. rewrite (H y (or_introl eq_refl)). apply IH. auto.
Qed.

Lemma add_historical_fold (l : list TimeSlotAnalysis) :
  forall m : map_t TimeSlotAnalysis,
    NoDup (map fst m ++ map slot_key l) ->
    fold_left add_historical l m
    = m ++ map (fun h => (slot_key h, scaled_historical h)) l.
Proof.
  induction l as [|h l IH]; intros m Hnd; cbn.
  - now rewrite app_nil_r.
  - assert (Hk : map_get (slot_key h) m = None).
    { apply map_get_none. intros Hin.
      apply NoDup_remove_2 in Hnd. apply Hnd, in_or_app. now left. }
    unfold add_historical at 2. rewrite (map_set_new _ _ _ Hk).
    rewrite IH.
    + rewrite <- app_assoc. reflexivity.
    + rewrite map_app, <- app_assoc. exact Hnd.
Qed.

Section BlendLoop.
Variable historical : list TimeSlotAnalysis.
Hypothesis historical_keys : NoDup (map slot_key historical).
Variable pool : list TimeSlotAnalysis.
Hypothesis key_decides :
  forall h s : TimeSlotAnalysis, In h historical -> In s pool ->
    same_time_slot h s = String.eqb (slot_key h) (slot_key s).

Lemma merge_best_practice_step (seen : list TimeSlotAnalysis) (s : TimeSlotAnalysis) :
  incl (seen ++ [s]) pool ->
  ~ In (slot_key s) (map slot_key seen) ->
  merge_best_practice (blend_map historical seen) s
  = blend_map historical (seen ++ [s]).
Proof.
  intros Hpool Hnew.
  assert (Hs : In s pool) by (apply Hpool, in_or_app; right; now left).
  assert (Hp : forall x, In x seen -> In x pool)
    by (intros x Hx; apply Hpool, in_or_app; now left).
  assert (Hseen : forall h, In h historical -> slot_key h = slot_key s ->
                            find (same_time_slot h) seen = None).
  { intros h Hh E. apply find_all_false. intros x Hx.
    rewrite (key_decides h x Hh (Hp x Hx)). apply String.eqb_neq. intros E'.
    apply Hnew. rewrite <- E, E'. now apply in_map. }
  unfold merge_best_practice, blend_map.
  destruct (in_dec string_dec (slot_key s) (map slot_key historical)) as [Hin|Hout].
  - apply in_map_iff in Hin as (h0 & E0 & H0).
    rewrite map_get_app, <- E0.
    rewrite (map_get_keyed slot_key _ _ _ historical_keys H0).
    unfold blend_with at 1. rewrite (Hseen h0 H0 E0).
    rewrite map_replace_app
      by (rewrite keyed_keys; apply in_map_iff; now exists h0).
    rewrite (map_replace_keyed slot_key _ _ _ _ historical_keys).
    rewrite filter_app. cbn [filter].
    assert (Hm : unmatched historical s = false).
    { unfold unmatched. apply negb_false_iff, existsb_exists.
      exists h0. split; [exact H0|].
      rewrite (key_decides h0 s H0 Hs). now apply String.eqb_eq. }
    rewrite Hm, app_nil_r. f_equal.
    apply map_ext_in. intros h Hh. f_equal.
    unfold blend_with. rewrite find_app_last.
    destruct (String.eqb_spec (slot_key h) (slot_key h0)) as [E|Hne].
    + assert (h = h0) as -> by (now apply (key_inj slot_key historical)).
      rewrite (Hseen h0 H0 E0), (key_decides h0 s H0 Hs), E0, String.eqb_refl.
      reflexivity.
    + rewrite (key_decides h s Hh Hs), <- E0.
      apply String.eqb_neq in Hne. rewrite Hne.
      now destruct (find (same_time_slot h) seen).
  - assert (Hnone : forall h, In h historical -> same_time_slot h s = false).
    { intros h Hh. rewrite (key_decides h s Hh Hs). apply String.eqb_neq.
      intros E. apply Hout. rewrite <- E. now apply in_map. }
    assert (Hget : map_get (slot_key s)
                     (map (fun h => (slot_key h, blend_with seen h)) historical ++
                      map (fun s0 => (slot_key s0, inserted s0))
                        (filter (unmatched historical) seen)) = None).
    { apply map_get_none. rewrite map_app, !keyed_keys. intros Hin.
      apply in_app_or in Hin as [Hin|Hin]; [now apply Hout|].
      apply Hnew. apply in_map_iff in Hin as (x & Ex & Hx).
      apply filter_In in Hx as [Hx _]. rewrite <- Ex. now apply in_map. }
    rewrite Hget, (map_set_new _ _ _ Hget).
    rewrite filter_app. cbn [filter].
    assert (Hm : unmatched historical s = true).
    { unfold unmatched. apply negb_true_iff, existsb_all_false. exact Hnone. }
    rewrite Hm, map_app, app_assoc. cbn [map]. f_equal. f_equal.
    apply map_ext_in. intros h Hh. f_equal.
    unfold blend_with. rewrite find_app_last, (Hnone h Hh).
    now destruct (find (same_time_slot h) seen).
Qed.

Lemma merge_best_practice_fold (entries : list TimeSlotAnalysis) :
  forall seen : list TimeSlotAnalysis,
    incl (seen ++ entries) pool ->
    NoDup (map slot_key (seen ++ entries)) ->
    fold_left merge_best_practice entries (blend_map historical seen)
    = blend_map historical (seen ++ entries).
Proof.
  induction entries as [|s entries IH]; intros seen Hpool Hnd; cbn.
  - now rewrite app_nil_r.
  - rewrite merge_best_practice_step.
    + replace (seen ++ s :: entries) with ((seen ++ [s]) ++ entries)
        by (rewrite <- app_assoc; reflexivity).
      apply IH; rewrite <- app_assoc; assumption.
    + intros x Hx. apply Hpool. apply in_app_or in Hx as [Hx|[<-|[]]];
        apply in_or_app; [now left | right; now left].
    + rewrite map_app in Hnd. cbn in Hnd. apply NoDup_remove_2 in Hnd.
      intros Hin. apply Hnd, in_or_app. now left.
Qed.

(** The two loops of [analyzeCombined] leave the buckets of the blend. *)
Lemma combined_map_values (entries : list TimeSlotAnalysis) :
  incl entries pool ->
  NoDup (map slot_key entries) ->
  map_values (fold_left merge_best_practice entries
                (fold_left add_historical historical []))
  = blend historical entries.
Proof.
  intros Hpool Hnd.
  rewrite add_historical_fold by exact historical_keys. cbn [app].
  assert (E : map (fun h => (slot_key h, scaled_historical h)) historical
              = blend_map historical []).
  { unfold blend_map. cbn [filter map]. now rewrite app_nil_r. }
  rewrite E, (merge_best_practice_fold entries []) by assumption. cbn [app].
  unfold blend_map, blend, map_values. rewrite map_app, !map_map. cbn [snd].
  reflexivity.
Qed.
End BlendLoop.

(** Clean slots have the same day and hour exactly when they have the same
    key. *)
Lemma slot_key_split (b : TimeSlotAnalysis) :
  clean_slot b ->
  split_dash (slot_key b) = [ts_dayOfWeek b; string_of_number (ts_hourOfDay b)] /\
  parseInt (string_of_number (ts_hourOfDay b)) = ts_hourOfDay b.
Proof.
  intros [Hd (h & Hh & Hr)]. rewrite Hh. cbn [string_of_number].
  apply hour_string in Hr as [Hn Hp]. split; [|exact Hp].
  unfold slot_key. rewrite Hh. cbn [string_of_number].
  now apply split_dash_key.
Qed.

Lemma same_time_slot_key (a b : TimeSlotAnalysis) :
  clean_slot a -> clean_slot b ->
  same_time_slot a b = String.eqb (slot_key a) (slot_key b).
Proof.
  intros Ha Hb.
  destruct (slot_key_split a Ha) as [Sa Pa], (slot_key_split b Hb) as [Sb Pb].
  destruct Ha as [_ (ha & Ea & _)], Hb as [_ (hb & Eb & _)].
  unfold same_time_slot. rewrite Ea, Eb. cbn [number_eqb].
  destruct (String.eqb_spec (slot_key a) (slot_key b)) as [E|Hne].
  - rewrite E, Sb in Sa. injection Sa as Ed Eh.
    rewrite <- Eh, Pb, Eb, Ea in Pa. injection Pa as ->.
    now rewrite Ed, String.eqb_refl, Z.eqb_refl.
  - destruct (String.eqb_spec (ts_dayOfWeek a) (ts_dayOfWeek b)) as [Ed|]; [|reflexivity].
    destruct (Z.eqb_spec ha hb) as [Eh|]; [|reflexivity].
    contradiction Hne. unfold slot_key. now rewrite Ed, Ea, Eb, Eh.
Qed.

Lemma best_practice_slots_clean : Forall clean_slot best_practice_slots.
Proof.
  repeat (constructor;
          [split; [reflexivity | eexists; split; [reflexivity | cbn; lia]]|]).
  constructor.
Qed.

Lemma best_practice_slots_keys : NoDup (map slot_key best_practice_slots).
Proof.
  repeat (constructor; [cbn; intuition discriminate|]). constructor.
Qed.

Lemma entry_slot_key data k rs :
  Forall valid_record data ->
  In (k, rs) (group_rows data) ->
  slot_key (time_slot_of_entry (k, rs)) = k /\
  clean_slot (time_slot_of_entry (k, rs)).
Proof.
  intros Hv Hin.
  destruct (entry_slot_labels data k rs Hv Hin) as (r0 & H0 & Hk & Hd & Hh).
  rewrite Forall_forall in Hv. destruct (Hv r0 H0) as [Hday Hhour].
  split.
  - unfold slot_key. rewrite Hd, Hh, <- Hk. reflexivity.
  - split.
    + rewrite Hd. now apply weekday_no_dash.
    + exists (hourOfDay r0). now split.
Qed.

Lemma historical_slots_keys data :
  Forall valid_record data ->
  NoDup (map slot_key (historical_slots data)) /\
  Forall clean_slot (historical_slots data).
Proof.
  intros Hv. pose proof (historical_slots_perm data) as Hp. split.
  - eapply Permutation_NoDup; [apply Permutation_map, Hp|].
    rewrite map_map.
    rewrite (map_ext_in _ fst).
    + apply (group_rows_grouped data).
    + intros [k rs] He. cbn [fst]. now apply (entry_slot_key data k rs).
  - eapply Permutation_Forall; [exact Hp|].
    apply Forall_forall. intros b Hb.
    apply in_map_iff in Hb as ([k rs] & <- & He).
    now apply (entry_slot_key data k rs).
Qed.

(** For valid records, combined analysis ranks the buckets of the blend of
    the historical ranking with the best-practice buckets. *)
Lemma combined_slots_blend data :
  Forall valid_record data ->
  combined_slots data
  = array_sort by_score_descending (blend (historical_slots data) best_practice_slots).
Proof.
  intros Hv. destruct (historical_slots_keys data Hv) as [Hnd Hc].
  unfold combined_slots. f_equal.
  apply (combined_map_values (historical_slots data) Hnd best_practice_slots).
  - intros h s Hh Hs. apply same_time_slot_key.
    + exact (proj1 (Forall_forall _ _) Hc h Hh).
    + exact (proj1 (Forall_forall _ _) best_practice_slots_clean s Hs).
  - apply incl_refl.
  - apply best_practice_slots_keys.
Qed.

Lemma blend_with_match (entries : list TimeSlotAnalysis) (h s : TimeSlotAnalysis) :
  clean_slot h -> Forall clean_slot entries -> NoDup (map slot_key entries) ->
  In s entries -> same_time_slot h s = true ->
  blend_with entries h = blended h s.
Proof.
  intros Hh Hc Hnd Hs Hm. rewrite Forall_forall in Hc.
  unfold blend_with. destruct (find (same_time_slot h) entries) as [s'|] eqn:F.
  - apply find_some in F as [Hs' Hm'].
    rewrite (same_time_slot_key h s Hh (Hc s Hs)) in Hm.
    rewrite (same_time_slot_key h s' Hh (Hc s' Hs')) in Hm'.
    apply String.eqb_eq in Hm, Hm'.
    assert (s' = s) as ->
      by (apply (key_inj slot_key entries); [assumption..| congruence]).
    reflexivity.
  - apply (find_none _ _ F) in Hs. congruence.
Qed.

Lemma blend_with_no_match (entries : list TimeSlotAnalysis) (h : TimeSlotAnalysis) :
  (forall s, In s entries -> same_time_slot h s = false) ->
  blend_with entries h = scaled_historical h.
Proof. intros H. unfold blend_with. now rewrite (find_all_false _ _ H). Qed.

(** C2, as stated, fails on the insertion: for one record on Friday at 16,
    the entry for Wednesday at 9 has no historical bucket, and no bucket of
    the combined ranking carries the entry's values all scaled by 0.4 (the
    bucket inserted for it has average open rate 85, not 34). *)
Lemma combined_insertion_counterexample :
  exists (rh rc : AnalysisResult) (s : TimeSlotAnalysis),
    fst (performAnalysis [sample_row "Friday" 16 10 1] "historical" all_filters ticking)
    = Ok rh /\
    fst (performAnalysis [sample_row "Friday" 16 10 1] "combined" all_filters ticking)
    = Ok rc /\
    In s best_practice_slots /\
    (forall h, In h (allTimeSlots rh) -> same_time_slot h s = false) /\
    (forall b, In b (allTimeSlots rc) -> ~ inserted_all_scaled s b) /\
    In (mkSlot "Wednesday" (Some 9%Z) "9:00 AM" 85 (85 * 0.3) 0%nat (85 * 0.4))
       (allTimeSlots rc).
Proof.
  eexists. eexists.
  exists (best_practice_slot (mkBP "Wednesday" 9 "9:00 AM" 85
            "Mid-week morning when inboxes are being cleared")).
  split; [reflexivity|]. split; [reflexivity|].
  split; [cbn; tauto|]. split; [|split].
  - intros h Hh. vm_compute in Hh. destruct Hh as [<-|[]]. reflexivity.
  - intros b Hb (Hsame & _ & _ & Hopen & _). vm_compute in Hb.
    repeat (destruct Hb as [<-|Hb]; [try discriminate Hsame|]); [|contradiction].
    vm_compute in Hopen. discriminate Hopen.
  - vm_compute. tauto.
Qed.

(** C2, amended: for records from the data model (the day one of the seven
    names, the hour from 0 to 23), whenever historical and combined
    analysis of the same records return results, the buckets combined
    analysis ranks are those of the blend of the historical ranking with
    the five best-practice buckets: a historical bucket no
    entry matches keeps its rates and sample size with its score scaled by
    0.6; a historical bucket an entry matches gets score, average open rate
    and average click rate each equal to historical value times 0.6 plus
    entry value times 0.4 and keeps its sample size; an entry no
    historical bucket matches is inserted with its score scaled by 0.4, its
    rates unscaled and sample size 0; and there are no other buckets. *)
Theorem combined_blend :
  forall (data : list ProcessedEmailData) (flt : FilterOptions) (clk clk' : Clock)
         (rh rc : AnalysisResult),
    Forall valid_record data ->
    fst (performAnalysis data "historical" flt clk) = Ok rh ->
    fst (performAnalysis data "combined" flt clk') = Ok rc ->
      data <> [] /\
      Permutation (allTimeSlots rc) (blend (allTimeSlots rh) best_practice_slots) /\
      (forall h, In h (allTimeSlots rh) ->
         (forall s, In s best_practice_slots -> same_time_slot h s = false) ->
         In (mkSlot (ts_dayOfWeek h) (ts_hourOfDay h) (ts_timeLabel h)
               (ts_avgOpenRate h) (ts_avgClickRate h) (ts_sampleSize h)
               (ts_score h * 0.6))
            (allTimeSlots rc)) /\
      (forall h s, In h (allTimeSlots rh) -> In s best_practice_slots ->
         same_time_slot h s = true ->
         In (mkSlot (ts_dayOfWeek h) (ts_hourOfDay h) (ts_timeLabel h)
               (ts_avgOpenRate h * 0.6 + ts_avgOpenRate s * 0.4)
               (ts_avgClickRate h * 0.6 + ts_avgClickRate s * 0.4)
               (ts_sampleSize h)
               (ts_score h * 0.6 + ts_score s * 0.4))
            (allTimeSlots rc)) /\
      (forall s, In s best_practice_slots ->
         (forall h, In h (allTimeSlots rh) -> same_time_slot h s = false) ->
         In (mkSlot (ts_dayOfWeek s) (ts_hourOfDay s) (ts_timeLabel s)
               (ts_avgOpenRate s) (ts_avgClickRate s) 0%nat (ts_score s * 0.4))
            (allTimeSlots rc)).
Proof.
  intros data flt clk clk' rh rc Hv Hrh Hrc.
  rewrite performAnalysis_historical in Hrh. rewrite performAnalysis_combined in Hrc.
  destruct data as [|row0 rows]; [discriminate Hrh|].
  rewrite analyzeHistoricalData_run in Hrh. rewrite analyzeCombined_run in Hrc.
  injection Hrh as <-. injection Hrc as <-.
  set (data := row0 :: rows) in *.
  split; [discriminate|]. cbn [fst allTimeSlots].
  destruct (historical_slots_keys data Hv) as [Hnd Hc].
  rewrite Forall_forall in Hc.
  assert (Hp : Permutation (combined_slots data)
                 (blend (historical_slots data) best_practice_slots)).
  { rewrite (combined_slots_blend data Hv). apply Permutation_sym, array_sort_perm. }
  split; [exact Hp|].
  apply Permutation_sym in Hp. split; [|split].
  - intros h Hh Hnone. apply (Permutation_in _ Hp). apply in_or_app. left.
    apply in_map_iff. exists h. split; [|exact Hh].
    now rewrite blend_with_no_match.
  - intros h s Hh Hs Hm. apply (Permutation_in _ Hp). apply in_or_app. left.
    apply in_map_iff. exists h. split; [|exact Hh].
    rewrite (blend_with_match best_practice_slots h s); auto.
    + apply best_practice_slots_clean.
    + apply best_practice_slots_keys.
  - intros s Hs Hnone. apply (Permutation_in _ Hp). apply in_or_app. right.
    apply in_map_iff. exists s. split; [reflexivity|].
    apply filter_In. split; [exact Hs|].
    unfold unmatched. apply negb_true_iff, existsb_all_false. exact Hnone.
Qed.

(** ** The worked scenario *)

Lemma scenario_rows_valid : Forall valid_record scenario_rows.
Proof.
  repeat (constructor; [split; [cbn; tauto | cbn; lia]|]). constructor.
Defined.

Lemma scenario_rows_percent :
  Forall (fun row => (0 <= openRate row <= 100) /\ (0 <= clickRate row <= 100))
         scenario_rows.
Proof. repeat (constructor; [cbn; lra|]). constructor. Defined.

Lemma historical_buckets_partition_witness :
  exists r : AnalysisResult,
    fst (performAnalysis scenario_rows "historical" all_filters ticking) = Ok r /\
    (forall row : ProcessedEmailData, In row scenario_rows ->
       length (filter (fun b => in_bucket b row) (allTimeSlots r)) = 1%nat) /\
    Forall (fun b : TimeSlotAnalysis =>
              members scenario_rows b <> [] /\
              ts_sampleSize b = length (members scenario_rows b) /\
              ts_avgOpenRate b = average openRate (members scenario_rows b) /\
              ts_avgClickRate b = average clickRate (members scenario_rows b) /\
              ts_score b = ts_avgOpenRate b * 0.7 + ts_avgClickRate b * 0.3)
           (allTimeSlots r) /\
    list_sum (map ts_sampleSize (allTimeSlots r)) = length scenario_rows.
Proof.
  eexists. split; [reflexivity|].
  apply (historical_buckets_partition scenario_rows all_filters ticking _
           scenario_rows_valid eq_refl).
Defined.

Lemma combined_blend_witness :
  exists rh rc : AnalysisResult,
    fst (performAnalysis scenario_rows "historical" all_filters ticking) = Ok rh /\
    fst (performAnalysis scenario_rows "combined" all_filters ticking) = Ok rc /\
    Permutation (allTimeSlots rc) (blend (allTimeSlots rh) best_practice_slots).
Proof.
  do 2 eexists. split; [reflexivity|]. split; [reflexivity|].
  exact (proj1 (proj2 (combined_blend scenario_rows all_filters ticking ticking _ _
                         scenario_rows_valid eq_refl eq_refl))).
Defined.

Lemma ranked_list_sorted_witness :
  ts_score (nth 1 (historical_slots scenario_rows) createEmptyTimeSlot)
  <= ts_score (nth 0 (historical_slots scenario_rows) createEmptyTimeSlot).
Proof.
  apply (ranked_list_sorted scenario_rows "historical" all_filters ticking _
           (or_introl eq_refl) scenario_rows_percent eq_refl 0%nat 1%nat).
  - lia.
  - vm_compute. lia.
Defined.

(** The scenario of the specification: the Tuesday bucket averages 50 and
    10 and scores 38, the Friday bucket scores 7.3, and the combined score
    of the Tuesday bucket is 60.8 with average open rate 68. *)
Example scenario_historical :
  map (fun b => (ts_dayOfWeek b, ts_hourOfDay b, ts_sampleSize b,
                 Qred (ts_avgOpenRate b), Qred (ts_avgClickRate b), Qred (ts_score b)))
      (historical_slots scenario_rows)
  = [("Tuesday"%string, Some 10%Z, 2%nat, 50, 10, 38);
     ("Friday"%string, Some 16%Z, 1%nat, 10, 1, 7.3)].
Proof. vm_compute. reflexivity. Qed.

Example scenario_combined :
  map (fun b => (ts_dayOfWeek b, ts_hourOfDay b, ts_sampleSize b,
                 Qred (ts_avgOpenRate b), Qred (ts_score b)))
      (firstn 3 (combined_slots scenario_rows))
  = [("Tuesday"%string, Some 10%Z, 2%nat, 68, Qred 60.8);
     ("Thursday"%string, Some 14%Z, 0%nat, 90, 36);
     ("Wednesday"%string, Some 9%Z, 0%nat, 85, 34)].
Proof. vm_compute. reflexivity. Qed.

(** Why the records are taken from the data model: the labels of a bucket
    are read back from its key, so a day that contained a dash would leave
    a bucket labelled with the part before the dash and the hour [NaN]. *)
Example label_of_day_with_dash :
  map (fun b => (ts_dayOfWeek b, ts_hourOfDay b, ts_timeLabel b, ts_sampleSize b))
      (historical_slots [sample_row "N-A" 5 10 1])
  = [("N"%string, None, "NaN:00 AM"%string, 1%nat)].
Proof. vm_compute. reflexivity. Qed.

(** ** Facts on keyed maps and on tallies *)

Section KeyedMapFacts.
Context {K V : Type} (eqb : K -> K -> bool).
Hypothesis eqb_spec : forall x y : K, reflect (x = y) (eqb x y).
Implicit Types (m : list (K * V)) (k : K) (v : V).

Lemma kmap_get_none k m : kmap_get eqb k m = None <-> ~ In k (map fst m).
Proof.
  induction m as [|[k' v'] m IH]; cbn.
  - tauto.
  - destruct (eqb_spec k k') as [->|Hne].
    + split; [discriminate | intros H; contradiction H; auto].
    + rewrite IH. split; [intros H [E|E]; [congruence | auto] | tauto].
Qed.

Lemma kmap_get_in k v m : kmap_get eqb k m = Some v -> In (k, v) m.
Proof.
  induction m as [|[k' v'] m IH]; cbn; [discriminate|].
  destruct (eqb_spec k k') as [->|Hne].
  - intros E. injection E as ->. now left.
  - intros E. right. now apply IH.
Qed.

Lemma kmap_get_nodup k v m :
  NoDup (map fst m) -> In (k, v) m -> kmap_get eqb k m = Some v.
Proof.
  induction m as [|[k' v'] m IH]; cbn; [contradiction|].
  intros Hnd [E|Hin].
  - injection E as -> ->. now destruct (eqb_spec k k).
  - inversion Hnd as [|? ? Hk Hnd']; subst.
    destruct (eqb_spec k k') as [->|Hne].
    + contradiction Hk. apply (in_map fst) in Hin. exact Hin.
    + now apply IH.
Qed.

Lemma kmap_replace_keys k v m : map fst (kmap_replace eqb k v m) = map fst m.
Proof.
  induction m as [|[k' v'] m IH]; cbn; [reflexivity|].
  destruct (eqb k k'); cbn; [reflexivity | now rewrite IH].
Qed.

Lemma kmap_replace_in k v m k1 v1 :
  NoDup (map fst m) -> In k (map fst m) ->
  (In (k1, v1) (kmap_replace eqb k v m) <->
   (k1 = k /\ v1 = v) \/ (k1 <> k /\ In (k1, v1) m)).
Proof.
  induction m as [|[k' v'] m IH]; cbn; [contradiction|].
  intros Hnd Hin. inversion Hnd as [|? ? Hk Hnd']; subst.
  destruct (eqb_spec k k') as [->|Hne]; cbn.
  - split.
    + intros [E|H]; [injection E as <- <-; auto|].
      right. split; [|auto]. intros ->. apply Hk.
      apply (in_map fst) in H. exact H.
    + intros [[-> ->]|[Hne [E|H]]]; auto.
      injection E as <- _. contradiction.
  - destruct Hin as [E|Hin]; [congruence|].
    rewrite (IH Hnd' Hin). split.
    + intros [E|[H|[H1 H2]]].
      * injection E as <- <-. right. split; [congruence | now left].
      * now left.
      * right. split; [exact H1 | now right].
    + intros [H|[Hk1 [E|H]]]; auto.
Qed.

(** Setting a key, by cases on whether the map has it. *)
Lemma kmap_set_in k v m k1 v1 :
  NoDup (map fst m) ->
  NoDup (map fst (kmap_set eqb k v m)) /\
  (In (k1, v1) (kmap_set eqb k v m) <->
   (k1 = k /\ v1 = v) \/ (k1 <> k /\ In (k1, v1) m)).
Proof.
  intros Hnd. unfold kmap_set.
  destruct (kmap_get eqb k m) as [v0|] eqn:G.
  - assert (Hk : In k (map fst m))
      by (apply kmap_get_in, (in_map fst) in G; exact G).
    split; [now rewrite kmap_replace_keys | now apply kmap_replace_in].
  - apply kmap_get_none in G. split.
    + rewrite map_app. cbn. apply NoDup_app; [exact Hnd | repeat constructor; auto |].
      intros a Ha [<-|[]]. contradiction.
    + rewrite in_app_iff. cbn. split.
      * intros [H|[E|[]]].
        -- right. split; [|exact H]. intros ->. apply G.
           apply (in_map fst) in H. exact H.
        -- injection E as <- <-. now left.
      * intros [[-> ->]|[_ H]]; auto.
Qed.
End KeyedMapFacts.

Section TallyFacts.
Context {K V Row : Type} (eqb : K -> K -> bool).
Hypothesis eqb_spec : forall x y : K, reflect (x = y) (eqb x y).
Context (key : Row -> K) (update : V -> Row -> V) (fresh : V).

Lemma eqb_true_iff (x y : K) : eqb x y = true <-> x = y.
Proof. destruct (eqb_spec x y); split; congruence. Qed.

Lemma tallied_step seen m row :
  tallied eqb key update fresh seen m ->
  tallied eqb key update fresh (seen ++ [row]) (tally_step eqb key update fresh m row).
Proof.
  intros [Hnd Hin]. unfold tally_step.
  assert (Hv : match kmap_get eqb (key row) m with Some v => v | None => fresh end
               = fold_left update (filter (fun r => eqb (key r) (key row)) seen) fresh).
  { destruct (kmap_get eqb (key row) m) as [v1|] eqn:G.
    - apply (kmap_get_in eqb eqb_spec), Hin in G. tauto.
    - destruct (filter _ seen) as [|x xs] eqn:F; [reflexivity|].
      exfalso. apply (kmap_get_none eqb eqb_spec) in G. apply G.
      assert (Hx : In x (filter (fun r => eqb (key r) (key row)) seen))
        by (rewrite F; now left).
      apply filter_In in Hx as [Hx Ex]. apply eqb_true_iff in Ex.
      assert (H : In (key row,
                      fold_left update
                        (filter (fun r => eqb (key r) (key row)) seen) fresh) m)
        by (apply Hin; split; [reflexivity | now exists x]).
      apply (in_map fst) in H. exact H. }
  rewrite Hv. clear Hv.
  set (v0 := update _ row).
  destruct (kmap_set_in eqb eqb_spec (key row) v0 m (key row) v0 Hnd) as [Hnd' _].
  split; [exact Hnd'|].
  intros k v.
  rewrite (proj2 (kmap_set_in eqb eqb_spec (key row) v0 m k v Hnd)).
  rewrite filter_app. cbn [filter].
  destruct (eqb_spec (key row) k) as [E|Hne].
  - subst k. rewrite fold_left_app. cbn [fold_left]. fold v0. split.
    + intros [[_ ->]|[Hc _]]; [|congruence]. split; [reflexivity|].
      exists row. split; [apply in_or_app; right; now left | reflexivity].
    + intros [-> _]. now left.
  - rewrite app_nil_r. rewrite Hin. split.
    + intros [[Hc _]|[_ [-> (r & Hr & Er)]]]; [congruence|].
      split; [reflexivity|]. exists r. split; [apply in_or_app; now left | exact Er].
    + intros [-> (r & Hr & Er)]. right. split; [congruence|].
      split; [reflexivity|]. exists r. split; [|exact Er].
      apply in_app_or in Hr as [Hr|[<-|[]]]; [exact Hr | contradiction].
Qed.

Lemma tallied_fold data : forall seen m,
  tallied eqb key update fresh seen m ->
  tallied eqb key update fresh (seen ++ data)
    (fold_left (tally_step eqb key update fresh) data m).
Proof.
  induction data as [|r data IH]; intros seen m H; cbn.
  - now rewrite app_nil_r.
  - replace (seen ++ r :: data) with ((seen ++ [r]) ++ data)
      by (rewrite <- app_assoc; reflexivity).
    apply IH, tallied_step, H.
Qed.

Lemma tally_tallied data :
  tallied eqb key update fresh data
    (fold_left (tally_step eqb key update fresh) data []).
Proof.
  apply (tallied_fold data [] []). split; [constructor|].
  intros k v. cbn. split; [contradiction | intros [_ (r & [] & _)]].
Qed.

(** Looking a key up in the tally. *)
Lemma tally_get data k :
  kmap_get eqb k (fold_left (tally_step eqb key update fresh) data [])
  = match filter (fun r => eqb (key r) k) data with
    | [] => None
    | rows => Some (fold_left update rows fresh)
    end.
Proof.
  destruct (tally_tallied data) as [Hnd Hin].
  destruct (filter (fun r => eqb (key r) k) data) as [|x xs] eqn:F.
  - apply (kmap_get_none eqb eqb_spec). intros Hk.
    apply in_map_iff in Hk as ([k' v] & <- & He). cbn [fst] in F.
    apply Hin in He as [_ (r & Hr & Er)].
    assert (Hx : In r (filter (fun r => eqb (key r) k') data))
      by (apply filter_In; split; [exact Hr | now apply eqb_true_iff]).
    rewrite F in Hx. contradiction.
  - apply (kmap_get_nodup eqb eqb_spec); [exact Hnd|].
    apply Hin. rewrite F. split; [reflexivity|].
    assert (Hx : In x (filter (fun r => eqb (key r) k) data))
      by (rewrite F; now left).
    apply filter_In in Hx as [Hx Ex]. apply eqb_true_iff in Ex. now exists x.
Qed.
End TallyFacts.

(** ** Sorting with any consistent comparator *)

Section SortBy.
Context {A : Type} (compareFn : A -> A -> Q) (R : A -> A -> Prop).
Hypothesis R_trans : forall x y z, R x y -> R y z -> R x z.
Hypothesis after : forall x y, (compareFn x y ?= 0) = Gt -> R y x.
Hypothesis not_after : forall x y, (compareFn x y ?= 0) <> Gt -> R x y.

Lemma sort_insert_sorted_by (x : A) (l : list A) :
  StronglySorted R l -> StronglySorted R (sort_insert compareFn x l).
Proof.
  induction 1 as [|y l Hs IH Hy]; cbn.
  - constructor; constructor.
  - destruct (compareFn x y ?= 0) eqn:E.
    + assert (Hxy : R x y) by (apply not_after; congruence).
      constructor; [now constructor|]. constructor; [exact Hxy|].
      eapply Forall_impl; [|exact Hy]. intros z Hz. now apply (R_trans x y z).
    + assert (Hxy : R x y) by (apply not_after; congruence).
      constructor; [now constructor|]. constructor; [exact Hxy|].
      eapply Forall_impl; [|exact Hy]. intros z Hz. now apply (R_trans x y z).
    + constructor; [exact IH|].
      eapply Permutation_Forall; [apply sort_insert_perm|].
      constructor; [now apply after | exact Hy].
Qed.

Lemma array_sort_sorted_by (l : list A) : StronglySorted R (array_sort compareFn l).
Proof.
  induction l as [|x l IH]; cbn.
  - constructor.
  - now apply sort_insert_sorted_by.
Qed.
End SortBy.

Lemma sorted_distinct_strict {A} (f : A -> Z) (l : list A) :
  StronglySorted (fun a b => (f a <= f b)%Z) l -> NoDup (map f l) ->
  StronglySorted (fun a b => (f a < f b)%Z) l.
Proof.
  induction 1 as [|x l Hs IH Hx]; intros Hnd; cbn in Hnd.
  - constructor.
  - inversion Hnd as [|? ? Hn Hnd']; subst. constructor; [now apply IH|].
    rewrite Forall_forall in *. intros y Hy.
    specialize (Hx y Hy).
    assert (f x <> f y) by (intros E; apply Hn; rewrite E; now apply in_map).
    lia.
Qed.

Lemma inject_Z_compare_0 (z : Z) : (inject_Z z ?= 0) = (z ?= 0)%Z.
Proof. unfold Qcompare. cbn. now rewrite Z.mul_1_r. Qed.

Section KeyedMapMeasure.
Context {K V : Type} (eqb : K -> K -> bool) (size : V -> nat).

(** Setting a key changes the total size of the values by the difference
    between the new value and the one it replaces. *)
Lemma kmap_set_measure (k : K) (v : V) (m : list (K * V)) :
  (list_sum (map (fun e => size (snd e)) (kmap_set eqb k v m))
   + match kmap_get eqb k m with Some v0 => size v0 | None => 0 end
   = list_sum (map (fun e => size (snd e)) m) + size v)%nat.
Proof.
  unfold kmap_set.
  destruct (kmap_get eqb k m) as [v0|] eqn:G.
  - revert G. induction m as [|[k' v'] m IH]; cbn; [discriminate|].
    destruct (eqb k k'); cbn.
    + intros E. injection E as ->. lia.
    + intros E. specialize (IH E). unfold list_sum in IH. lia.
  - rewrite map_app, list_sum_app. cbn. lia.
Qed.
End KeyedMapMeasure.

(** ** The distribution over the hours *)

Lemma count_up {A} (l : list A) (a : nat) :
  fold_left (fun (c : nat) (_ : A) => (c + 1)%nat) l a = (a + length l)%nat.
Proof.
  revert a. induction l as [|x l IH]; intros a; cbn; [lia|].
  rewrite IH. lia.
Qed.

Lemma hour_counts_tallied data :
  tallied Z.eqb hourOfDay (fun (c : nat) (_ : ProcessedEmailData) => (c + 1)%nat) 0%nat
    data (fold_left count_hour data []).
Proof.
  exact (tally_tallied Z.eqb Z.eqb_spec hourOfDay
           (fun (c : nat) (_ : ProcessedEmailData) => (c + 1)%nat) 0%nat data).
Qed.

Lemma time_distribution_perm data :
  Permutation
    (map (fun entry : Z * nat =>
            mkHourCount (fst entry) (formatTimeLabel (Some (fst entry))) (snd entry))
         (fold_left count_hour data []))
    (getTimeDistribution data).
Proof.
  unfold getTimeDistribution.
  rewrite (map_ext (fun entry : Z * nat =>
                      let '(hour, count) := entry in
                      mkHourCount hour (formatTimeLabel (Some hour)) count)
                   (fun entry => mkHourCount (fst entry)
                                   (formatTimeLabel (Some (fst entry))) (snd entry)))
    by (now intros [h c]).
  apply array_sort_perm.
Qed.

(** X1: [getTimeDistribution] has one entry for each hour that occurs in
    the data and no other; the count of an entry is the number of records
    of its hour, its label is the label of its hour, and the counts add up
    to the number of records. *)
Theorem time_distribution_counts :
  forall data : list ProcessedEmailData,
    (forall e, In e (getTimeDistribution data) ->
       hc_count e = length (rows_at_hour data (hc_hour e)) /\
       (1 <= hc_count e)%nat /\
       hc_timeLabel e = formatTimeLabel (Some (hc_hour e))) /\
    (forall r, In r data ->
       exists e, In e (getTimeDistribution data) /\ hc_hour e = hourOfDay r) /\
    list_sum (map hc_count (getTimeDistribution data)) = length data.
Proof.
  intros data.
  pose proof (time_distribution_perm data) as Hp.
  destruct (hour_counts_tallied data) as [Hnd Hin].
  split; [|split].
  - intros e He. apply (Permutation_in _ (Permutation_sym Hp)) in He.
    apply in_map_iff in He as ([h c] & <- & Hhc). cbn.
    apply Hin in Hhc as [-> (r & Hr & Er)].
    rewrite count_up. cbn. unfold rows_at_hour.
    split; [reflexivity|]. split; [|reflexivity].
    assert (Hx : In r (filter (fun r0 => (hourOfDay r0 =? h)%Z) data))
      by (apply filter_In; split; [exact Hr | now apply Z.eqb_eq]).
    destruct (filter _ data); [contradiction | cbn; lia].
  - intros r Hr.
    exists (mkHourCount (hourOfDay r) (formatTimeLabel (Some (hourOfDay r)))
              (length (rows_at_hour data (hourOfDay r)))).
    split; [|reflexivity].
    apply (Permutation_in _ Hp). apply in_map_iff.
    exists (hourOfDay r, length (rows_at_hour data (hourOfDay r))).
    split; [reflexivity|]. apply Hin. split.
    + now rewrite count_up.
    + now exists r.
  - rewrite <- (Permutation_list_sum_map _ _ _ Hp), map_map. cbn [hc_count].
    clear Hp Hnd Hin.
    assert (H : forall m : list (Z * nat),
               list_sum (map snd (fold_left count_hour data m))
               = (list_sum (map snd m) + length data)%nat).
    { induction data as [|r data IH]; intros m; cbn [fold_left length]; [lia|].
      rewrite IH. clear IH.
      pose proof (kmap_set_measure Z.eqb (fun c : nat => c) (hourOfDay r)
                    (match kmap_get Z.eqb (hourOfDay r) m with
                     | Some c => c
                     | None => 0%nat
                     end + 1)%nat m) as Hs.
      fold (count_hour m r) in Hs. cbv beta in Hs.
      change (fun e : Z * nat => snd e) with (@snd Z nat) in Hs.
      destruct (kmap_get Z.eqb (hourOfDay r) m); lia. }
    rewrite (map_ext _ snd) by reflexivity.
    rewrite H. reflexivity.
Qed.

(** X2: the entries of [getTimeDistribution] come by strictly ascending
    hour, so no hour has two entries. *)
Theorem time_distribution_ascending :
  forall data : list ProcessedEmailData,
    StronglySorted (fun a b => (hc_hour a < hc_hour b)%Z) (getTimeDistribution data).
Proof.
  intros data. apply sorted_distinct_strict.
  - unfold getTimeDistribution.
    apply (array_sort_sorted_by by_hour_ascending
             (fun a b => (hc_hour a <= hc_hour b)%Z)).
    + intros x y z. lia.
    + intros x y. unfold by_hour_ascending. rewrite inject_Z_compare_0.
      intros H. apply Z.compare_gt_iff in H. lia.
    + intros x y. unfold by_hour_ascending. rewrite inject_Z_compare_0.
      intros H. destruct (Z.compare_spec (hc_hour x - hc_hour y) 0); try lia.
      congruence.
  - eapply Permutation_NoDup; [apply Permutation_map, time_distribution_perm|].
    rewrite map_map. cbn [hc_hour]. apply (hour_counts_tallied data).
Qed.

(** ** The distribution over the days *)

Lemma map_get_keyed_by_string {V} (k : string) (m : map_t V) :
  map_get k m = kmap_get String.eqb k m.
Proof.
  induction m as [|[k' v'] m IH]; cbn; [reflexivity|]. now rewrite IH.
Qed.

Lemma map_set_keyed_by_string {V} (k : string) (v : V) (m : map_t V) :
  map_set k v m = kmap_set String.eqb k v m.
Proof.
  unfold map_set, map_has, kmap_set. rewrite map_get_keyed_by_string.
  destruct (kmap_get String.eqb k m); [|reflexivity].
  induction m as [|[k' v'] m IH]; cbn; [reflexivity|]. now rewrite IH.
Qed.

Lemma count_day_tally m row :
  count_day m row
  = tally_step String.eqb dayOfWeek
      (fun e r => mkDayTotals (dt_count e + 1) (dt_avgOpenRate e + openRate r))
      (mkDayTotals 0 0) m row.
Proof.
  unfold count_day, tally_step.
  now rewrite map_set_keyed_by_string, map_get_keyed_by_string.
Qed.

Lemma day_totals_fold (rows : list ProcessedEmailData) (c : nat) (s : Q) :
  fold_left (fun e r => mkDayTotals (dt_count e + 1) (dt_avgOpenRate e + openRate r))
    rows (mkDayTotals c s)
  = mkDayTotals (c + length rows) (fold_left (fun sum r => sum + openRate r) rows s).
Proof.
  revert c s. induction rows as [|r rows IH]; intros c s; cbn.
  - f_equal. lia.
  - rewrite IH. f_equal. lia.
Qed.

Lemma fold_left_same {A B} (f g : A -> B -> A) (l : list B) (a : A) :
  (forall x y, f x y = g x y) -> fold_left f l a = fold_left g l a.
Proof.
  intros H. revert a. induction l as [|y l IH]; intros a; cbn; [reflexivity|].
  now rewrite H, IH.
Qed.

Lemma day_counts_tally data :
  fold_left count_day data []
  = fold_left (tally_step String.eqb dayOfWeek
                 (fun e r => mkDayTotals (dt_count e + 1) (dt_avgOpenRate e + openRate r))
                 (mkDayTotals 0 0)) data [].
Proof. apply fold_left_same, count_day_tally. Qed.

Lemma day_counts_get data day :
  map_get day (fold_left count_day data [])
  = match rows_on_day data day with
    | [] => None
    | rows => Some (mkDayTotals (length rows)
                      (fold_left (fun sum r => sum + openRate r) rows 0))
    end.
Proof.
  rewrite map_get_keyed_by_string.
  rewrite day_counts_tally.
  rewrite (tally_get String.eqb String.eqb_spec).
  unfold rows_on_day. destruct (filter _ data) as [|x xs]; [reflexivity|].
  now rewrite day_totals_fold.
Qed.

Lemma existsb_filter {A} (f : A -> bool) (l : list A) :
  existsb f l = match filter f l with [] => false | _ :: _ => true end.
Proof.
  induction l as [|x l IH]; cbn; [reflexivity|].
  destruct (f x); cbn; [reflexivity | exact IH].
Qed.

Lemma getDayDistribution_days data :
  getDayDistribution data
  = map (fun day =>
           mkDayCount day (length (rows_on_day data day))
             (fold_left (fun sum r => sum + openRate r) (rows_on_day data day) 0
              / count_as_number (length (rows_on_day data day))))
        (filter (fun day => existsb (fun r => String.eqb (dayOfWeek r) day) data)
                monday_first).
Proof.
  unfold getDayDistribution.
  rewrite (filter_ext _ (fun day => existsb (fun r => String.eqb (dayOfWeek r) day) data)).
  - apply map_ext. intros day. rewrite day_counts_get.
    destruct (rows_on_day data day) as [|x xs]; reflexivity.
  - intros day. unfold map_has. rewrite day_counts_get, existsb_filter.
    unfold rows_on_day. now destruct (filter _ data).
Qed.

(** X3: [getDayDistribution] lists, Monday first, the days of the week that
    occur in the data; the count of a day is the number of its records
    (at least one) and its average open rate is their open rates added to
    0 one after the other, in the order of the records, divided by the
    count. *)
Theorem day_distribution_entries :
  forall data : list ProcessedEmailData,
    map dd_day (getDayDistribution data)
    = filter (fun day => existsb (fun r => String.eqb (dayOfWeek r) day) data)
             ["Monday"; "Tuesday"; "Wednesday"; "Thursday"; "Friday"; "Saturday";
              "Sunday"]%string /\
    Forall (fun e =>
              dd_count e = length (rows_on_day data (dd_day e)) /\
              (1 <= dd_count e)%nat /\
              dd_avgOpenRate e = average openRate (rows_on_day data (dd_day e)))
           (getDayDistribution data).
Proof.
  intros data. rewrite getDayDistribution_days. split.
  - rewrite map_map. cbn [dd_day]. apply map_id.
  - apply Forall_forall. intros e He.
    apply in_map_iff in He as (day & <- & Hday). cbn.
    apply filter_In in Hday as [_ Hex]. rewrite existsb_filter in Hex.
    fold (rows_on_day data day) in Hex.
    split; [reflexivity|]. split.
    + destruct (rows_on_day data day); [discriminate | cbn; lia].
    + reflexivity.
Qed.

(** ** Counting the records key by key *)

Lemma list_sum_map_add {A} (f g : A -> nat) (l : list A) :
  list_sum (map (fun x => (f x + g x)%nat) l)
  = (list_sum (map f l) + list_sum (map g l))%nat.
Proof.
  induction l as [|x l IH]; cbn; [reflexivity|].
  unfold list_sum in IH. rewrite IH. lia.
Qed.

Lemma list_sum_filter_zero {A} (p : A -> bool) (f : A -> nat) (l : list A) :
  (forall x, In x l -> p x = false -> f x = 0%nat) ->
  list_sum (map f (filter p l)) = list_sum (map f l).
Proof.
  induction l as [|x l IH]; intros H; cbn; [reflexivity|].
  assert (IH' : list_sum (map f (filter p l)) = list_sum (map f l))
    by (apply IH; intros y Hy; apply H; now right).
  unfold list_sum in IH'.
  destruct (p x) eqn:E; cbn; rewrite IH'; [reflexivity|].
  rewrite (H x (or_introl eq_refl) E). reflexivity.
Qed.

Section CountByKeys.
Context {K Row : Type} (eqb : K -> K -> bool).
Hypothesis eqb_spec : forall x y : K, reflect (x = y) (eqb x y).
Context (key : Row -> K).

Lemma indicator_sum (x : K) (ks : list K) :
  NoDup ks ->
  list_sum (map (fun k => if eqb x k then 1%nat else 0%nat) ks)
  = if existsb (eqb x) ks then 1%nat else 0%nat.
Proof.
  induction 1 as [|k ks Hk Hnd IH]; cbn; [reflexivity|].
  unfold list_sum in IH. rewrite IH.
  destruct (eqb_spec x k) as [->|Hne]; cbn; [|reflexivity].
  destruct (existsb (eqb k) ks) eqn:E; [|reflexivity].
  apply existsb_exists in E as (y & Hy & Ey).
  destruct (eqb_spec k y) as [->|]; [contradiction | discriminate].
Qed.

(** Over keys without repetition, the records counted key by key are the
    records whose key is one of them. *)
Lemma count_by_keys (ks : list K) (data : list Row) :
  NoDup ks ->
  list_sum (map (fun k => length (filter (fun r => eqb (key r) k) data)) ks)
  = length (filter (fun r => existsb (eqb (key r)) ks) data).
Proof.
  intros Hnd. induction data as [|r data IH].
  - cbn. induction ks as [|k ks IHk]; cbn; [reflexivity|].
    apply IHk. now inversion Hnd.
  - cbn [filter].
    rewrite (map_ext _ (fun k => ((if eqb (key r) k then 1 else 0)
                                  + length (filter (fun r0 => eqb (key r0) k) data))%nat))
      by (intros k; now destruct (eqb (key r) k)).
    rewrite list_sum_map_add, IH, (indicator_sum _ _ Hnd).
    now destruct (existsb (eqb (key r)) ks).
Qed.
End CountByKeys.

Lemma monday_first_nodup : NoDup monday_first.
Proof. repeat (constructor; [cbn; intuition discriminate|]). constructor. Qed.

Lemma valid_day_listed (r : ProcessedEmailData) :
  valid_record r -> existsb (String.eqb (dayOfWeek r)) monday_first = true.
Proof.
  intros [Hd _]. cbn in Hd.
  repeat (destruct Hd as [<-|Hd]; [reflexivity|]). contradiction.
Qed.

Lemma filter_all {A} (p : A -> bool) (l : list A) :
  (forall x, In x l -> p x = true) -> filter p l = l.
Proof.
  induction l as [|x l IH]; intros H; cbn; [reflexivity|].
  rewrite (H x (or_introl eq_refl)). f_equal. apply IH. intros y Hy. apply H. now right.
Qed.

(** X4: the counts of [getDayDistribution] add up to the number of records
    whose day is one of the seven names of its list: records with any
    other day are left out; for records from the normaliser the counts add
    up to the number of records. *)
Theorem day_distribution_total :
  forall data : list ProcessedEmailData,
    list_sum (map dd_count (getDayDistribution data))
    = length (filter (fun r => existsb (String.eqb (dayOfWeek r)) monday_first) data) /\
    (Forall valid_record data ->
     list_sum (map dd_count (getDayDistribution data)) = length data).
Proof.
  intros data.
  assert (H : list_sum (map dd_count (getDayDistribution data))
              = length (filter (fun r => existsb (String.eqb (dayOfWeek r)) monday_first)
                          data)).
  { rewrite getDayDistribution_days, map_map. cbn [dd_count].
    rewrite list_sum_filter_zero.
    - apply (count_by_keys String.eqb String.eqb_spec dayOfWeek monday_first data).
      apply monday_first_nodup.
    - intros day _ Hex. rewrite existsb_filter in Hex.
      unfold rows_on_day. now destruct (filter _ data). }
  split; [exact H|].
  intros Hv. rewrite H. f_equal. apply filter_all.
  intros r Hr. apply valid_day_listed.
  exact (proj1 (Forall_forall _ _) Hv r Hr).
Qed.

Lemma day_distribution_total_witness :
  list_sum (map dd_count (getDayDistribution scenario_rows)) = length scenario_rows.
Proof.
  apply (proj2 (day_distribution_total scenario_rows)). exact scenario_rows_valid.
Defined.

(** ** The heatmap *)

Lemma heatmap_visit_push data day heatmapData hour :
  heatmap_visit data day heatmapData hour
  = heatmapData ++ heatmap_cell data (day, hour).
Proof.
  unfold heatmap_cell, heatmap_visit. cbn [fst snd].
  destruct (0 <? length _)%nat; [reflexivity | now rewrite app_nil_r].
Qed.

Lemma fold_left_push {A B} (f : B -> list A) (l : list B) (acc : list A) :
  fold_left (fun acc x => acc ++ f x) l acc = acc ++ flat_map f l.
Proof.
  revert acc. induction l as [|x l IH]; intros acc; cbn.
  - now rewrite app_nil_r.
  - now rewrite IH, app_assoc.
Qed.

Lemma flat_map_list_prod {A B C} (f : A * B -> list C) (l : list A) (l' : list B) :
  flat_map f (list_prod l l') = flat_map (fun x => flat_map (fun y => f (x, y)) l') l.
Proof.
  induction l as [|x l IH]; cbn; [reflexivity|].
  rewrite flat_map_app, IH. f_equal. clear IH.
  induction l' as [|y l' IH']; cbn; [reflexivity|]. now rewrite IH'.
Qed.

Lemma flat_map_option {A B} (p : A -> bool) (g : A -> B) (l : list A) :
  flat_map (fun x => if p x then [g x] else []) l = map g (filter p l).
Proof.
  induction l as [|x l IH]; cbn; [reflexivity|].
  destruct (p x); cbn; now rewrite IH.
Qed.

(** The heatmap visits the grid in order and keeps a cell for each
    occupied position. *)
Lemma getHeatmapData_grid data :
  getHeatmapData data
  = map (fun position =>
           mkCell (fst position) (snd position)
             (fold_left (fun sum r => sum + openRate r)
                (rows_at data (fst position) (snd position)) 0
              / array_length (rows_at data (fst position) (snd position)))
             (length (rows_at data (fst position) (snd position))))
        (filter (occupied data) heatmap_grid).
Proof.
  unfold getHeatmapData.
  rewrite (fold_left_same _
             (fun acc day => acc ++ flat_map (fun hour => heatmap_cell data (day, hour))
                                      hours_0_23)).
  - rewrite fold_left_push. cbn [app].
    rewrite <- (flat_map_list_prod (heatmap_cell data)).
    fold heatmap_grid. rewrite <- flat_map_option.
    apply flat_map_ext. intros [day hour].
    unfold heatmap_cell, heatmap_visit, occupied. cbn [fst snd app].
    rewrite existsb_filter. fold (rows_at data day hour).
    now destruct (rows_at data day hour).
  - intros acc day.
    rewrite (fold_left_same _ (fun acc hour => acc ++ heatmap_cell data (day, hour)))
      by (intros; apply heatmap_visit_push).
    apply fold_left_push.
Qed.

(** X5: the cells of [getHeatmapData] are the occupied positions of the
    grid of seven days and twenty-four hours, in the order of the grid
    (day by day from Monday, hour by hour within a day); the count of a
    cell is the number of records of its day and hour (at least one) and
    its value is their open rates added to 0 one after the other, in the
    order of the records, divided by the count. *)
Theorem heatmap_cells :
  forall data : list ProcessedEmailData,
    map (fun c => (hm_day c, hm_hour c)) (getHeatmapData data)
    = filter (fun position =>
                existsb (fun r => String.eqb (dayOfWeek r) (fst position) &&
                                  (hourOfDay r =? snd position)%Z) data)
             (list_prod monday_first (map Z.of_nat (seq 0 24))) /\
    Forall (fun c =>
              hm_count c = length (rows_at data (hm_day c) (hm_hour c)) /\
              (1 <= hm_count c)%nat /\
              hm_value c = average openRate (rows_at data (hm_day c) (hm_hour c)))
           (getHeatmapData data).
Proof.
  intros data. rewrite getHeatmapData_grid. split.
  - rewrite map_map. cbn [hm_day hm_hour].
    rewrite (map_ext _ (fun p => p)) by (now intros [d h]).
    apply map_id.
  - apply Forall_forall. intros c Hc.
    apply in_map_iff in Hc as ([day hour] & <- & Hp). cbn.
    apply filter_In in Hp as [_ Hocc]. unfold occupied in Hocc.
    rewrite existsb_filter in Hocc. cbn [fst snd] in Hocc.
    fold (rows_at data day hour) in Hocc.
    split; [reflexivity|]. split.
    + destruct (rows_at data day hour); [discriminate | cbn; lia].
    + reflexivity.
Qed.

Lemma position_eqb_spec (p q : string * Z) : reflect (p = q) (position_eqb p q).
Proof.
  destruct p as [d h], q as [d' h']. unfold position_eqb. cbn [fst snd].
  destruct (String.eqb_spec d d') as [->|Hd]; cbn.
  - destruct (Z.eqb_spec h h') as [->|Hh]; constructor; congruence.
  - constructor. congruence.
Qed.

Lemma NoDup_map_injective {A B} (f : A -> B) (l : list A) :
  (forall x y, f x = f y -> x = y) -> NoDup l -> NoDup (map f l).
Proof.
  intros Hf. induction 1 as [|x l Hx Hl IH]; cbn; constructor; [|exact IH].
  intros Hin. apply in_map_iff in Hin as (y & E & Hy).
  apply Hf in E. subst y. contradiction.
Qed.

Lemma NoDup_list_prod {A B} (l : list A) (l' : list B) :
  NoDup l -> NoDup l' -> NoDup (list_prod l l').
Proof.
  intros Hl Hl'. induction Hl as [|x l Hx Hl IH]; cbn; [constructor|].
  apply NoDup_app.
  - apply NoDup_map_injective; [|exact Hl']. intros a b E. now injection E.
  - exact IH.
  - intros [a b] Ha Hb. apply in_map_iff in Ha as (y & E & _). injection E as <- _.
    apply in_prod_iff in Hb as [Hb _]. contradiction.
Qed.

Lemma hours_0_23_spec (h : Z) : In h hours_0_23 <-> (0 <= h <= 23)%Z.
Proof.
  unfold hours_0_23. rewrite in_map_iff. split.
  - intros (n & <- & Hn). apply in_seq in Hn. lia.
  - intros H. exists (Z.to_nat h). split; [lia|]. apply in_seq. lia.
Qed.

Lemma heatmap_grid_nodup : NoDup heatmap_grid.
Proof.
  apply NoDup_list_prod; [apply monday_first_nodup|].
  apply NoDup_map_injective; [|apply seq_NoDup]. intros a b. lia.
Qed.

Lemma on_grid_spec (r : ProcessedEmailData) :
  existsb (position_eqb (row_position r)) heatmap_grid = on_grid r.
Proof.
  apply eq_iff_eq_true. unfold on_grid.
  rewrite existsb_exists, andb_true_iff, existsb_exists, andb_true_iff.
  rewrite !Z.leb_le. split.
  - intros ([d h] & Hin & E).
    destruct (position_eqb_spec (row_position r) (d, h)) as [Er|]; [|discriminate].
    injection Er as <- <-. apply in_prod_iff in Hin as [Hd Hh].
    apply hours_0_23_spec in Hh. split; [|exact Hh].
    exists (dayOfWeek r). split; [exact Hd | apply String.eqb_refl].
  - intros [(d & Hd & Ed) Hh]. apply String.eqb_eq in Ed. subst d.
    exists (row_position r). split.
    + apply in_prod_iff. split; [exact Hd | now apply hours_0_23_spec].
    + now destruct (position_eqb_spec (row_position r) (row_position r)).
Qed.

Lemma valid_on_grid (r : ProcessedEmailData) : valid_record r -> on_grid r = true.
Proof.
  intros Hv. unfold on_grid. rewrite (valid_day_listed r Hv).
  destruct Hv as [_ Hh]. cbn. apply andb_true_iff. rewrite !Z.leb_le. exact Hh.
Qed.

(** X6: the counts of [getHeatmapData] add up to the number of records
    whose day is one of the seven names and whose hour is from 0 to 23:
    any other record is in no cell; for records from the normaliser the
    counts add up to the number of records. *)
Theorem heatmap_total :
  forall data : list ProcessedEmailData,
    list_sum (map hm_count (getHeatmapData data))
    = length (filter (fun r => existsb (String.eqb (dayOfWeek r)) monday_first &&
                               ((0 <=? hourOfDay r)%Z && (hourOfDay r <=? 23)%Z)) data) /\
    (Forall valid_record data ->
     list_sum (map hm_count (getHeatmapData data)) = length data).
Proof.
  intros data.
  assert (H : list_sum (map hm_count (getHeatmapData data))
              = length (filter on_grid data)).
  { rewrite getHeatmapData_grid, map_map. cbn [hm_count].
    rewrite list_sum_filter_zero.
    - rewrite <- (filter_ext _ _ on_grid_spec).
      exact (count_by_keys position_eqb position_eqb_spec row_position
               heatmap_grid data heatmap_grid_nodup).
    - intros [d h] _ Hocc. unfold occupied in Hocc. rewrite existsb_filter in Hocc.
      cbn [fst snd] in *. unfold rows_at. now destruct (filter _ data). }
  split; [exact H|].
  intros Hv. rewrite H. f_equal. apply filter_all.
  intros r Hr. apply valid_on_grid.
  exact (proj1 (Forall_forall _ _) Hv r Hr).
Qed.

Lemma heatmap_total_witness :
  list_sum (map hm_count (getHeatmapData scenario_rows)) = length scenario_rows.
Proof.
  apply (proj2 (heatmap_total scenario_rows)). exact scenario_rows_valid.
Defined.

(** ** The heatmap and the historical buckets *)

(** For valid records, the slot computed for an entry of the grouping map
    summarises the position of the records the entry holds. *)
Lemma entry_summary data k rs :
  Forall valid_record data ->
  In (k, rs) (group_rows data) ->
  exists r0,
    In r0 data /\ row_key r0 = k /\
    slot_summary (time_slot_of_entry (k, rs)) = position_summary data (row_position r0).
Proof.
  intros Hv Hin.
  destruct (entry_slot_labels data k rs Hv Hin) as (r0 & H0 & Hk & Hd & Hh).
  destruct (entry_members data k rs Hv Hin) as [Hm _].
  exists r0. split; [exact H0|]. split; [exact Hk|].
  assert (Hrows : rs = rows_at data (dayOfWeek r0) (hourOfDay r0)).
  { rewrite <- Hm at 1. unfold members, rows_at. apply filter_ext.
    intros r. unfold in_bucket. now rewrite Hd, Hh. }
  unfold slot_summary, position_summary, row_position. cbn [fst snd].
  rewrite Hd, Hh, <- Hrows. reflexivity.
Qed.

Lemma summaries_nodup data :
  Forall valid_record data -> NoDup (map slot_summary (historical_slots data)).
Proof.
  intros Hv. destruct (historical_slots_keys data Hv) as [Hnd _].
  apply (NoDup_map_inv
           (fun q : string * option Z * nat * Q =>
              (fst (fst (fst q)) ++ "-" ++ string_of_number (snd (fst (fst q))))%string)).
  rewrite map_map. exact Hnd.
Qed.

(** X7: for records from the normaliser, the heatmap and historical
    analysis describe the same buckets: the cells of the heatmap and the
    ranked buckets carry, up to their order, the same days, hours, numbers
    of records and average open rates. *)
Theorem heatmap_matches_historical :
  forall data : list ProcessedEmailData,
    Forall valid_record data ->
    Permutation
      (map (fun c => (hm_day c, Some (hm_hour c), hm_count c, hm_value c))
           (getHeatmapData data))
      (map (fun b => (ts_dayOfWeek b, ts_hourOfDay b, ts_sampleSize b, ts_avgOpenRate b))
           (historical_slots data)).
Proof.
  intros data Hv.
  change (Permutation (map cell_summary (getHeatmapData data))
                      (map slot_summary (historical_slots data))).
  assert (Hcells : map cell_summary (getHeatmapData data)
                   = map (position_summary data) (filter (occupied data) heatmap_grid)).
  { rewrite getHeatmapData_grid, map_map. reflexivity. }
  rewrite Hcells.
  pose proof (Forall_forall valid_record data) as [Hall _]. specialize (Hall Hv).
  destruct (group_rows_grouped data) as [_ Hg].
  apply NoDup_Permutation.
  - apply NoDup_map_injective.
    + intros [d h] [d' h'] E. unfold position_summary in E. cbn [fst snd] in E.
      now injection E as -> ->.
    + apply NoDup_filter, heatmap_grid_nodup.
  - now apply summaries_nodup.
  - intros q. split.
    + intros Hq. apply in_map_iff in Hq as ([d h] & <- & Hp).
      apply filter_In in Hp as [_ Hocc]. unfold occupied in Hocc.
      apply existsb_exists in Hocc as (r & Hr & Er). cbn [fst snd] in Er.
      apply andb_true_iff in Er as [Ed Eh].
      apply String.eqb_eq in Ed. apply Z.eqb_eq in Eh. subst d h.
      assert (He : In (row_key r, filter (fun r0 => String.eqb (row_key r0) (row_key r)) data)
                      (group_rows data)).
      { apply Hg. split; [reflexivity|]. intros F.
        assert (Hx : In r (filter (fun r0 => String.eqb (row_key r0) (row_key r)) data))
          by (apply filter_In; split; [exact Hr | apply String.eqb_refl]).
        rewrite F in Hx. contradiction. }
      destruct (entry_summary data _ _ Hv He) as (r0 & H0 & Hk & Hs).
      destruct (row_key_inj r0 r (Hall r0 H0) (Hall r Hr) Hk) as [Ed Eh].
      apply (Permutation_in _ (Permutation_map slot_summary (historical_slots_perm data))).
      rewrite map_map. apply in_map_iff. eexists. split; [|exact He].
      rewrite Hs. unfold row_position. now rewrite Ed, Eh.
    + intros Hq.
      apply (Permutation_in _ (Permutation_sym
               (Permutation_map slot_summary (historical_slots_perm data)))) in Hq.
      rewrite map_map in Hq. apply in_map_iff in Hq as ([k rs] & <- & He).
      destruct (entry_summary data k rs Hv He) as (r0 & H0 & Hk & ->).
      apply in_map. apply filter_In. split.
      * pose proof (valid_on_grid r0 (Hall r0 H0)) as Hon.
        rewrite <- on_grid_spec in Hon. apply existsb_exists in Hon as (p & Hp & Ep).
        destruct (position_eqb_spec (row_position r0) p) as [->|]; [exact Hp | discriminate].
      * unfold occupied. apply existsb_exists. exists r0. split; [exact H0|].
        unfold row_position. cbn [fst snd].
        now rewrite String.eqb_refl, Z.eqb_refl.
Qed.

Lemma heatmap_matches_historical_witness :
  Permutation
    (map (fun c => (hm_day c, Some (hm_hour c), hm_count c, hm_value c))
         (getHeatmapData scenario_rows))
    (map (fun b => (ts_dayOfWeek b, ts_hourOfDay b, ts_sampleSize b, ts_avgOpenRate b))
         (historical_slots scenario_rows)).
Proof. apply (heatmap_matches_historical scenario_rows scenario_rows_valid). Defined.

(** ** Metadata of the historical and combined results *)

Lemma Math_min_spec (dates : list Z) : forall d : Z,
  In (Math_min d dates) (d :: dates) /\
  forall x, In x (d :: dates) -> (Math_min d dates <= x)%Z.
Proof.
  unfold Math_min. induction dates as [|y dates IH]; intros d; cbn [fold_left].
  - split; [now left|]. intros x [<-|[]]. lia.
  - destruct (IH (Z.min d y)) as [Hin Hle]. split.
    + destruct Hin as [E|Hin].
      * rewrite <- E. destruct (Z.min_spec d y) as [[_ ->]|[_ ->]];
          [now left | right; now left].
      * right. now right.
    + intros x [<-|[<-|Hx]].
      * specialize (Hle (Z.min d y) (or_introl eq_refl)). lia.
      * specialize (Hle (Z.min d y) (or_introl eq_refl)). lia.
      * apply Hle. now right.
Qed.

Lemma Math_max_spec (dates : list Z) : forall d : Z,
  In (Math_max d dates) (d :: dates) /\
  forall x, In x (d :: dates) -> (x <= Math_max d dates)%Z.
Proof.
  unfold Math_max. induction dates as [|y dates IH]; intros d; cbn [fold_left].
  - split; [now left|]. intros x [<-|[]]. lia.
  - destruct (IH (Z.max d y)) as [Hin Hle]. split.
    + destruct Hin as [E|Hin].
      * rewrite <- E. destruct (Z.max_spec d y) as [[_ ->]|[_ ->]];
          [right; now left | now left].
      * right. now right.
    + intros x [<-|[<-|Hx]].
      * specialize (Hle (Z.max d y) (or_introl eq_refl)). lia.
      * specialize (Hle (Z.max d y) (or_introl eq_refl)). lia.
      * apply Hle. now right.
Qed.

(** X8: a historical or combined analysis of a non-empty record list
    reports the number of records and, as date range, the earliest and the
    latest send date among the records: both are send dates of records and
    every send date lies between them. *)
Theorem date_range_spans_records :
  forall (data : list ProcessedEmailData) (analysisType : string)
         (flt : FilterOptions) (clk : Clock) (r : AnalysisResult),
    data <> [] ->
    analysisType = "historical"%string \/ analysisType = "combined"%string ->
    fst (performAnalysis data analysisType flt clk) = Ok r ->
    totalRecords (metadata r) = length data /\
    In (dr_start (dateRange (metadata r))) (map sendDate data) /\
    In (dr_end (dateRange (metadata r))) (map sendDate data) /\
    forall row, In row data ->
      (dr_start (dateRange (metadata r)) <= sendDate row
       <= dr_end (dateRange (metadata r)))%Z.
Proof.
  intros data t flt clk r Hne Ht H.
  destruct data as [|row0 rows]; [contradiction|].
  assert (E : metadata r
              = mkMeta (length (row0 :: rows))
                  (mkRange (Math_min (sendDate row0) (map sendDate rows))
                           (Math_max (sendDate row0) (map sendDate rows)))
                  flt t (timestamp (metadata r))).
  { destruct Ht as [-> | ->].
    - rewrite performAnalysis_historical, analyzeHistoricalData_run in H.
      injection H as <-. reflexivity.
    - rewrite performAnalysis_combined, analyzeCombined_run in H.
      injection H as <-. reflexivity. }
  rewrite E. cbn [totalRecords dateRange dr_start dr_end].
  destruct (Math_min_spec (map sendDate rows) (sendDate row0)) as [Hmin Hle].
  destruct (Math_max_spec (map sendDate rows) (sendDate row0)) as [Hmax Hge].
  split; [reflexivity|]. split; [exact Hmin|]. split; [exact Hmax|].
  intros row Hrow. apply (in_map sendDate) in Hrow. cbn [map] in Hrow.
  split; [now apply Hle | now apply Hge].
Qed.

Lemma date_range_spans_records_witness :
  totalRecords (metadata
    (mkResult (slot_or_empty (combined_slots scenario_rows) 0)
       (slot_or_empty (combined_slots scenario_rows) 1)
       (slot_or_empty (combined_slots scenario_rows) 2)
       (combined_slots scenario_rows)
       (mkMeta 3 (mkRange 0 0) sales_filters "combined" 4)))
  = length scenario_rows.
Proof.
  apply (date_range_spans_records scenario_rows "combined" sales_filters ticking _
           ltac:(discriminate) (or_intror eq_refl) eq_refl).
Defined.

(** ** Invariants of the ranked lists, whatever the records *)

Lemma length_le_list_sum {A} (f : A -> nat) (l : list A) :
  Forall (fun x => (1 <= f x)%nat) l -> (length l <= list_sum (map f l))%nat.
Proof.
  induction 1 as [|x l Hx Hl IH]; cbn; [lia|]. unfold list_sum in IH. lia.
Qed.

(** X9: whatever the records (valid or not), a result that historical
    analysis returns has at least one bucket and at most one per record;
    every bucket holds at least one record, the sample sizes add up to the
    number of records, and the primary slot is a bucket with records,
    never the sentinel. *)
Theorem historical_buckets_hold_records :
  forall (data : list ProcessedEmailData) (flt : FilterOptions) (clk : Clock)
         (r : AnalysisResult),
    fst (performAnalysis data "historical" flt clk) = Ok r ->
    Forall (fun b => (1 <= ts_sampleSize b)%nat) (allTimeSlots r) /\
    list_sum (map ts_sampleSize (allTimeSlots r)) = length data /\
    (1 <= length (allTimeSlots r) <= length data)%nat /\
    In (primary r) (allTimeSlots r) /\
    (1 <= ts_sampleSize (primary r))%nat.
Proof.
  intros data flt clk r Hr.
  rewrite performAnalysis_historical in Hr.
  destruct data as [|row0 rows]; [discriminate Hr|].
  rewrite analyzeHistoricalData_run in Hr. injection Hr as <-.
  set (data := row0 :: rows).
  cbn [fst allTimeSlots primary].
  change (row0 :: rows) with data.
  pose proof (historical_slots_perm data) as Hp.
  destruct (group_rows_grouped data) as [_ Hg].
  assert (Hall : Forall (fun b => (1 <= ts_sampleSize b)%nat) (historical_slots data)).
  { eapply Permutation_Forall; [exact Hp|].
    apply Forall_forall. intros b Hb.
    apply in_map_iff in Hb as ([k rs] & <- & He).
    apply Hg in He as [_ Hrs]. cbn. destruct rs; [contradiction | cbn; lia]. }
  assert (Hsum : list_sum (map ts_sampleSize (historical_slots data)) = length data).
  { rewrite <- (Permutation_list_sum_map _ _ _ Hp), map_map.
    rewrite <- (group_rows_size data). f_equal.
    apply map_ext. now intros [k rs]. }
  pose proof (length_le_list_sum ts_sampleSize _ Hall) as Hlen.
  assert (Hpos : (1 <= length (historical_slots data))%nat).
  { destruct (historical_slots data); [cbn in Hsum; discriminate | cbn; lia]. }
  split; [exact Hall|]. split; [exact Hsum|]. split; [lia|].
  destruct (historical_slots data) as [|b bs]; [cbn in Hpos; lia|].
  cbn. split; [now left|]. now inversion Hall.
Qed.

Lemma historical_buckets_hold_records_witness :
  exists r : AnalysisResult,
    fst (performAnalysis [sample_row "N-A" (-5) 10 1] "historical" all_filters ticking)
    = Ok r /\
    (1 <= ts_sampleSize (primary r))%nat.
Proof.
  eexists. split; [reflexivity|].
  exact (proj2 (proj2 (proj2 (proj2
           (historical_buckets_hold_records [sample_row "N-A" (-5) 10 1]
              all_filters ticking _ eq_refl))))).
Defined.

Section MapSetFacts.
Context {V : Type}.
Implicit Types (m : map_t V) (k : string) (v : V).

Lemma map_set_keys k v m :
  map fst (map_set k v m) = map fst m ++ (if map_has k m then [] else [k]).
Proof.
  unfold map_set. destruct (map_has k m).
  - now rewrite map_replace_keys, app_nil_r.
  - now rewrite map_app.
Qed.

Lemma map_has_in k m : map_has k m = true <-> In k (map fst m).
Proof.
  unfold map_has. pose proof (map_get_none k m) as H.
  destruct (map_get k m) as [v|].
  - split; [intros _ | reflexivity].
    destruct (in_dec string_dec k (map fst m)) as [Hin|Hout]; [exact Hin|].
    apply H in Hout. discriminate.
  - split; [discriminate|]. intros Hin. exfalso. now apply (proj1 H).
Qed.

Lemma map_set_key_in k v m : In k (map fst (map_set k v m)).
Proof.
  rewrite map_set_keys. apply in_or_app.
  destruct (map_has k m) eqn:E; [left; now apply map_has_in | right; now left].
Qed.

Lemma map_set_keys_incl k v m : incl (map fst m) (map fst (map_set k v m)).
Proof. rewrite map_set_keys. apply incl_appl, incl_refl. Qed.

Lemma map_set_nodup k v m : NoDup (map fst m) -> NoDup (map fst (map_set k v m)).
Proof.
  intros Hnd. rewrite map_set_keys. destruct (map_has k m) eqn:E.
  - now rewrite app_nil_r.
  - apply NoDup_app; [exact Hnd | repeat constructor; auto |].
    intros a Ha [<-|[]]. apply map_has_in in Ha. congruence.
Qed.

Lemma map_replace_Forall (P : string * V -> Prop) k v m :
  Forall P m -> P (k, v) -> Forall P (map_replace k v m).
Proof.
  intros Hm Hv. induction Hm as [|[k' v'] m Hx Hm IH]; cbn; [constructor|].
  destruct (String.eqb_spec k k') as [->|Hne]; constructor; auto.
Qed.

Lemma map_set_Forall (P : string * V -> Prop) k v m :
  Forall P m -> P (k, v) -> Forall P (map_set k v m).
Proof.
  intros Hm Hv. unfold map_set. destruct (map_has k m).
  - now apply map_replace_Forall.
  - apply Forall_app. split; [exact Hm | now constructor].
Qed.
End MapSetFacts.

Lemma merge_as_set m slot :
  merge_best_practice m slot = map_set (slot_key slot) (merged_value m slot) m.
Proof.
  unfold merge_best_practice, merged_value.
  destruct (map_get (slot_key slot) m) as [existing|] eqn:G; [|reflexivity].
  unfold map_set, map_has. now rewrite G.
Qed.

Lemma merged_value_key m slot :
  keyed_by_slot m -> slot_key (merged_value m slot) = slot_key slot.
Proof.
  intros [_ Hk]. unfold merged_value.
  destruct (map_get (slot_key slot) m) as [existing|] eqn:G; [|reflexivity].
  apply map_get_in in G. rewrite Forall_forall in Hk.
  specialize (Hk _ G). cbn [fst snd] in Hk. rewrite <- Hk. reflexivity.
Qed.

Lemma merged_value_label m slot :
  Forall (fun e => labelled_by_hour (snd e)) m -> labelled_by_hour slot ->
  labelled_by_hour (merged_value m slot).
Proof.
  intros Hm Hs. unfold merged_value.
  destruct (map_get (slot_key slot) m) as [existing|] eqn:G; [|exact Hs].
  apply map_get_in in G. rewrite Forall_forall in Hm.
  exact (Hm _ G).
Qed.

(** What the two loops of [analyzeCombined] keep true of the map. *)
Lemma combined_map_invariant (historical entries : list TimeSlotAnalysis) :
  let m := fold_left merge_best_practice entries
             (fold_left add_historical historical []) in
  keyed_by_slot m /\
  incl (map slot_key historical ++ map slot_key entries) (map fst m) /\
  (Forall labelled_by_hour historical -> Forall labelled_by_hour entries ->
   Forall (fun e => labelled_by_hour (snd e)) m).
Proof.
  cbn zeta.
  assert (H1 : forall l m0,
             keyed_by_slot m0 ->
             let m := fold_left add_historical l m0 in
             keyed_by_slot m /\ incl (map fst m0 ++ map slot_key l) (map fst m) /\
             (Forall (fun e => labelled_by_hour (snd e)) m0 ->
              Forall labelled_by_hour l ->
              Forall (fun e => labelled_by_hour (snd e)) m)).
  { induction l as [|h l IH]; intros m0 Hk; cbn zeta; cbn [fold_left map].
    - rewrite app_nil_r. split; [exact Hk|]. split; [apply incl_refl | auto].
    - destruct Hk as [Hnd Hkey].
      assert (Hk' : keyed_by_slot (add_historical m0 h)).
      { split; [now apply map_set_nodup|].
        apply map_set_Forall; [exact Hkey | reflexivity]. }
      destruct (IH _ Hk') as (Hk2 & Hincl & Hlab). split; [exact Hk2|]. split.
      + intros k Hin. apply Hincl. apply in_app_or in Hin as [Hin|[<-|Hin]].
        * apply in_or_app. left. now apply map_set_keys_incl.
        * apply in_or_app. left. apply map_set_key_in.
        * apply in_or_app. now right.
      + intros Hm0 Hl. inversion Hl as [|? ? Hh Hl']; subst.
        apply Hlab; [|exact Hl'].
        apply map_set_Forall; [exact Hm0 | exact Hh]. }
  assert (H2 : forall l m0,
             keyed_by_slot m0 ->
             let m := fold_left merge_best_practice l m0 in
             keyed_by_slot m /\ incl (map fst m0 ++ map slot_key l) (map fst m) /\
             (Forall (fun e => labelled_by_hour (snd e)) m0 ->
              Forall labelled_by_hour l ->
              Forall (fun e => labelled_by_hour (snd e)) m)).
  { induction l as [|s l IH]; intros m0 Hk; cbn zeta; cbn [fold_left map].
    - rewrite app_nil_r. split; [exact Hk|]. split; [apply incl_refl | auto].
    - rewrite merge_as_set.
      assert (Hk' : keyed_by_slot (map_set (slot_key s) (merged_value m0 s) m0)).
      { split; [apply map_set_nodup, Hk|].
        apply map_set_Forall; [apply Hk | now apply merged_value_key]. }
      destruct (IH _ Hk') as (Hk2 & Hincl & Hlab). split; [exact Hk2|]. split.
      + intros k Hin. apply Hincl. apply in_app_or in Hin as [Hin|[<-|Hin]].
        * apply in_or_app. left. now apply map_set_keys_incl.
        * apply in_or_app. left. apply map_set_key_in.
        * apply in_or_app. now right.
      + intros Hm0 Hl. inversion Hl as [|? ? Hs Hl']; subst.
        apply Hlab; [|exact Hl'].
        apply map_set_Forall; [exact Hm0 | now apply merged_value_label]. }
  assert (Hnil : keyed_by_slot []) by (split; constructor).
  destruct (H1 historical [] Hnil) as (Hk1 & Hi1 & Hl1).
  destruct (H2 entries _ Hk1) as (Hk2 & Hi2 & Hl2).
  split; [exact Hk2|]. split.
  - intros k Hin. apply Hi2. apply in_app_or in Hin as [Hin|Hin].
    + apply in_or_app. left. apply Hi1. exact Hin.
    + apply in_or_app. now right.
  - intros Hh He. apply Hl2; [|exact He]. apply Hl1; [constructor | exact Hh].
Qed.

Lemma combined_slots_perm data :
  Permutation
    (map_values (fold_left merge_best_practice best_practice_slots
                   (fold_left add_historical (historical_slots data) [])))
    (combined_slots data).
Proof. apply array_sort_perm. Qed.

(** X10: whatever the records (valid or not), when historical and
    combined analysis of the same records return results, the combined
    result ranks no two buckets under the same day-hour key, has a bucket
    under the key of every historical bucket and of every one of the five
    best-practice entries, hence ranks at least five buckets, and its
    primary, secondary and tertiary slots are the first three of them,
    never the sentinel. *)
Theorem combined_covers_best_practices :
  forall (data : list ProcessedEmailData) (flt : FilterOptions) (clk clk' : Clock)
         (rh rc : AnalysisResult),
    fst (performAnalysis data "historical" flt clk) = Ok rh ->
    fst (performAnalysis data "combined" flt clk') = Ok rc ->
    NoDup (map slot_key (allTimeSlots rc)) /\
    (forall s, In s best_practice_slots \/ In s (allTimeSlots rh) ->
       exists b, In b (allTimeSlots rc) /\ slot_key b = slot_key s) /\
    (5 <= length (allTimeSlots rc))%nat /\
    [primary rc; secondary rc; tertiary rc] = firstn 3 (allTimeSlots rc).
Proof.
  intros data flt clk clk' rh rc Hrh Hrc.
  rewrite performAnalysis_historical in Hrh. rewrite performAnalysis_combined in Hrc.
  destruct data as [|row0 rows]; [discriminate Hrh|].
  rewrite analyzeHistoricalData_run in Hrh. rewrite analyzeCombined_run in Hrc.
  injection Hrh as <-. injection Hrc as <-.
  cbn [fst allTimeSlots primary secondary tertiary].
  set (data := row0 :: rows).
  pose proof (combined_slots_perm data) as Hp.
  destruct (combined_map_invariant (historical_slots data) best_practice_slots)
    as ([Hnd Hkey] & Hincl & _).
  set (m := fold_left merge_best_practice best_practice_slots
              (fold_left add_historical (historical_slots data) [])) in *.
  assert (Hkeys : map slot_key (map_values m) = map fst m).
  { unfold map_values. rewrite map_map. apply map_ext_in.
    intros e He. exact (proj1 (Forall_forall _ _) Hkey e He). }
  assert (Hnd' : NoDup (map slot_key (combined_slots data))).
  { eapply Permutation_NoDup; [apply Permutation_map, Hp|]. now rewrite Hkeys. }
  assert (Hcov : forall s, In s best_practice_slots \/ In s (historical_slots data) ->
                 exists b, In b (combined_slots data) /\ slot_key b = slot_key s).
  { intros s Hs.
    assert (Hin : In (slot_key s) (map fst m)).
    { apply Hincl, in_or_app. destruct Hs as [Hs|Hs]; [right | left]; now apply in_map. }
    rewrite <- Hkeys in Hin. apply in_map_iff in Hin as (b & Eb & Hb).
    exists b. split; [|exact Eb]. now apply (Permutation_in _ Hp). }
  assert (Hlen : (5 <= length (combined_slots data))%nat).
  { rewrite <- (length_map slot_key).
    change 5%nat with (length (map slot_key best_practice_slots)).
    apply NoDup_incl_length; [apply best_practice_slots_keys|].
    intros k Hk. apply in_map_iff in Hk as (s & <- & Hs).
    destruct (Hcov s (or_introl Hs)) as (b & Hb & <-). now apply in_map. }
  split; [exact Hnd'|]. split; [exact Hcov|]. split; [exact Hlen|].
  destruct (combined_slots data) as [|a [|b [|c l]]]; cbn in Hlen; try lia.
  reflexivity.
Qed.

Lemma combined_covers_best_practices_witness :
  exists rc : AnalysisResult,
    fst (performAnalysis [sample_row "N-A" (-5) 10 1] "combined" all_filters ticking)
    = Ok rc /\
    (5 <= length (allTimeSlots rc))%nat.
Proof.
  eexists. split; [reflexivity|].
  exact (proj1 (proj2 (proj2
           (combined_covers_best_practices [sample_row "N-A" (-5) 10 1]
              all_filters ticking ticking _ _ eq_refl eq_refl)))).
Defined.

Lemma best_practice_slots_labelled : Forall labelled_by_hour best_practice_slots.
Proof. repeat (constructor; [reflexivity|]). constructor. Qed.

Lemma historical_slots_labelled data : Forall labelled_by_hour (historical_slots data).
Proof.
  eapply Permutation_Forall; [apply historical_slots_perm|].
  apply Forall_forall. intros b Hb.
  apply in_map_iff in Hb as ([k rs] & <- & _). reflexivity.
Qed.

(** X11: in every successful analysis, whatever the mode and the records,
    the time label of each ranked bucket is the label [formatTimeLabel]
    gives to the hour of the bucket. *)
Theorem time_labels_follow_hours :
  forall (data : list ProcessedEmailData) (analysisType : string)
         (flt : FilterOptions) (clk : Clock) (r : AnalysisResult),
    fst (performAnalysis data analysisType flt clk) = Ok r ->
    Forall (fun b => ts_timeLabel b = formatTimeLabel (ts_hourOfDay b))
           (allTimeSlots r).
Proof.
  intros data t flt clk r H.
  destruct (performAnalysis_ok _ _ _ _ _ H)
    as [[_ E] | (row & rows & -> & [[_ E] | [_ E]])].
  - rewrite analyzeBestPractices_run in E. injection E as <-.
    apply best_practice_slots_labelled.
  - rewrite analyzeHistoricalData_run in E. injection E as <-.
    apply historical_slots_labelled.
  - rewrite analyzeCombined_run in E. injection E as <-.
    cbn [allTimeSlots].
    eapply Permutation_Forall; [apply combined_slots_perm|].
    destruct (combined_map_invariant (historical_slots (row :: rows)) best_practice_slots)
      as (_ & _ & Hl).
    specialize (Hl (historical_slots_labelled _) best_practice_slots_labelled).
    unfold map_values. apply Forall_map. exact Hl.
Qed.

Lemma time_labels_follow_hours_witness :
  Forall (fun b => ts_timeLabel b = formatTimeLabel (ts_hourOfDay b))
         (combined_slots scenario_rows).
Proof.
  exact (time_labels_follow_hours scenario_rows "combined" all_filters ticking _ eq_refl).
Defined.

(** ** Sample sizes and percentages *)

Lemma blend_with_sample_size entries h :
  ts_sampleSize (blend_with entries h) = ts_sampleSize h.
Proof. unfold blend_with. now destruct (find (same_time_slot h) entries). Qed.

(** X12: for records from the normaliser, a result that combined analysis
    returns loses no record: the sample sizes of its ranked buckets add up
    to the number of records (the buckets taken from the best-practice
    table count for none, also when there is no record at all). *)
Theorem combined_keeps_samples :
  forall (data : list ProcessedEmailData) (flt : FilterOptions) (clk : Clock)
         (rc : AnalysisResult),
    Forall valid_record data ->
    fst (performAnalysis data "combined" flt clk) = Ok rc ->
    list_sum (map ts_sampleSize (allTimeSlots rc)) = length data.
Proof.
  intros data flt clk rc Hv Hrc.
  rewrite performAnalysis_combined in Hrc.
  destruct data as [|row0 rows].
  { cbn [analyzeCombined] in Hrc. rewrite analyzeBestPractices_run in Hrc.
    injection Hrc as <-. reflexivity. }
  rewrite analyzeCombined_run in Hrc. injection Hrc as <-.
  cbn [fst allTimeSlots].
  set (data := row0 :: rows) in *.
  rewrite (combined_slots_blend data Hv).
  rewrite <- (Permutation_list_sum_map _ _ _ (array_sort_perm by_score_descending _)).
  unfold blend. rewrite map_app, list_sum_app, !map_map. cbn [inserted ts_sampleSize].
  rewrite (map_ext _ ts_sampleSize) by apply blend_with_sample_size.
  assert (Hz : forall l : list TimeSlotAnalysis,
             list_sum (map (fun _ => 0%nat) l) = 0%nat)
    by (induction l; cbn; auto).
  rewrite Hz, Nat.add_0_r.
  rewrite <- (Permutation_list_sum_map _ _ _ (historical_slots_perm data)), map_map.
  rewrite <- (group_rows_size data). f_equal. apply map_ext. now intros [k rs].
Qed.

Lemma combined_keeps_samples_witness :
  exists rc : AnalysisResult,
    fst (performAnalysis scenario_rows "combined" all_filters ticking) = Ok rc /\
    list_sum (map ts_sampleSize (allTimeSlots rc)) = length scenario_rows.
Proof.
  eexists. split; [reflexivity|].
  exact (combined_keeps_samples scenario_rows all_filters ticking _
           scenario_rows_valid eq_refl).
Defined.

Lemma total_bounds (l : list Q) (lo hi : Q) :
  (forall x, In x l -> lo <= x <= hi) ->
  array_length l * lo <= total l <= array_length l * hi.
Proof.
  unfold array_length. induction l as [|x l IH]; intros H.
  - change (0 * lo <= 0 <= 0 * hi). lra.
  - assert (Hx : lo <= x <= hi) by (apply H; now left).
    assert (Hl : forall y, In y l -> lo <= y <= hi) by (intros y Hy; apply H; now right).
    specialize (IH Hl).
    cbn [length total fold_right]. rewrite Nat2Z.inj_succ, <- Z.add_1_r, inject_Z_plus.
    change (inject_Z 1) with 1. change (fold_right Qplus 0 l) with (total l). lra.
Qed.

Lemma reduce_bounds {A} (f : A -> Q) (l : list A) (lo hi : Q) :
  l <> [] -> (forall x, In x l -> lo <= f x <= hi) ->
  lo <= fold_left (fun sum r => sum + f r) l 0 / array_length l <= hi.
Proof.
  intros Hne H.
  assert (Hpos : 0 < array_length l).
  { unfold array_length. destruct l as [|x l]; [contradiction|].
    change 0 with (inject_Z 0). rewrite <- Zlt_Qlt. cbn [length]. lia. }
  assert (Ht : array_length (map f l) * lo <= total (map f l)
               <= array_length (map f l) * hi).
  { apply total_bounds. intros x Hx. apply in_map_iff in Hx as (a & <- & Ha). auto. }
  unfold array_length in Ht. rewrite length_map in Ht. fold (array_length l) in Ht.
  rewrite fold_left_total, Qplus_0_l. split.
  - apply Qle_shift_div_l; [exact Hpos | lra].
  - apply Qle_shift_div_r; [exact Hpos | lra].
Qed.

Lemma best_practice_slots_percent : Forall within_percent best_practice_slots.
Proof.
  repeat (constructor; [unfold within_percent; cbn; lra|]). constructor.
Qed.

Lemma historical_slots_percent data :
  Forall rates_in_percent data -> Forall within_percent (historical_slots data).
Proof.
  intros Hr. rewrite Forall_forall in Hr.
  eapply Permutation_Forall; [apply historical_slots_perm|].
  apply Forall_forall. intros b Hb.
  apply in_map_iff in Hb as ([k rs] & <- & He).
  destruct (group_rows_grouped data) as [_ Hg].
  apply Hg in He as [Hrs Hne].
  assert (Hin : forall r, In r rs -> rates_in_percent r).
  { intros r Hin. rewrite Hrs in Hin. apply filter_In in Hin as [Hin _]. auto. }
  assert (Ho : 0 <= fold_left (fun sum r => sum + openRate r) rs 0 / array_length rs <= 100)
    by (apply reduce_bounds; [exact Hne | intros r Hr'; apply (Hin r Hr')]).
  assert (Hc : 0 <= fold_left (fun sum r => sum + clickRate r) rs 0 / array_length rs <= 100)
    by (apply reduce_bounds; [exact Hne | intros r Hr'; apply (Hin r Hr')]).
  unfold within_percent, time_slot_of_entry. cbn [ts_avgOpenRate ts_avgClickRate ts_score].
  repeat split; lra.
Qed.

Lemma blend_percent historical entries :
  Forall within_percent historical -> Forall within_percent entries ->
  Forall within_percent (blend historical entries).
Proof.
  intros Hh He. rewrite Forall_forall in Hh, He.
  unfold blend. apply Forall_app. split; apply Forall_forall; intros b Hb.
  - apply in_map_iff in Hb as (h & <- & Hin). specialize (Hh h Hin).
    unfold blend_with. destruct (find (same_time_slot h) entries) as [s|] eqn:F.
    + apply find_some in F as [Hs _]. specialize (He s Hs).
      unfold within_percent in *. cbn. repeat split; lra.
    + unfold within_percent in *. cbn. repeat split; lra.
  - apply in_map_iff in Hb as (s & <- & Hin). apply filter_In in Hin as [Hin _].
    specialize (He s Hin). unfold within_percent in *. cbn. repeat split; lra.
Qed.

(** X13: when the open and click rates of the (valid) records are
    percentages, every average open rate, average click rate and score of
    the ranked list of a successful analysis, in any mode, lies between 0
    and 100. *)
Theorem ranked_values_are_percentages :
  forall (data : list ProcessedEmailData) (analysisType : string)
         (flt : FilterOptions) (clk : Clock) (r : AnalysisResult),
    Forall valid_record data ->
    Forall (fun row => (0 <= openRate row <= 100) /\ (0 <= clickRate row <= 100)) data ->
    fst (performAnalysis data analysisType flt clk) = Ok r ->
    Forall (fun b => (0 <= ts_avgOpenRate b <= 100) /\
                     (0 <= ts_avgClickRate b <= 100) /\
                     (0 <= ts_score b <= 100))
           (allTimeSlots r).
Proof.
  intros data t flt clk r Hv Hr H.
  change (Forall within_percent (allTimeSlots r)).
  destruct (performAnalysis_ok _ _ _ _ _ H)
    as [[_ E] | (row & rows & -> & [[_ E] | [_ E]])].
  - rewrite analyzeBestPractices_run in E. injection E as <-.
    apply best_practice_slots_percent.
  - rewrite analyzeHistoricalData_run in E. injection E as <-.
    now apply historical_slots_percent.
  - rewrite analyzeCombined_run in E. injection E as <-. cbn [allTimeSlots].
    rewrite (combined_slots_blend _ Hv).
    eapply Permutation_Forall; [apply array_sort_perm|].
    apply blend_percent; [now apply historical_slots_percent|].
    apply best_practice_slots_percent.
Qed.

Lemma ranked_values_are_percentages_witness :
  Forall (fun b => (0 <= ts_avgOpenRate b <= 100) /\
                   (0 <= ts_avgClickRate b <= 100) /\
                   (0 <= ts_score b <= 100))
         (combined_slots scenario_rows).
Proof.
  exact (ranked_values_are_percentages scenario_rows "combined" all_filters ticking _
           scenario_rows_valid scenario_rows_percent eq_refl).
Defined.

(** ** Keys *)

(** X14: the key of a valid record is taken apart without loss: splitting
    it at the dash gives the day back and [parseInt] of the second piece
    the hour; two valid records have the same key exactly when they have
    the same day and the same hour. *)
Theorem row_key_round_trip :
  forall r r' : ProcessedEmailData,
    valid_record r -> valid_record r' ->
    nth 0 (split_dash (row_key r)) "undefined"%string = dayOfWeek r /\
    parseInt (nth 1 (split_dash (row_key r)) "undefined"%string) = Some (hourOfDay r) /\
    (row_key r = row_key r' <->
     dayOfWeek r = dayOfWeek r' /\ hourOfDay r = hourOfDay r').
Proof.
  intros r r' Hr Hr'. destruct (row_key_split r Hr) as [Hs Hp].
  rewrite Hs. cbn [nth]. split; [reflexivity|]. split; [exact Hp|]. split.
  - now apply row_key_inj.
  - intros [Hd Hh]. now apply row_key_same.
Qed.

Lemma row_key_round_trip_witness :
  parseInt (nth 1 (split_dash (row_key (sample_row "Friday" 16 10 1))) "undefined"%string)
  = Some 16%Z.
Proof.
  apply (row_key_round_trip (sample_row "Friday" 16 10 1) (sample_row "Friday" 16 10 1));
    (split; [cbn; tauto | cbn; lia]).
Defined.

(** ** Time labels *)

Lemma hours_checked (P : Z -> bool) :
  forallb P hours_0_23 = true -> forall h, (0 <= h <= 23)%Z -> P h = true.
Proof.
  intros H h Hh. rewrite forallb_forall in H. apply H. now apply hours_0_23_spec.
Qed.

(** X15: for an hour of the day, [formatTimeLabel] writes the hour on the
    twelve-hour clock (12 for midnight and noon) followed by ":00" and by
    AM before noon, PM from noon on; different hours of the day get
    different labels. *)
Theorem formatTimeLabel_twelve_hour_clock :
  forall h : Z,
    (0 <= h <= 23)%Z ->
    formatTimeLabel (Some h)
    = (string_of_Z ((h + 11) mod 12 + 1) ++ ":00 " ++ (if (h <? 12)%Z then "AM" else "PM"))%string /\
    forall h' : Z, (0 <= h' <= 23)%Z ->
      formatTimeLabel (Some h) = formatTimeLabel (Some h') -> h = h'.
Proof.
  intros h Hh. split.
  - apply String.eqb_eq. revert h Hh.
    apply (hours_checked
             (fun h => String.eqb (formatTimeLabel (Some h))
                         (string_of_Z ((h + 11) mod 12 + 1) ++ ":00 "
                          ++ (if (h <? 12)%Z then "AM" else "PM"))%string)).
    vm_compute. reflexivity.
  - intros h' Hh'.
    assert (H : implb (String.eqb (formatTimeLabel (Some h)) (formatTimeLabel (Some h')))
                      (h =? h')%Z = true).
    { revert h' Hh'.
      apply (hours_checked
               (fun h' => implb (String.eqb (formatTimeLabel (Some h))
                                            (formatTimeLabel (Some h')))
                                (h =? h')%Z)).
      revert h Hh.
      apply (hours_checked
               (fun h => forallb
                           (fun h' => implb (String.eqb (formatTimeLabel (Some h))
                                                        (formatTimeLabel (Some h')))
                                            (h =? h')%Z)
                           hours_0_23)).
      vm_compute. reflexivity. }
    intros E. apply Z.eqb_eq. rewrite E, String.eqb_refl in H. exact H.
Qed.

Lemma formatTimeLabel_twelve_hour_clock_witness :
  formatTimeLabel (Some 16%Z) = "4:00 PM"%string.
Proof.
  apply (proj1 (formatTimeLabel_twelve_hour_clock 16 ltac:(lia))).
Defined.

(** ** Days and hours of a date *)

(** X16: whatever the instant and the offset of the local time zone,
    [getDayOfWeek] returns one of the seven day names (never [undefined])
    and [getHourOfDay] an hour from 0 to 23; so a record stamped with them
    is valid, and is on the grid of the heatmap and in the day list of the
    day distribution. *)
Theorem stamped_records_valid :
  forall (LocalTZA : Z -> Z) (date : Z) (row : ProcessedEmailData),
    dayOfWeek row = getDayOfWeek LocalTZA date ->
    hourOfDay row = getHourOfDay LocalTZA date ->
    In (getDayOfWeek LocalTZA date) weekdays /\
    (0 <= getHourOfDay LocalTZA date <= 23)%Z /\
    valid_record row /\
    on_grid row = true.
Proof.
  intros tza date row Hd Hh.
  assert (Hday : In (getDayOfWeek tza date) weekdays).
  { unfold getDayOfWeek, Date_getDay. apply nth_In.
    change (length weekdays) with 7%nat.
    pose proof (Z.mod_pos_bound (LocalTime tza date / msPerDay + 4) 7). lia. }
  assert (Hhour : (0 <= getHourOfDay tza date <= 23)%Z).
  { unfold getHourOfDay, Date_getHours.
    pose proof (Z.mod_pos_bound (LocalTime tza date / msPerHour) 24). lia. }
  assert (Hv : valid_record row) by (split; [now rewrite Hd | now rewrite Hh]).
  split; [exact Hday|]. split; [exact Hhour|]. split; [exact Hv|].
  now apply valid_on_grid.
Qed.

Lemma stamped_records_valid_witness :
  getDayOfWeek (fun _ => 0%Z) 0 = "Thursday"%string /\
  valid_record (sample_row "Thursday" 0 10 1).
Proof.
  split; [reflexivity|].
  apply (stamped_records_valid (fun _ => 0%Z) 0 (sample_row "Thursday" 0 10 1));
    reflexivity.
Defined.

(** ** Filtering the records *)

Lemma filter_applies_spec (f : option string) :
  filter_applies f = true <->
  exists s, f = Some s /\ s <> ""%string /\ s <> "All"%string.
Proof.
  unfold filter_applies. destruct f as [s|].
  - rewrite andb_true_iff, !negb_true_iff, !String.eqb_neq. split.
    + intros [H1 H2]. now exists s.
    + intros (s' & E & H1 & H2). injection E as ->. now split.
  - split; [discriminate | intros (s & E & _); discriminate].
Qed.

Lemma field_passes (f : option string) (value : string) :
  filter_applies f && differs_from value f = false <->
  (forall s, f = Some s -> s <> ""%string -> s <> "All"%string -> value = s).
Proof.
  destruct f as [s|]; cbn.
  - destruct (String.eqb_spec s "") as [->|H1]; cbn.
    + split; [intros _ s' E; injection E as <-; congruence | reflexivity].
    + destruct (String.eqb_spec s "All") as [->|H2]; cbn.
      * split; [intros _ s' E; injection E as <-; congruence | reflexivity].
      * destruct (String.eqb_spec value s) as [->|H3]; cbn.
        -- split; [intros _ s' E; now injection E | reflexivity].
        -- split; [discriminate|]. intros H. contradiction H3. now apply H.
  - split; [intros _ s E; discriminate | reflexivity].
Qed.

Lemma passes_filters_spec (filters : FilterCriteria) (row : ProcessedEmailData) :
  passes_filters filters row = true <->
  (forall s, fc_businessUnit filters = Some s -> s <> ""%string -> s <> "All"%string ->
     businessUnit row = s) /\
  (forall s, fc_organizationType filters = Some s -> s <> ""%string -> s <> "All"%string ->
     organizationType row = s) /\
  (forall s, fc_campaignType filters = Some s -> s <> ""%string -> s <> "All"%string ->
     campaignType row = s).
Proof.
  rewrite <- !field_passes. unfold passes_filters.
  destruct (filter_applies (fc_businessUnit filters) && _);
    destruct (filter_applies (fc_organizationType filters) && _);
    destruct (filter_applies (fc_campaignType filters) && _);
    split; (tauto || (intros (? & ? & ?); discriminate) || discriminate || auto).
Qed.

(** X17: [filterData] keeps, in their order, exactly the records that agree
    with every filter that applies; a filter that is absent, empty or
    "All" applies to nothing, and with three such filters the data comes
    back unchanged. *)
Theorem filterData_selects :
  forall (data : list ProcessedEmailData) (filters : FilterCriteria),
    (forall row, In row (filterData data filters) <->
       In row data /\
       (forall s, fc_businessUnit filters = Some s -> s <> ""%string ->
          s <> "All"%string -> businessUnit row = s) /\
       (forall s, fc_organizationType filters = Some s -> s <> ""%string ->
          s <> "All"%string -> organizationType row = s) /\
       (forall s, fc_campaignType filters = Some s -> s <> ""%string ->
          s <> "All"%string -> campaignType row = s)) /\
    (length (filterData data filters) <= length data)%nat /\
    (forall data', filterData (data ++ data') filters
                   = filterData data filters ++ filterData data' filters) /\
    ((forall f, In f [fc_businessUnit filters; fc_organizationType filters;
                      fc_campaignType filters] ->
        f = None \/ f = Some ""%string \/ f = Some "All"%string) ->
     filterData data filters = data).
Proof.
  intros data filters. split; [|split; [|split]].
  - intros row. unfold filterData. rewrite filter_In, passes_filters_spec. reflexivity.
  - apply filter_length_le.
  - intros data'. apply filter_app.
  - intros Hw. apply filter_all. intros row _. apply passes_filters_spec.
    assert (H : forall f, In f [fc_businessUnit filters; fc_organizationType filters;
                                fc_campaignType filters] ->
                forall s value : string, f = Some s -> s <> ""%string ->
                  s <> "All"%string -> value = s).
    { intros f Hf s value E H1 H2.
      destruct (Hw f Hf) as [E'|[E'|E']]; rewrite E' in E; [discriminate|..];
        injection E as <-; contradiction. }
    repeat split; intros s; apply H; cbn; auto.
Qed.

Lemma filterData_selects_witness :
  filterData scenario_rows (mkCriteria (Some "All"%string) None (Some ""%string))
  = scenario_rows.
Proof.
  apply (filterData_selects scenario_rows
           (mkCriteria (Some "All"%string) None (Some ""%string))).
  intros f [<-|[<-|[<-|[]]]]; auto.
Defined.

Lemma filter_twice {A} (p q : A -> bool) (l : list A) :
  filter p (filter q l) = filter (fun x => q x && p x) l.
Proof.
  induction l as [|x l IH]; cbn; [reflexivity|].
  destruct (q x); cbn; [destruct (p x)|]; now rewrite IH.
Qed.

(** X18: filters compose: filtering twice with the same filters changes
    nothing more, the order of two filterings does not matter, and
    filtering on business unit, then organisation type, then campaign
    type gives what the three filters give at once. *)
Theorem filterData_composes :
  forall (data : list ProcessedEmailData) (f g : FilterCriteria)
         (bu org camp : option string),
    filterData (filterData data f) f = filterData data f /\
    filterData (filterData data f) g = filterData (filterData data g) f /\
    filterData
      (filterData (filterData data (mkCriteria bu None None)) (mkCriteria None org None))
      (mkCriteria None None camp)
    = filterData data (mkCriteria bu org camp).
Proof.
  intros data f g bu org camp. unfold filterData. rewrite !filter_twice.
  split; [|split]; apply filter_ext; intros row.
  - now destruct (passes_filters f row).
  - apply andb_comm.
  - unfold passes_filters. cbn.
    destruct (filter_applies bu && differs_from (businessUnit row) bu);
      destruct (filter_applies org && differs_from (organizationType row) org);
      destruct (filter_applies camp && differs_from (campaignType row) camp);
      reflexivity.
Qed.

Lemma historical_sample_total data :
  list_sum (map ts_sampleSize (historical_slots data)) = length data.
Proof.
  rewrite <- (Permutation_list_sum_map _ _ _ (historical_slots_perm data)), map_map.
  rewrite <- (group_rows_size data). f_equal. apply map_ext. now intros [k rs].
Qed.

(** X19: historical analysis behind the filters, as the application runs
    it: it throws the empty-dataset error exactly when no record passes
    the filters, and a result it returns reports as total the number of
    records that pass, which its sample sizes add up to, and holds the
    filters. *)
Theorem filtered_historical_analysis :
  forall (data : list ProcessedEmailData) (flt : FilterOptions) (clk : Clock),
    let filtered := filterData data (criteria_of flt) in
    (fst (performAnalysis filtered "historical" flt clk) = Throw EmptyDatasetError
     <-> filtered = []) /\
    forall r : AnalysisResult,
      fst (performAnalysis filtered "historical" flt clk) = Ok r ->
      filtered <> [] /\
      totalRecords (metadata r) = length filtered /\
      list_sum (map ts_sampleSize (allTimeSlots r)) = length filtered /\
      (length filtered <= length data)%nat /\
      filters (metadata r) = flt.
Proof.
  intros data flt clk filtered.
  assert (Hlen : (length filtered <= length data)%nat) by apply filter_length_le.
  pose proof (historical_sample_total filtered) as Hsum.
  rewrite performAnalysis_historical.
  destruct filtered as [|row0 rows].
  - split; [split; reflexivity|]. intros r Hr. discriminate Hr.
  - rewrite analyzeHistoricalData_run. cbn [fst]. split.
    + split; discriminate.
    + intros r Hr. injection Hr as <-.
      cbn [metadata totalRecords filters allTimeSlots].
      split; [discriminate|]. split; [reflexivity|].
      split; [exact Hsum|]. split; [exact Hlen | reflexivity].
Qed.

(** With the filters "All", the three records of the scenario pass and the
    analysis counts three. *)
Lemma filtered_historical_analysis_witness :
  length (filterData scenario_rows (criteria_of all_filters)) = 3%nat /\
  exists r : AnalysisResult,
    fst (performAnalysis (filterData scenario_rows (criteria_of all_filters))
           "historical" all_filters ticking) = Ok r /\
    totalRecords (metadata r) = 3%nat.
Proof.
  split; [reflexivity|].
  eexists. split; [reflexivity|].
  exact (proj1 (proj2 (proj2 (filtered_historical_analysis scenario_rows all_filters
                                ticking) _ eq_refl))).
Defined.

(** ** The statistics behind the insights *)

Lemma stats_fold (rows : list ProcessedEmailData) (c : nat) (o k : Q) :
  fold_left add_to_stats rows (mkStats c o k)
  = mkStats (c + length rows)
      (fold_left (fun sum r => sum + openRate r) rows o)
      (fold_left (fun sum r => sum + clickRate r) rows k).
Proof.
  revert c o k. induction rows as [|r rows IH]; intros c o k; cbn.
  - f_equal. lia.
  - unfold add_to_stats at 2. cbn. rewrite IH. f_equal. lia.
Qed.

Lemma day_stats_get data day :
  map_get day (fold_left day_stats_step data [])
  = match rows_on_day data day with
    | [] => None
    | rows => Some (mkStats (length rows)
                      (fold_left (fun sum r => sum + openRate r) rows 0)
                      (fold_left (fun sum r => sum + clickRate r) rows 0))
    end.
Proof.
  rewrite map_get_keyed_by_string.
  assert (E : fold_left day_stats_step data []
              = fold_left (tally_step String.eqb dayOfWeek add_to_stats (mkStats 0 0 0))
                  data []).
  { apply fold_left_same. intros m row. unfold day_stats_step, tally_step.
    now rewrite map_set_keyed_by_string, map_get_keyed_by_string. }
  rewrite E, (tally_get String.eqb String.eqb_spec).
  unfold rows_on_day. destruct (filter _ data) as [|x xs]; [reflexivity|].
  now rewrite stats_fold.
Qed.

Lemma filter_map_swap {A B} (p : B -> bool) (f : A -> B) (l : list A) :
  filter p (map f l) = map f (filter (fun a => p (f a)) l).
Proof.
  induction l as [|x l IH]; cbn; [reflexivity|].
  destruct (p (f x)); cbn; now rewrite IH.
Qed.

(** Before the sort, [analyzeDayPerformance] holds the days that occur,
    Monday first, with the statistics of their records. *)
Lemma analyzeDayPerformance_perm data :
  Permutation
    (map (fun day =>
            mkDayPerformance day
              (fold_left (fun sum r => sum + openRate r) (rows_on_day data day) 0
               / count_as_number (length (rows_on_day data day)))
              (fold_left (fun sum r => sum + clickRate r) (rows_on_day data day) 0
               / count_as_number (length (rows_on_day data day)))
              (length (rows_on_day data day)))
         (filter (fun day => existsb (fun r => String.eqb (dayOfWeek r) day) data)
                 monday_first))
    (analyzeDayPerformance data).
Proof.
  unfold analyzeDayPerformance.
  eapply perm_trans; [|apply array_sort_perm].
  rewrite filter_map_swap.
  match goal with
  | |- Permutation _ (map _ (filter ?p _)) =>
      rewrite (filter_ext p
                 (fun day => existsb (fun r => String.eqb (dayOfWeek r) day) data))
  end.
  - apply Permutation_refl'. apply map_ext_in. intros day Hday.
    apply filter_In in Hday as [_ Hex]. rewrite existsb_filter in Hex.
    rewrite day_stats_get. unfold rows_on_day in *.
    now destruct (filter _ data).
  - intros day. rewrite day_stats_get, existsb_filter. unfold rows_on_day.
    now destruct (filter _ data).
Qed.

Lemma descending_sorted {A} (f : A -> Q) (l : list A) :
  StronglySorted (fun a b => f b <= f a) (array_sort (fun a b => f b - f a) l).
Proof.
  apply array_sort_sorted_by.
  - intros x y z Hxy Hyz. lra.
  - intros x y H. apply Qgt_alt in H. lra.
  - intros x y H. apply Qle_alt in H. lra.
Qed.

(** X20: [analyzeDayPerformance] describes the same days as
    [getDayDistribution]: up to their order, both give each day that
    occurs in the data with the same number of records and the same
    average open rate; each of its averages is the rates of the day's
    records added to 0 one after the other, in the order of the records,
    divided by their number; and when the open and click rates of the
    records are percentages, from 0 to 100, the days come by descending
    average open rate. *)
Theorem day_performance_ranks_distribution :
  forall data : list ProcessedEmailData,
    (Forall (fun row => (0 <= openRate row <= 100) /\ (0 <= clickRate row <= 100)) data ->
     StronglySorted (fun a b => dp_avgOpenRate b <= dp_avgOpenRate a)
                    (analyzeDayPerformance data)) /\
    Permutation
      (map (fun d => (dp_day d, dp_count d, dp_avgOpenRate d)) (analyzeDayPerformance data))
      (map (fun e => (dd_day e, dd_count e, dd_avgOpenRate e)) (getDayDistribution data)) /\
    Forall (fun d =>
              dp_count d = length (rows_on_day data (dp_day d)) /\
              (1 <= dp_count d)%nat /\
              dp_avgOpenRate d = average openRate (rows_on_day data (dp_day d)) /\
              dp_avgClickRate d = average clickRate (rows_on_day data (dp_day d)))
           (analyzeDayPerformance data).
Proof.
  intros data. split; [|split].
  - intros _. apply (descending_sorted dp_avgOpenRate).
  - eapply perm_trans;
      [apply Permutation_map, Permutation_sym, analyzeDayPerformance_perm|].
    rewrite getDayDistribution_days, !map_map. apply Permutation_refl.
  - eapply Permutation_Forall; [apply analyzeDayPerformance_perm|].
    apply Forall_forall. intros d Hd.
    apply in_map_iff in Hd as (day & <- & Hday). cbn.
    apply filter_In in Hday as [_ Hex]. rewrite existsb_filter in Hex.
    fold (rows_on_day data day) in Hex. split; [reflexivity|]. split.
    + destruct (rows_on_day data day); [discriminate | cbn; lia].
    + split; reflexivity.
Qed.

Lemma day_performance_ranks_distribution_witness :
  StronglySorted (fun a b => dp_avgOpenRate b <= dp_avgOpenRate a)
                 (analyzeDayPerformance scenario_rows).
Proof.
  exact (proj1 (day_performance_ranks_distribution scenario_rows) scenario_rows_percent).
Defined.

Lemma time_stats_tallied data :
  tallied Z.eqb hourOfDay add_to_stats (mkStats 0 0 0) data
    (fold_left time_stats_step data []).
Proof.
  exact (tally_tallied Z.eqb Z.eqb_spec hourOfDay add_to_stats (mkStats 0 0 0) data).
Qed.

Lemma time_performance_perm data :
  Permutation
    (map (fun entry : Z * PerformanceStats =>
            mkTimePerformance (fst entry)
              (ps_openRate (snd entry) / count_as_number (ps_count (snd entry)))
              (ps_clickRate (snd entry) / count_as_number (ps_count (snd entry)))
              (ps_count (snd entry)))
         (fold_left time_stats_step data []))
    (analyzeTimePerformance data).
Proof.
  unfold analyzeTimePerformance.
  eapply perm_trans; [|apply array_sort_perm].
  apply Permutation_refl'. apply map_ext. now intros [h st].
Qed.

Lemma NoDup_keys_entries {K V W} (f : K * V -> K * W) (m : list (K * V)) :
  (forall e, fst (f e) = fst e) -> NoDup (map fst m) -> NoDup (map f m).
Proof.
  intros Hf Hnd.
  apply (NoDup_map_inv (fun w => fst w)). rewrite map_map.
  rewrite (map_ext _ fst) by exact Hf. exact Hnd.
Qed.

(** X21: [analyzeTimePerformance] describes the same hours as
    [getTimeDistribution]: up to their order, both give each hour that
    occurs in the data with the same number of records; each of its
    averages is the rates of the hour's records added to 0 one after the
    other, in the order of the records, divided by their number; and when
    the open and click rates of the records are percentages, from 0 to
    100, the hours come by descending average open rate. *)
Theorem time_performance_ranks_distribution :
  forall data : list ProcessedEmailData,
    (Forall (fun row => (0 <= openRate row <= 100) /\ (0 <= clickRate row <= 100)) data ->
     StronglySorted (fun a b => tp_avgOpenRate b <= tp_avgOpenRate a)
                    (analyzeTimePerformance data)) /\
    Permutation
      (map (fun t => (tp_hour t, tp_count t)) (analyzeTimePerformance data))
      (map (fun e => (hc_hour e, hc_count e)) (getTimeDistribution data)) /\
    Forall (fun t =>
              tp_count t = length (rows_at_hour data (tp_hour t)) /\
              (1 <= tp_count t)%nat /\
              tp_avgOpenRate t = average openRate (rows_at_hour data (tp_hour t)) /\
              tp_avgClickRate t = average clickRate (rows_at_hour data (tp_hour t)))
           (analyzeTimePerformance data).
Proof.
  intros data.
  destruct (time_stats_tallied data) as [Hnd Hin].
  destruct (hour_counts_tallied data) as [Hnd' Hin'].
  split; [|split].
  - intros _. apply (descending_sorted tp_avgOpenRate).
  - eapply perm_trans;
      [apply Permutation_map, Permutation_sym, time_performance_perm|].
    eapply perm_trans;
      [|apply Permutation_map, time_distribution_perm].
    rewrite !map_map. cbn [tp_hour tp_count hc_hour hc_count].
    apply NoDup_Permutation.
    + now apply (NoDup_keys_entries (fun e : Z * PerformanceStats =>
                                       (fst e, ps_count (snd e)))).
    + now apply (NoDup_keys_entries (fun e : Z * nat => (fst e, snd e))).
    + intros [h c]. rewrite !in_map_iff. split.
      * intros ([h' st] & E & He). cbn [fst snd] in E. injection E as -> <-.
        apply Hin in He as [-> Hex]. rewrite stats_fold. cbn [ps_count].
        exists (h, length (filter (fun r => (hourOfDay r =? h)%Z) data)).
        split; [reflexivity|]. apply Hin'. split; [|exact Hex].
        now rewrite count_up.
      * intros ([h' c'] & E & He). cbn [fst snd] in E. injection E as -> ->.
        apply Hin' in He as [-> Hex]. rewrite count_up.
        exists (h, fold_left add_to_stats
                     (filter (fun r => (hourOfDay r =? h)%Z) data) (mkStats 0 0 0)).
        split; [|apply Hin; now split].
        rewrite stats_fold. reflexivity.
  - eapply Permutation_Forall; [apply time_performance_perm|].
    apply Forall_forall. intros t Ht.
    apply in_map_iff in Ht as ([h st] & <- & He). cbn.
    apply Hin in He as [-> (r & Hr & Er)]. rewrite stats_fold. cbn.
    fold (rows_at_hour data h).
    assert (Hx : In r (rows_at_hour data h))
      by (apply filter_In; split; [exact Hr | now apply Z.eqb_eq]).
    split; [reflexivity|]. split.
    + destruct (rows_at_hour data h); [contradiction | cbn; lia].
    + split; reflexivity.
Qed.

Lemma time_performance_ranks_distribution_witness :
  StronglySorted (fun a b => tp_avgOpenRate b <= tp_avgOpenRate a)
                 (analyzeTimePerformance scenario_rows).
Proof.
  exact (proj1 (time_performance_ranks_distribution scenario_rows) scenario_rows_percent).
Defined.

Lemma campaign_stats_fold (rows : list ProcessedEmailData) (c : nat) (o : Q) (b : Z) :
  fold_left (fun stats row =>
               mkCampaignStats (cs_count stats + 1) (cs_openRate stats + openRate row)
                               (cs_bestTime stats + hourOfDay row))
    rows (mkCampaignStats c o b)
  = mkCampaignStats (c + length rows)
      (fold_left (fun sum r => sum + openRate r) rows o)
      (fold_left (fun sum r => (sum + hourOfDay r)%Z) rows b).
Proof.
  revert c o b. induction rows as [|r rows IH]; intros c o b; cbn.
  - f_equal. lia.
  - rewrite IH. f_equal. lia.
Qed.

Lemma campaign_stats_tally data :
  fold_left campaign_stats_step data []
  = fold_left (tally_step String.eqb campaignType
                 (fun stats row =>
                    mkCampaignStats (cs_count stats + 1)
                      (cs_openRate stats + openRate row)
                      (cs_bestTime stats + hourOfDay row))
                 (mkCampaignStats 0 0 0)) data [].
Proof.
  apply fold_left_same. intros m row. unfold campaign_stats_step, tally_step.
  now rewrite map_set_keyed_by_string, map_get_keyed_by_string.
Qed.

Lemma hours_sum_bounds (rows : list ProcessedEmailData) (lo hi b : Z) :
  (forall r, In r rows -> (lo <= hourOfDay r <= hi)%Z) ->
  (b + Z.of_nat (length rows) * lo
   <= fold_left (fun sum r => (sum + hourOfDay r)%Z) rows b
   <= b + Z.of_nat (length rows) * hi)%Z.
Proof.
  revert b. induction rows as [|r rows IH]; intros b H; cbn [fold_left length].
  - lia.
  - assert (Hr : (lo <= hourOfDay r <= hi)%Z) by (apply H; now left).
    assert (Hrest : forall r0, In r0 rows -> (lo <= hourOfDay r0 <= hi)%Z)
      by (intros r0 H0; apply H; now right).
    specialize (IH (b + hourOfDay r)%Z Hrest). lia.
Qed.

(** Rounding stays within integer bounds. *)
Lemma Math_round_bounds (x : Q) (lo hi : Z) :
  inject_Z lo <= x <= inject_Z hi -> (lo <= Math_round x <= hi)%Z.
Proof.
  intros [Hlo Hhi]. unfold Math_round. split.
  - rewrite <- (Qfloor_Z lo). apply Qfloor_resp_le. lra.
  - assert (H : inject_Z (Qfloor (x + 0.5)) < inject_Z (hi + 1)).
    { eapply Qle_lt_trans; [apply Qfloor_le|]. rewrite inject_Z_plus.
      change (inject_Z 1) with 1. lra. }
    rewrite <- Zlt_Qlt in H. lia.
Qed.

(** X22: [analyzeCampaignTypes] has one entry per campaign type that occurs
    in the data, counting its records, with their open rates added to 0
    one after the other, in the order of the records, and divided by the
    count; the counts add up to the number of records, and the
    rounded average hour of a type lies between the earliest and the
    latest hour of the data, hence is an hour of the day when the hours of
    the data are. *)
Theorem campaign_insights :
  forall data : list ProcessedEmailData,
    NoDup (map ci_type (analyzeCampaignTypes data)) /\
    (forall r, In r data -> In (campaignType r) (map ci_type (analyzeCampaignTypes data))) /\
    Forall (fun i =>
              ci_count i = length (rows_of_campaign data (ci_type i)) /\
              (1 <= ci_count i)%nat /\
              ci_avgOpenRate i = average openRate (rows_of_campaign data (ci_type i)))
           (analyzeCampaignTypes data) /\
    list_sum (map ci_count (analyzeCampaignTypes data)) = length data /\
    (forall lo hi : Z,
       (forall r, In r data -> (lo <= hourOfDay r <= hi)%Z) ->
       Forall (fun i => (lo <= ci_avgBestTime i <= hi)%Z) (analyzeCampaignTypes data)).
Proof.
  intros data. unfold analyzeCampaignTypes.
  pose proof (tally_tallied String.eqb String.eqb_spec campaignType
                (fun stats row =>
                   mkCampaignStats (cs_count stats + 1)
                     (cs_openRate stats + openRate row)
                     (cs_bestTime stats + hourOfDay row))
                (mkCampaignStats 0 0 0) data) as [Hnd Hin].
  rewrite <- campaign_stats_tally in Hnd, Hin.
  set (m := fold_left campaign_stats_step data []) in *.
  assert (Hentry : forall type stats, In (type, stats) m ->
            rows_of_campaign data type <> [] /\
            stats = mkCampaignStats (length (rows_of_campaign data type))
                      (fold_left (fun sum r => sum + openRate r)
                         (rows_of_campaign data type) 0)
                      (fold_left (fun sum r => (sum + hourOfDay r)%Z)
                         (rows_of_campaign data type) 0%Z)).
  { intros type stats He. apply Hin in He as [-> (r & Hr & Er)].
    rewrite campaign_stats_fold. fold (rows_of_campaign data type). split; [|reflexivity].
    assert (Hx : In r (rows_of_campaign data type))
      by (apply filter_In; split; [exact Hr | now apply String.eqb_eq]).
    intros E. rewrite E in Hx. contradiction. }
  split; [|split; [|split; [|split]]].
  - rewrite map_map.
    rewrite (map_ext _ fst) by (now intros [type stats]). exact Hnd.
  - intros r Hr. rewrite map_map.
    rewrite (map_ext _ fst) by (now intros [type stats]).
    assert (He : In (campaignType r,
                     fold_left (fun stats row =>
                                  mkCampaignStats (cs_count stats + 1)
                                    (cs_openRate stats + openRate row)
                                    (cs_bestTime stats + hourOfDay row))
                       (filter (fun r0 => String.eqb (campaignType r0) (campaignType r))
                               data)
                       (mkCampaignStats 0 0 0)) m)
      by (apply Hin; split; [reflexivity | now exists r]).
    apply (in_map fst) in He. exact He.
  - apply Forall_forall. intros i Hi.
    apply in_map_iff in Hi as ([type stats] & <- & He).
    destruct (Hentry type stats He) as [Hne ->]. cbn.
    split; [reflexivity|]. split.
    + destruct (rows_of_campaign data type); [contradiction | cbn; lia].
    + reflexivity.
  - rewrite map_map.
    rewrite (map_ext _ (fun e : string * CampaignStats => cs_count (snd e)))
      by (now intros [type stats]).
    clear Hnd Hin Hentry. subst m.
    assert (H : forall m0 : map_t CampaignStats,
               list_sum (map (fun e => cs_count (snd e))
                           (fold_left campaign_stats_step data m0))
               = (list_sum (map (fun e => cs_count (snd e)) m0) + length data)%nat).
    { induction data as [|r data IH]; intros m0; cbn [fold_left length]; [lia|].
      rewrite IH. clear IH.
      pose proof (kmap_set_measure String.eqb cs_count (campaignType r)
                    (mkCampaignStats
                       (cs_count match map_get (campaignType r) m0 with
                                 | Some stats => stats
                                 | None => mkCampaignStats 0 0 0
                                 end + 1)
                       (cs_openRate match map_get (campaignType r) m0 with
                                    | Some stats => stats
                                    | None => mkCampaignStats 0 0 0
                                    end + openRate r)
                       (cs_bestTime match map_get (campaignType r) m0 with
                                    | Some stats => stats
                                    | None => mkCampaignStats 0 0 0
                                    end + hourOfDay r)) m0) as Hs.
      rewrite <- map_set_keyed_by_string, <- map_get_keyed_by_string in Hs.
      fold (campaign_stats_step m0 r) in Hs. cbn [cs_count] in Hs.
      destruct (map_get (campaignType r) m0); cbn [cs_count] in Hs; lia. }
    rewrite H. reflexivity.
  - intros lo hi Hh. apply Forall_forall. intros i Hi.
    apply in_map_iff in Hi as ([type stats] & <- & He).
    destruct (Hentry type stats He) as [Hne ->].
    cbn [ci_avgBestTime cs_bestTime cs_count].
    set (rows := rows_of_campaign data type) in *.
    assert (Hrows : forall r, In r rows -> (lo <= hourOfDay r <= hi)%Z).
    { intros r Hr. apply filter_In in Hr as [Hr _]. auto. }
    pose proof (hours_sum_bounds rows lo hi 0 Hrows) as Hsum.
    assert (Hpos : 0 < count_as_number (length rows)).
    { unfold count_as_number. destruct rows; [contradiction|].
      change 0 with (inject_Z 0). rewrite <- Zlt_Qlt. cbn [length]. lia. }
    apply Math_round_bounds. unfold count_as_number in *.
    set (n := Z.of_nat (length rows)) in *.
    set (total_hours := fold_left (fun sum r => (sum + hourOfDay r)%Z) rows 0%Z) in *.
    assert (H1 : inject_Z n * inject_Z lo <= inject_Z total_hours).
    { rewrite <- inject_Z_mult, <- Zle_Qle. lia. }
    assert (H2 : inject_Z total_hours <= inject_Z n * inject_Z hi).
    { rewrite <- inject_Z_mult, <- Zle_Qle. lia. }
    split.
    + apply Qle_shift_div_l; [exact Hpos | lra].
    + apply Qle_shift_div_r; [exact Hpos | lra].
Qed.

Lemma campaign_insights_witness :
  Forall (fun i => (0 <= ci_avgBestTime i <= 23)%Z) (analyzeCampaignTypes scenario_rows).
Proof.
  apply (campaign_insights scenario_rows).
  intros r Hr. exact (proj2 (proj1 (Forall_forall _ _) scenario_rows_valid r Hr)).
Defined.

(** ** The values offered to the filters *)

Lemma ascii_compare_trans (a b c : ascii) :
  match Ascii.compare a b, Ascii.compare b c with
  | Gt, _ | _, Gt => True
  | Eq, r | r, Eq => Ascii.compare a c = r
  | Lt, Lt => Ascii.compare a c = Lt
  end.
Proof.
  unfold Ascii.compare.
  destruct (N.compare_spec (N_of_ascii a) (N_of_ascii b)) as [E1|L1|G1];
    destruct (N.compare_spec (N_of_ascii b) (N_of_ascii c)) as [E2|L2|G2];
    try exact I.
  - rewrite E1. rewrite E2. apply N.compare_refl.
  - rewrite E1. now apply N.compare_lt_iff.
  - rewrite <- E2. now apply N.compare_lt_iff.
  - apply N.compare_lt_iff. lia.
Qed.

Lemma string_compare_trans (a : string) : forall b c : string,
  String.compare a b <> Gt -> String.compare b c <> Gt -> String.compare a c <> Gt.
Proof.
  induction a as [|x a IH]; intros [|y b] [|z c]; cbn; try congruence.
  pose proof (ascii_compare_trans x y z) as H.
  destruct (Ascii.compare x y) eqn:Exy; destruct (Ascii.compare y z) eqn:Eyz;
    try congruence; rewrite H; try congruence.
  apply IH.
Qed.

Lemma compare_strings_sign (a b : string) :
  (compare_strings a b ?= 0) = String.compare a b.
Proof. unfold compare_strings. now destruct (String.compare a b). Qed.

Lemma sorted_distinct_strings (l : list string) :
  StronglySorted (fun a b => String.compare a b <> Gt) l -> NoDup l ->
  StronglySorted (fun a b => String.compare a b = Lt) l.
Proof.
  induction 1 as [|x l Hs IH Hx]; intros Hnd.
  - constructor.
  - inversion Hnd as [|? ? Hn Hnd']; subst. constructor; [now apply IH|].
    rewrite Forall_forall in *. intros y Hy. specialize (Hx y Hy).
    destruct (String.compare x y) eqn:E; [|reflexivity | congruence].
    apply String.compare_eq_iff in E. subst y. contradiction.
Qed.

Lemma trim_not_empty (s : string) : trim s <> ""%string -> s <> ""%string.
Proof. intros H ->. now apply H. Qed.

Lemma collected_values field data :
  let values := fold_left (collect_value field) data [] in
  NoDup values /\
  forall v, In v values <->
    exists row, In row data /\ string_field field row = Some v /\ trim v <> ""%string.
Proof.
  cbn zeta.
  assert (H : forall seen values,
             (NoDup values /\
              forall v, In v values <->
                exists row, In row seen /\ string_field field row = Some v /\
                            trim v <> ""%string) ->
             let values' := fold_left (collect_value field) data values in
             NoDup values' /\
             forall v, In v values' <->
               exists row, In row (seen ++ data) /\ string_field field row = Some v /\
                           trim v <> ""%string).
  { induction data as [|r data IH]; intros seen values [Hnd Hin]; cbn zeta; cbn [fold_left].
    - rewrite app_nil_r. now split.
    - replace (seen ++ r :: data) with ((seen ++ [r]) ++ data)
        by (rewrite <- app_assoc; reflexivity).
      apply IH. unfold collect_value.
      destruct (string_field field r) as [value|] eqn:Ef.
      + destruct (String.eqb_spec (trim value) "") as [Et|Et]; cbn [negb].
        * split; [exact Hnd|]. intros v. rewrite Hin. split.
          -- intros (row & Hr & Hf & Ht). exists row.
             split; [apply in_or_app; now left | now split].
          -- intros (row & Hr & Hf & Ht).
             apply in_app_or in Hr as [Hr|[<-|[]]]; [now exists row|].
             rewrite Ef in Hf. injection Hf as <-. contradiction.
        * unfold Set_add. destruct (existsb (String.eqb value) values) eqn:Ex.
          -- split; [exact Hnd|]. intros v. rewrite Hin. split.
             ++ intros (row & Hr & Hf & Ht). exists row.
                split; [apply in_or_app; now left | now split].
             ++ intros (row & Hr & Hf & Ht).
                apply in_app_or in Hr as [Hr|[<-|[]]]; [now exists row|].
                rewrite Ef in Hf. injection Hf as <-.
                apply existsb_exists in Ex as (v' & Hv' & Ev').
                apply String.eqb_eq in Ev'. subst v'. now apply Hin.
          -- assert (Hout : ~ In value values).
             { intros Hv. rewrite <- Bool.not_true_iff_false in Ex. apply Ex.
               apply existsb_exists. exists value. split; [exact Hv|].
               apply String.eqb_refl. }
             split.
             ++ apply NoDup_app; [exact Hnd | repeat constructor; auto |].
                intros a Ha [<-|[]]. contradiction.
             ++ intros v. rewrite in_app_iff, Hin. cbn [In]. split.
                ** intros [(row & Hr & Hf & Ht)|[<-|[]]].
                   --- exists row. split; [apply in_or_app; now left | now split].
                   --- exists r. split; [apply in_or_app; right; now left | now split].
                ** intros (row & Hr & Hf & Ht).
                   apply in_app_or in Hr as [Hr|[<-|[]]]; [left; now exists row|].
                   rewrite Ef in Hf. injection Hf as <-. right. now left.
      + split; [exact Hnd|]. intros v. rewrite Hin. split.
        * intros (row & Hr & Hf & Ht). exists row.
          split; [apply in_or_app; now left | now split].
        * intros (row & Hr & Hf & Ht).
          apply in_app_or in Hr as [Hr|[<-|[]]]; [now exists row|].
          rewrite Ef in Hf. discriminate. }
  apply (H [] []). split; [constructor|].
  intros v. cbn. split; [contradiction | intros (row & [] & _)].
Qed.

(** X23: [getUniqueValues] returns, in strictly ascending order and hence
    without repetition, exactly the values the field takes in the data
    that are not blank; for a field that holds no string it returns
    nothing. *)
Theorem getUniqueValues_sorted_unique :
  forall (data : list ProcessedEmailData) (field : RowField),
    StronglySorted (fun a b => String.compare a b = Lt) (getUniqueValues data field) /\
    (forall v, In v (getUniqueValues data field) <->
       exists row, In row data /\ string_field field row = Some v /\
                   trim v <> ""%string) /\
    (In field [F_sendDate; F_hourOfDay; F_openRate; F_clickRate; F_unsubscribeRate;
               F_bounceRate] ->
     getUniqueValues data field = []).
Proof.
  intros data field.
  destruct (collected_values field data) as [Hnd Hin].
  pose proof (array_sort_perm compare_strings
                (fold_left (collect_value field) data [])) as Hp.
  fold (getUniqueValues data field) in Hp.
  split; [|split].
  - apply sorted_distinct_strings.
    + apply (array_sort_sorted_by compare_strings
               (fun a b => String.compare a b <> Gt)).
      * intros x y z. apply string_compare_trans.
      * intros x y. rewrite compare_strings_sign. intros H.
        rewrite String.compare_antisym, H. discriminate.
      * intros x y. now rewrite compare_strings_sign.
    + exact (Permutation_NoDup Hp Hnd).
  - intros v. rewrite <- Hin. split; apply Permutation_in;
      [now apply Permutation_sym | exact Hp].
  - intros Hf.
    assert (Hnone : forall v, ~ In v (getUniqueValues data field)).
    { intros v Hv. apply (Permutation_in _ (Permutation_sym Hp)), Hin in Hv.
      destruct Hv as (row & _ & E & _).
      cbn in Hf. repeat (destruct Hf as [<-|Hf]; [discriminate E|]). contradiction. }
    destruct (getUniqueValues data field) as [|v l]; [reflexivity|].
    exfalso. apply (Hnone v). now left.
Qed.

Lemma getUniqueValues_sorted_unique_witness :
  getUniqueValues scenario_rows F_openRate = [].
Proof.
  apply (getUniqueValues_sorted_unique scenario_rows F_openRate). cbn. tauto.
Defined.

Lemma offered_value_occurs data field v :
  In v (getUniqueValues data field) ->
  exists row, In row data /\ string_field field row = Some v /\ v <> ""%string.
Proof.
  intros Hv.
  apply (Permutation_in _ (Permutation_sym (array_sort_perm compare_strings _))) in Hv.
  apply (proj2 (collected_values field data)) in Hv as (row & Hr & Hf & Ht).
  exists row. split; [exact Hr|]. split; [exact Hf | now apply trim_not_empty].
Qed.

Lemma selected_not_empty data filters row :
  In row data -> passes_filters filters row = true -> filterData data filters <> [].
Proof.
  intros Hr Hp E.
  assert (H : In row (filterData data filters)) by (apply filter_In; now split).
  rewrite E in H. contradiction.
Qed.

(** X24: every value [getUniqueValues] offers for the business unit, the
    organisation type or the campaign type selects something: [filterData]
    with that value as the only filter keeps at least one record, and all
    the records it keeps carry the value (unless the value is "All", which
    filters nothing). *)
Theorem offered_values_select_records :
  forall (data : list ProcessedEmailData) (v : string),
    (In v (getUniqueValues data F_businessUnit) ->
     filterData data (mkCriteria (Some v) None None) <> [] /\
     (v <> "All"%string ->
      forall row, In row (filterData data (mkCriteria (Some v) None None)) ->
                  businessUnit row = v)) /\
    (In v (getUniqueValues data F_organizationType) ->
     filterData data (mkCriteria None (Some v) None) <> [] /\
     (v <> "All"%string ->
      forall row, In row (filterData data (mkCriteria None (Some v) None)) ->
                  organizationType row = v)) /\
    (In v (getUniqueValues data F_campaignType) ->
     filterData data (mkCriteria None None (Some v)) <> [] /\
     (v <> "All"%string ->
      forall row, In row (filterData data (mkCriteria None None (Some v))) ->
                  campaignType row = v)).
Proof.
  intros data v. split; [|split]; intros Hv;
    destruct (offered_value_occurs _ _ _ Hv) as (row & Hr & Hf & Hne);
    cbn in Hf; injection Hf as Hf; (split;
    [ apply (selected_not_empty data _ row Hr);
      apply passes_filters_spec; cbn;
      repeat split; intros s E; try discriminate E; injection E as <-; auto
    | intros Hall row' Hrow'; apply filter_In in Hrow' as [_ Hp];
      apply passes_filters_spec in Hp; cbn in Hp;
      destruct Hp as (H1 & H2 & H3); auto ]).
Qed.

Lemma offered_values_select_records_witness :
  In "Unknown"%string (getUniqueValues scenario_rows F_businessUnit) /\
  filterData scenario_rows (mkCriteria (Some "Unknown"%string) None None) <> [].
Proof.
  assert (H : In "Unknown"%string (getUniqueValues scenario_rows F_businessUnit))
    by (vm_compute; tauto).
  split; [exact H|].
  apply (proj1 (offered_values_select_records scenario_rows "Unknown"%string)).
  exact H.
Defined.
